(** * Sales aggregation pipeline (eda.py, polarsUtils.py)

    A shallow embedding of the pipeline stages of the repository:
    [cleanDateColumn], [filterLastNDaysFromMaxDate], the grouped sums of
    [prepareSummaryStatistics] and [prepareTopSellers], and the shaping
    that follows them.

    The Python functions are thin compositions of polars, pandas and
    datetime calls.  Each library call the stages make is embedded with
    the behaviour the library documents for the arguments the source
    passes (defaults included), in the module named after the library.

    - a polars column is a typed list of nullable values, a frame an
      ordered list of named columns;
    - [Int64] arithmetic wraps, written out with [wrap64];
    - a [Datetime] value is a count of microseconds since the epoch;
    - a Python exception is a value of [exn], a call that may raise
      returns a [result];
    - where polars leaves an order open (group order of [group_by], order
      of equal keys in [sort], both called without [maintain_order]), the
      choice is made by an [Engine];
    - binary64 numbers are [spec_float]s; the reductions that return them
      (mean, median, standard deviation) and rounding are the operations
      of a [Float64Ops] structure;
    - the sale price is an [Int64] column: a [Float64] column is outside
      the embedding. *)

From Stdlib Require Import ZArith List String Ascii Bool Lia.
From Stdlib Require Import Permutation Sorted SpecFloat.
Import ListNotations.

Local Open Scope string_scope.
Local Open Scope list_scope.
Local Open Scope Z_scope.

(* ================================================================== *)
(** * Python: exceptions and results *)

Module Py.

(** The exception classes the pipeline can raise.  [ValueError] carries
    its message: the source raises it at several places. *)
Inductive exn : Type :=
| TypeError (msg : string)
| ValueError (msg : string)
| OverflowError (msg : string)
| ColumnNotFoundError (col : string)
| DuplicateError (col : string)
| InvalidOperationError (msg : string)
| SchemaError (msg : string).

Inductive result (A : Type) : Type :=
| Ok (a : A)
| Raise (e : exn).
Arguments Ok {A} a.
Arguments Raise {A} e.

Definition bind {A B} (r : result A) (k : A -> result B) : result B :=
  match r with
  | Ok a => k a
  | Raise e => Raise e
  end.

(** A binary64 number. *)
Definition f64 : Type := spec_float.

(** Values polars hands to Python ([item()], [to_dict]). *)
Inductive value : Type :=
| PyNone
| PyStr (s : string)
| PyInt (z : Z)
| PyFloat (f : f64)
| PyDate (days : Z)
| PyDatetime (us : Z).

(** datetime.min = 0001-01-01T00:00:00 and
    datetime.max = 9999-12-31T23:59:59.999999, in microseconds since
    1970-01-01T00:00:00. *)
Definition datetime_min : Z := -62135596800000000.
Definition datetime_max : Z := 253402300799999999.

Definition in_datetime_range (us : Z) : bool :=
  (datetime_min <=? us) && (us <=? datetime_max).

Definition us_per_day : Z := 86400000000.

(** [timedelta(days=d)]: the constructor refuses more than 999999999
    days in either direction. *)
Definition timedelta_max_days : Z := 999999999.

Definition timedelta (days : Z) : result Z :=
  if (Z.abs days <=? timedelta_max_days)
  then Ok (days * us_per_day)
  else Raise (OverflowError "days; must have magnitude <= 999999999").

(** [dt - td] on a datetime: the difference has to be a datetime. *)
Definition datetime_sub (dt td : Z) : result Z :=
  let r := dt - td in
  if in_datetime_range r then Ok r
  else Raise (OverflowError "date value out of range").

End Py.

Export Py.

Declare Scope py_scope.
Notation "x <- c1 ;; c2" := (Py.bind c1 (fun x => c2))
  (at level 61, c1 at next level, right associativity) : py_scope.
Local Open Scope py_scope.

(* ================================================================== *)
(** * chrono: the date pattern of [cleanDateColumn]

    polars parses and formats a pattern it has no fast path for with
    chrono ([NaiveDateTime::parse_from_str], [format]).  The pattern of
    the source, "%b %e %Y %I:%M%p", is one of those.  Only the
    specifiers of that pattern are embedded. *)

Module Chrono.

(** ** Proleptic Gregorian calendar *)

Definition is_leap (y : Z) : bool :=
  ((y mod 4 =? 0) && negb (y mod 100 =? 0)) || (y mod 400 =? 0).

Definition days_in_month (y m : Z) : Z :=
  if m =? 2 then (if is_leap y then 29 else 28)
  else if (m =? 4) || (m =? 6) || (m =? 9) || (m =? 11) then 30
  else 31.

(** Years a [NaiveDate] can hold. *)
Definition MIN_YEAR : Z := -262143.
Definition MAX_YEAR : Z := 262142.

Definition valid_ymd (y m d : Z) : bool :=
  (MIN_YEAR <=? y) && (y <=? MAX_YEAR)
  && (1 <=? m) && (m <=? 12)
  && (1 <=? d) && (d <=? days_in_month y m).

(** Day of the 400-year era of a date, counted from March 1st. *)
Definition day_of_era (yoe m d : Z) : Z :=
  let mp := (m + 9) mod 12 in
  let doy := (153 * mp + 2) / 5 + d - 1 in
  yoe * 365 + yoe / 4 - yoe / 100 + doy.

(** Days from 1970-01-01 to the date. *)
Definition days_from_civil (y m d : Z) : Z :=
  let y' := if m <=? 2 then y - 1 else y in
  let era := y' / 400 in
  let yoe := y' - era * 400 in
  era * 146097 + day_of_era yoe m d - 719468.

(** Year of the era (shifted to start in March), month and day of a day
    of the era. *)
Definition civil_of_era_day (doe : Z) : Z * Z * Z :=
  let yoe := (doe - doe / 1460 + doe / 36524 - doe / 146096) / 365 in
  let doy := doe - (365 * yoe + yoe / 4 - yoe / 100) in
  let mp := (5 * doy + 2) / 153 in
  let d := doy - (153 * mp + 2) / 5 + 1 in
  let m := if mp <? 10 then mp + 3 else mp - 9 in
  (yoe, m, d).

Definition civil_from_days (z : Z) : Z * Z * Z :=
  let z' := z + 719468 in
  let era := z' / 146097 in
  let doe := z' - era * 146097 in
  let '(yoe, m, d) := civil_of_era_day doe in
  let y' := yoe + era * 400 in
  ((if m <=? 2 then y' + 1 else y'), m, d).

(** The date of the day of the era of a date is the date, as a check
    of one date.  The year of the era starts in March, so January and
    February belong to the civil year after it. *)
Definition era_day_ok (yoe m d : Z) : bool :=
  let y := if m <=? 2 then yoe + 1 else yoe in
  if (1 <=? d) && (d <=? days_in_month y m) then
    let doe := day_of_era yoe m d in
    (0 <=? doe) && (doe <? 146097)
    && (let '(yoe', m', d') := civil_of_era_day doe in
        (yoe' =? yoe) && (m' =? m) && (d' =? d))
  else true.

Definition Z_range (lo : Z) (n : nat) : list Z :=
  map (fun i => lo + Z.of_nat i) (seq 0 n).

(** A naive date and time to the minute, as the pattern carries it;
    [hour] is 0..23.  Seconds and below are zero after parsing and are
    not printed. *)
Record NaiveDateTime : Type := mkNaive {
  year : Z; month : Z; day : Z; hour : Z; minute : Z
}.

(** A date that exists, with an hour and a minute of the day. *)
Definition valid_datetime (dt : NaiveDateTime) : Prop :=
  valid_ymd (year dt) (month dt) (day dt) = true /\
  0 <= hour dt <= 23 /\ 0 <= minute dt <= 59.

Definition us_per_minute : Z := 60000000.

(** [timestamp_micros] *)
Definition timestamp_micros (dt : NaiveDateTime) : Z :=
  days_from_civil (year dt) (month dt) (day dt) * Py.us_per_day
  + (hour dt * 60 + minute dt) * us_per_minute.

(** The date and minute of a microsecond count. *)
Definition from_timestamp_micros (us : Z) : NaiveDateTime :=
  let days := us / Py.us_per_day in
  let rem := us mod Py.us_per_day in
  let '(y, m, d) := civil_from_days days in
  let minutes := rem / us_per_minute in
  mkNaive y m d (minutes / 60) (minutes mod 60).

(** ** Characters *)

Definition byte (c : ascii) : Z := Z.of_nat (nat_of_ascii c).

Definition is_digit (c : ascii) : bool :=
  (48 <=? byte c) && (byte c <=? 57).

Definition digit_val (c : ascii) : Z := byte c - 48.

Definition digit (d : Z) : ascii := ascii_of_nat (Z.to_nat (48 + d)).

(** [b | 32]: ASCII letters to lower case. *)
Definition lower (c : ascii) : Z := Z.lor (byte c) 32.

(** White_Space of one byte: U+0009..U+000D and U+0020. *)
Definition is_ws1 (c : ascii) : bool :=
  ((9 <=? byte c) && (byte c <=? 13)) || (byte c =? 32).

(** White_Space of two bytes in UTF-8: U+0085 and U+00A0. *)
Definition is_ws2 (c1 c2 : ascii) : bool :=
  (byte c1 =? 194) && ((byte c2 =? 133) || (byte c2 =? 160)).

(** White_Space of three bytes in UTF-8: U+1680, U+2000..U+200A,
    U+2028, U+2029, U+202F, U+205F and U+3000. *)
Definition is_ws3 (c1 c2 c3 : ascii) : bool :=
  ((byte c1 =? 225) && (byte c2 =? 154) && (byte c3 =? 128))
  || ((byte c1 =? 226) && (byte c2 =? 128)
      && (((128 <=? byte c3) && (byte c3 <=? 138))
          || (byte c3 =? 168) || (byte c3 =? 169) || (byte c3 =? 175)))
  || ((byte c1 =? 226) && (byte c2 =? 129) && (byte c3 =? 159))
  || ((byte c1 =? 227) && (byte c2 =? 128) && (byte c3 =? 128)).

(** [str::trim_start] *)
Fixpoint trim_start (s : string) : string :=
  match s with
  | EmptyString => EmptyString
  | String c1 s1 =>
      if is_ws1 c1 then trim_start s1
      else match s1 with
           | EmptyString => s
           | String c2 s2 =>
               if is_ws2 c1 c2 then trim_start s2
               else match s2 with
                    | EmptyString => s
                    | String c3 s3 =>
                        if is_ws3 c1 c2 c3 then trim_start s3 else s
                    end
           end
  end.

(** ** Format items *)

Inductive Pad : Type := PadZero | PadSpace.
Inductive Numeric : Type := Year | Day | Hour12 | Minute.
Inductive Fixed : Type := ShortMonthName | UpperAmPm.

Inductive Item : Type :=
| Literal (c : ascii)
| Space
| Num (n : Numeric) (p : Pad)
| Fix (f : Fixed)
| Error.

Definition item_of_spec (c : ascii) : Item :=
  if (byte c =? 98) then Fix ShortMonthName          (* %b *)
  else if (byte c =? 101) then Num Day PadSpace      (* %e *)
  else if (byte c =? 89) then Num Year PadZero       (* %Y *)
  else if (byte c =? 73) then Num Hour12 PadZero     (* %I *)
  else if (byte c =? 77) then Num Minute PadZero     (* %M *)
  else if (byte c =? 112) then Fix UpperAmPm         (* %p *)
  else Error.

(** [StrftimeItems::new(fmt)], one item per character of the text
    between specifiers. *)
Fixpoint strftime_items (fmt : string) : list Item :=
  match fmt with
  | EmptyString => []
  | String c rest =>
      if (byte c =? 37) then
        match rest with
        | EmptyString => [Error]
        | String spec rest' => item_of_spec spec :: strftime_items rest'
        end
      else (if is_ws1 c then Space else Literal c) :: strftime_items rest
  end.

(** ** Parsing *)

(** [scan::number]: up to [max] digits; the value, how many digits were
    read, and the rest. *)
Fixpoint scan_digits (max : nat) (acc : Z) (n : nat) (s : string)
  : Z * nat * string :=
  match max, s with
  | S max', String c s' =>
      if is_digit c then scan_digits max' (acc * 10 + digit_val c) (S n) s'
      else (acc, n, s)
  | _, _ => (acc, n, s)
  end.

Definition i64_max : Z := 9223372036854775807.

Definition number (s : string) (min max : nat) : option (Z * string) :=
  let '(v, n, rest) := scan_digits max 0 0%nat s in
  if (n <? min)%nat then None
  else if i64_max <? v then None
  else Some (v, rest).

(** A signed number takes every digit after an explicit sign, and at
    most [width] digits without one. *)
Definition signed_number (s : string) (width : nat) : option (Z * string) :=
  match s with
  | String c s' =>
      if (byte c =? 45) then                       (* '-' *)
        match number s' 1 (String.length s') with
        | Some (v, rest) => Some (- v, rest)
        | None => None
        end
      else if (byte c =? 43) then                  (* '+' *)
        number s' 1 (String.length s')
      else number s 1 width
  | EmptyString => number s 1 width
  end.

(** The fields the pattern sets in chrono's [Parsed]. *)
Record Parsed : Type := mkParsed {
  p_year : option Z;
  p_month : option Z;
  p_day : option Z;
  p_hour_div_12 : option Z;
  p_hour_mod_12 : option Z;
  p_minute : option Z
}.

Definition Parsed_new : Parsed := mkParsed None None None None None None.

(** [set_if_consistent] *)
Definition set_if_consistent (old : option Z) (new : Z) : option (option Z) :=
  match old with
  | Some v => if v =? new then Some old else None
  | None => Some (Some new)
  end.

Definition set_year (p : Parsed) (v : Z) : option Parsed :=
  match set_if_consistent (p_year p) v with
  | Some y => Some (mkParsed y (p_month p) (p_day p) (p_hour_div_12 p)
                             (p_hour_mod_12 p) (p_minute p))
  | None => None
  end.

Definition set_month (p : Parsed) (v : Z) : option Parsed :=
  match set_if_consistent (p_month p) v with
  | Some m => Some (mkParsed (p_year p) m (p_day p) (p_hour_div_12 p)
                             (p_hour_mod_12 p) (p_minute p))
  | None => None
  end.

Definition set_day (p : Parsed) (v : Z) : option Parsed :=
  match set_if_consistent (p_day p) v with
  | Some d => Some (mkParsed (p_year p) (p_month p) d (p_hour_div_12 p)
                             (p_hour_mod_12 p) (p_minute p))
  | None => None
  end.

Definition set_hour12 (p : Parsed) (v : Z) : option Parsed :=
  if (v <? 1) || (12 <? v) then None
  else match set_if_consistent (p_hour_mod_12 p) (v mod 12) with
       | Some h => Some (mkParsed (p_year p) (p_month p) (p_day p)
                                  (p_hour_div_12 p) h (p_minute p))
       | None => None
       end.

Definition set_ampm (p : Parsed) (pm : bool) : option Parsed :=
  match set_if_consistent (p_hour_div_12 p) (if pm then 1 else 0) with
  | Some h => Some (mkParsed (p_year p) (p_month p) (p_day p) h
                             (p_hour_mod_12 p) (p_minute p))
  | None => None
  end.

Definition set_minute (p : Parsed) (v : Z) : option Parsed :=
  match set_if_consistent (p_minute p) v with
  | Some m => Some (mkParsed (p_year p) (p_month p) (p_day p)
                             (p_hour_div_12 p) (p_hour_mod_12 p) m)
  | None => None
  end.

Definition month_names : list string :=
  ["jan"; "feb"; "mar"; "apr"; "may"; "jun";
   "jul"; "aug"; "sep"; "oct"; "nov"; "dec"].

Fixpoint index_of (key : list Z) (names : list string) (i : Z) : option Z :=
  match names with
  | [] => None
  | n :: names' =>
      if list_eq_dec Z.eq_dec key (map byte (list_ascii_of_string n))
      then Some i
      else index_of key names' (i + 1)
  end.

(** [scan::short_month0]: three bytes, compared in lower case. *)
Definition short_month0 (s : string) : option (Z * string) :=
  match s with
  | String c1 (String c2 (String c3 rest)) =>
      match index_of [lower c1; lower c2; lower c3] month_names 0 with
      | Some m0 => Some (m0, rest)
      | None => None
      end
  | _ => None
  end.

Definition am_pm (s : string) : option (bool * string) :=
  match s with
  | String c1 (String c2 rest) =>
      if (lower c1 =? 97) && (lower c2 =? 109) then Some (false, rest)
      else if (lower c1 =? 112) && (lower c2 =? 109) then Some (true, rest)
      else None
  | _ => None
  end.

Definition parse_item (it : Item) (p : Parsed) (s : string)
  : option (Parsed * string) :=
  match it with
  | Literal c =>
      match s with
      | String c' s' => if (byte c =? byte c') then Some (p, s') else None
      | EmptyString => None
      end
  | Space => Some (p, trim_start s)
  | Num spec _ =>
      let s := trim_start s in
      match spec with
      | Year =>
          match signed_number s 4 with
          | Some (v, rest) => option_map (fun p' => (p', rest)) (set_year p v)
          | None => None
          end
      | Day =>
          match number s 1 2 with
          | Some (v, rest) => option_map (fun p' => (p', rest)) (set_day p v)
          | None => None
          end
      | Hour12 =>
          match number s 1 2 with
          | Some (v, rest) => option_map (fun p' => (p', rest)) (set_hour12 p v)
          | None => None
          end
      | Minute =>
          match number s 1 2 with
          | Some (v, rest) => option_map (fun p' => (p', rest)) (set_minute p v)
          | None => None
          end
      end
  | Fix ShortMonthName =>
      match short_month0 s with
      | Some (m0, rest) =>
          option_map (fun p' => (p', rest)) (set_month p (m0 + 1))
      | None => None
      end
  | Fix UpperAmPm =>
      match am_pm s with
      | Some (pm, rest) => option_map (fun p' => (p', rest)) (set_ampm p pm)
      | None => None
      end
  | Error => None
  end.

(** [parse_internal]: every item in turn; nothing may be left over. *)
Fixpoint parse_items (items : list Item) (p : Parsed) (s : string)
  : option Parsed :=
  match items with
  | [] => match s with EmptyString => Some p | _ => None end
  | it :: items' =>
      match parse_item it p s with
      | Some (p', s') => parse_items items' p' s'
      | None => None
      end
  end.

(** [Parsed::to_naive_datetime_with_offset(0)] for the fields of the
    pattern: the date has to exist, the hour and minute are needed,
    seconds default to zero. *)
Definition to_naive_datetime (p : Parsed) : option NaiveDateTime :=
  match p_year p, p_month p, p_day p,
        p_hour_div_12 p, p_hour_mod_12 p, p_minute p with
  | Some y, Some m, Some d, Some hd, Some hm, Some mi =>
      if valid_ymd y m d
         && (0 <=? hd) && (hd <=? 1) && (0 <=? hm) && (hm <=? 11)
         && (0 <=? mi) && (mi <=? 59)
      then Some (mkNaive y m d (hd * 12 + hm) mi)
      else None
  | _, _, _, _, _, _ => None
  end.

(** [NaiveDateTime::parse_from_str(s, fmt)] *)
Definition parse_from_str (s fmt : string) : option NaiveDateTime :=
  match parse_items (strftime_items fmt) Parsed_new s with
  | Some p => to_naive_datetime p
  | None => None
  end.

(** ** Formatting *)

(** [w] decimal digits of [n], the most significant first, before
    [acc]. *)
Fixpoint digits (w : nat) (n : Z) (acc : string) : string :=
  match w with
  | O => acc
  | S w' => digits w' (n / 10) (String (digit (n mod 10)) acc)
  end.

(** The least width from [w] on, within [fuel] steps, that holds [n]. *)
Fixpoint width_from (fuel w : nat) (n : Z) : nat :=
  match fuel with
  | O => w
  | S fuel' => if n <? 10 ^ Z.of_nat w then w else width_from fuel' (S w) n
  end.

(** Two columns, the first one blank or zero below ten. *)
Definition pad2 (p : Pad) (n : Z) : string :=
  if n <? 10 then
    String (match p with PadZero => "0"%char | PadSpace => " "%char end)
           (digits 1 n EmptyString)
  else digits 2 n EmptyString.

(** A year of four digits is printed as such; any other carries its
    sign and at least four digits. *)
Definition format_year (y : Z) : string :=
  if (0 <=? y) && (y <=? 9999) then digits 4 y EmptyString
  else String (if y <? 0 then "-"%char else "+"%char)
              (digits (width_from 15 4 (Z.abs y)) (Z.abs y) EmptyString).

Definition short_months : list string :=
  ["Jan"; "Feb"; "Mar"; "Apr"; "May"; "Jun";
   "Jul"; "Aug"; "Sep"; "Oct"; "Nov"; "Dec"].

Definition hour12 (h : Z) : Z :=
  let h12 := h mod 12 in if h12 =? 0 then 12 else h12.

Definition format_item (it : Item) (dt : NaiveDateTime) : string :=
  match it with
  | Literal c => String c EmptyString
  | Space => " "
  | Num Year _ => format_year (year dt)
  | Num Day p => pad2 p (day dt)
  | Num Hour12 p => pad2 p (hour12 (hour dt))
  | Num Minute p => pad2 p (minute dt)
  | Fix ShortMonthName => nth (Z.to_nat (month dt - 1)) short_months ""
  | Fix UpperAmPm => if hour dt <? 12 then "AM" else "PM"
  | Error => ""
  end.

(** [dt.format(fmt).to_string()] *)
Definition format (dt : NaiveDateTime) (fmt : string) : string :=
  fold_right (fun it acc => (format_item it dt ++ acc)%string) EmptyString
             (strftime_items fmt).

End Chrono.

(* ================================================================== *)
(** * polars: columns and frames *)

Module Polars.

(** ** Int64 *)

Definition wrap64 (z : Z) : Z := (z + 2 ^ 63) mod 2 ^ 64 - 2 ^ 63.
Definition wadd (a b : Z) : Z := wrap64 (a + b).

(** ** Series and DataFrame *)

Inductive Series : Type :=
| Utf8 (vs : list (option string))
| Int64 (vs : list (option Z))
| Date (vs : list (option Z))
| Datetime (vs : list (option Z)).

Definition DataFrame : Type := list (string * Series).

(** One value of a row, with its type. *)
Inductive Cell : Type :=
| CStr (s : string)
| CInt (z : Z)
| CDate (d : Z)
| CDatetime (us : Z).

Definition cells (s : Series) : list (option Cell) :=
  match s with
  | Utf8 vs => map (option_map CStr) vs
  | Int64 vs => map (option_map CInt) vs
  | Date vs => map (option_map CDate) vs
  | Datetime vs => map (option_map CDatetime) vs
  end.

Definition len (s : Series) : nat :=
  match s with
  | Utf8 vs => List.length vs
  | Int64 vs | Date vs | Datetime vs => List.length vs
  end.

Definition columns (df : DataFrame) : list string := map fst df.

Definition height (df : DataFrame) : nat :=
  match df with
  | [] => 0%nat
  | (_, s) :: _ => len s
  end.

(** The invariant of a polars frame: every column has the frame's
    height, and no name is used twice. *)
Definition wf (df : DataFrame) : Prop :=
  NoDup (columns df) /\ Forall (fun c => len (snd c) = height df) df.

Fixpoint get_column (df : DataFrame) (name : string) : option Series :=
  match df with
  | [] => None
  | (n, s) :: df' => if (n =? name)%string then Some s else get_column df' name
  end.

(** [name in df.columns] *)
Definition has_column (df : DataFrame) (name : string) : bool :=
  existsb (fun n => (n =? name)%string) (columns df).

(** [pl.col(name)] evaluated on a frame. *)
Definition col (df : DataFrame) (name : string) : Py.result Series :=
  match get_column df name with
  | Some s => Ok s
  | None => Raise (ColumnNotFoundError name)
  end.

(** The row view of a frame. *)
Definition Row : Type := list (option Cell).

Definition row_at (df : DataFrame) (i : nat) : Row :=
  map (fun c => nth i (cells (snd c)) None) df.

Definition rows (df : DataFrame) : list Row :=
  map (row_at df) (seq 0 (height df)).

(** ** Selecting rows *)

Fixpoint select_mask {A} (mask : list bool) (vs : list A) : list A :=
  match mask, vs with
  | b :: mask', v :: vs' =>
      if b then v :: select_mask mask' vs' else select_mask mask' vs'
  | _, _ => []
  end.

Definition map_series (f : forall A, list (option A) -> list (option A))
    (s : Series) : Series :=
  match s with
  | Utf8 vs => Utf8 (f _ vs)
  | Int64 vs => Int64 (f _ vs)
  | Date vs => Date (f _ vs)
  | Datetime vs => Datetime (f _ vs)
  end.

Definition map_columns (f : forall A, list (option A) -> list (option A))
    (df : DataFrame) : DataFrame :=
  map (fun c => (fst c, map_series f (snd c))) df.

(** [df.filter(mask)]: a row is kept where the mask is true; a null in
    the mask drops the row, so a null mask entry is [false] here. *)
Definition filter (df : DataFrame) (mask : list bool) : DataFrame :=
  map_columns (fun A => select_mask mask) df.

(** The rows at the given positions, in that order. *)
Definition take_list {A} (idx : list nat) (vs : list (option A))
  : list (option A) :=
  map (fun i => nth i vs None) idx.

Definition take (idx : list nat) (s : Series) : Series :=
  map_series (fun A => take_list idx) s.

(** [df.head(n)]: the first [n] rows; all rows but the last [-n] when
    [n] is negative. *)
Definition head_list {A} (n : Z) (l : list A) : list A :=
  if 0 <=? n then firstn (Z.to_nat n) l
  else firstn (List.length l - Z.to_nat (- n)) l.

Definition head (df : DataFrame) (n : Z) : DataFrame :=
  map_columns (fun A => head_list n) df.

(** [pl.col(c) >= lit] for a datetime literal, with the null of a
    comparison against null already read as "not kept". *)
Definition ge_datetime (vs : list (option Z)) (lit : Z) : list bool :=
  map (fun v => match v with
                | Some t => lit <=? t
                | None => false
                end) vs.

(** [pl.col(c) >= cutoff] with a Python datetime on the right: only a
    temporal column compares with it. *)
Definition ge_datetime_mask (s : Series) (cutoff : Z) : Py.result (list bool) :=
  match s with
  | Datetime vs => Ok (ge_datetime vs cutoff)
  | _ => Raise (InvalidOperationError "cannot compare with a datetime")
  end.

(** ** Reductions of one column *)

(** The non-null values, in order. *)
Fixpoint drop_nulls {A} (vs : list (option A)) : list A :=
  match vs with
  | [] => []
  | Some v :: vs' => v :: drop_nulls vs'
  | None :: vs' => drop_nulls vs'
  end.

Definition null_count {A} (vs : list (option A)) : nat :=
  List.length (List.filter (fun v => match v with None => true | Some _ => false end) vs).

(** [max()] and [min()] ignore nulls; they are null when nothing is
    left. *)
Definition max_Z (vs : list (option Z)) : option Z :=
  match drop_nulls vs with
  | [] => None
  | v :: vs' => Some (fold_left Z.max vs' v)
  end.

Definition min_Z (vs : list (option Z)) : option Z :=
  match drop_nulls vs with
  | [] => None
  | v :: vs' => Some (fold_left Z.min vs' v)
  end.

Definition str_max (a b : string) : string :=
  if String.ltb a b then b else a.

Definition max_str (vs : list (option string)) : option string :=
  match drop_nulls vs with
  | [] => None
  | v :: vs' => Some (fold_left str_max vs' v)
  end.

(** [sum()] of an Int64 column: nulls are skipped, the empty sum is 0,
    the addition wraps. *)
Definition sum_Z (vs : list (option Z)) : Z :=
  fold_left wadd (drop_nulls vs) 0.

(** The binary64 reductions of an Int64 column, on its non-null values,
    and the rounding of pandas.  What they compute is left to the
    structure; when they are null is not. *)
Record Float64Ops : Type := {
  f_mean : list Z -> f64;
  f_median : list Z -> f64;
  f_std : list Z -> f64;
  f_round : Z -> f64 -> f64
}.

(** [mean()] and [median()]: null when there is no value. *)
Definition mean_Z (O : Float64Ops) (vs : list (option Z)) : option f64 :=
  match drop_nulls vs with
  | [] => None
  | xs => Some (f_mean O xs)
  end.

Definition median_Z (O : Float64Ops) (vs : list (option Z)) : option f64 :=
  match drop_nulls vs with
  | [] => None
  | xs => Some (f_median O xs)
  end.

(** [std()], with the default [ddof=1]: null unless there are more
    values than [ddof]. *)
Definition std_Z (O : Float64Ops) (vs : list (option Z)) : option f64 :=
  let xs := drop_nulls vs in
  if (List.length xs <=? 1)%nat then None else Some (f_std O xs).

Definition opt_value {A} (f : A -> Py.value) (o : option A) : Py.value :=
  match o with
  | Some a => f a
  | None => PyNone
  end.

(** [str(n)] of an integer. *)
Fixpoint decimal (fuel : nat) (n : Z) (acc : string) : string :=
  match fuel with
  | O => acc
  | S fuel' =>
      let acc' := String (Chrono.digit (n mod 10)) acc in
      if n <? 10 then acc' else decimal fuel' (n / 10) acc'
  end.

Definition str_of_int (n : Z) : string :=
  if n <? 0 then ("-" ++ decimal 20 (- n) "")%string else decimal 20 n "".

(** The year a timestamp falls in. *)
Definition year_of (us : Z) : Z :=
  fst (fst (Chrono.civil_from_days (us / us_per_day))).

(** A [Datetime] becomes a Python [datetime], which has to exist: a
    year before 1 or after 9999 is refused. *)
Definition datetime_value (o : option Z) : Py.result Py.value :=
  match o with
  | None => Ok PyNone
  | Some us =>
      if in_datetime_range us then Ok (PyDatetime us)
      else Raise (ValueError ("year " ++ str_of_int (year_of us)
                              ++ " is out of range")%string)
  end.

(** [df.select(pl.col(c).max()).item()]: the maximum as a Python
    value. *)
Definition max_item (s : Series) : Py.result Py.value :=
  match s with
  | Utf8 vs => Ok (opt_value PyStr (max_str vs))
  | Int64 vs => Ok (opt_value PyInt (max_Z vs))
  | Date vs => Ok (opt_value PyDate (max_Z vs))
  | Datetime vs => datetime_value (max_Z vs)
  end.

(** ** [str.strptime(pl.Datetime, format=fmt)], strict by default *)

Definition parse_us (fmt : string) (v : option string) : option Z :=
  match v with
  | Some s => option_map Chrono.timestamp_micros (Chrono.parse_from_str s fmt)
  | None => None
  end.

(** Every value is converted, a failure leaving a null; strict mode
    then refuses a result with more nulls than the input had.  (Polars
    retries a value as a date alone only when chrono reports missing
    fields; the pattern of the source has them all.) *)
Definition strptime (s : Series) (fmt : string) : Py.result Series :=
  match s with
  | Utf8 vs =>
      let out := map (parse_us fmt) vs in
      if (null_count out =? null_count vs)%nat then Ok (Datetime out)
      else Raise (InvalidOperationError
                    "conversion from `str` to `datetime[us]` failed")
  | _ => Raise (SchemaError "invalid series dtype: expected `String`")
  end.

(** [dt.strftime(fmt)] of one value.  The pipeline never formats a
    date; this is the formatting its dates are compared with. *)
Definition strftime_us (fmt : string) (us : Z) : string :=
  Chrono.format (Chrono.from_timestamp_micros us) fmt.

(** ** [df.with_columns([expr.alias(name)])] *)

Fixpoint replace_column (df : DataFrame) (name : string) (s : Series)
  : DataFrame :=
  match df with
  | [] => []
  | (n, c) :: df' =>
      if (n =? name)%string then (n, s) :: df'
      else (n, c) :: replace_column df' name s
  end.

(** A column of that name is replaced where it stands; a new name is
    added at the end. *)
Definition with_column (df : DataFrame) (name : string) (s : Series)
  : DataFrame :=
  if has_column df name then replace_column df name s
  else df ++ [(name, s)].

(** ** Orders polars leaves open *)

(** [group_by] and [sort] are called without [maintain_order]: the
    order of the groups, and the order of rows with equal sort keys, are
    the engine's.  An engine is any choice of permutations. *)
Record Engine : Type := {
  group_order : forall A : Type, list A -> list A;
  group_order_perm : forall (A : Type) (l : list A),
      Permutation (group_order A l) l;
  tie_order : forall A : Type, list A -> list A;
  tie_order_perm : forall (A : Type) (l : list A),
      Permutation (tie_order A l) l
}.

(** ** [df.group_by(keys).agg([pl.col(value).sum().alias(alias)])] *)

Definition Key : Type := list (option Cell).

Definition cell_eqb (a b : Cell) : bool :=
  match a, b with
  | CStr x, CStr y => (x =? y)%string
  | CInt x, CInt y => x =? y
  | CDate x, CDate y => x =? y
  | CDatetime x, CDatetime y => x =? y
  | _, _ => false
  end.

(** Nulls are one another's equal as group keys. *)
Definition ocell_eqb (a b : option Cell) : bool :=
  match a, b with
  | Some x, Some y => cell_eqb x y
  | None, None => true
  | _, _ => false
  end.

Fixpoint key_eqb (a b : Key) : bool :=
  match a, b with
  | [], [] => true
  | x :: a', y :: b' => ocell_eqb x y && key_eqb a' b'
  | _, _ => false
  end.

(** A group: its key and the positions of its rows, in row order. *)
Definition Group : Type := Key * list nat.

Fixpoint group_insert (k : Key) (i : nat) (gs : list Group) : list Group :=
  match gs with
  | [] => [(k, [i])]
  | (k', ix) :: gs' =>
      if key_eqb k k' then (k', ix ++ [i]) :: gs'
      else (k', ix) :: group_insert k i gs'
  end.

(** The groups of a list of row keys, in order of first appearance. *)
Definition group_rows (keys : list Key) : list Group :=
  fold_left (fun gs ik => group_insert (snd ik) (fst ik) gs)
            (combine (seq 0 (List.length keys)) keys) [].

Fixpoint cols (df : DataFrame) (names : list string)
  : Py.result (list Series) :=
  match names with
  | [] => Ok []
  | n :: names' =>
      s <- col df n ;;
      ss <- cols df names' ;;
      Ok (s :: ss)
  end.

Definition key_at (ks : list Series) (i : nat) : Key :=
  map (fun s => nth i (cells s) None) ks.

(** [sum()] needs numbers.  Of the numeric types the embedding has
    [Int64]; the sum of a [Float64] column is [sum_f64] below, which
    the frames of the embedding do not reach. *)
Definition int64_values (s : Series) : Py.result (list (option Z)) :=
  match s with
  | Int64 vs => Ok vs
  | _ => Raise (InvalidOperationError "`sum` operation not supported for dtype")
  end.

(** The first name of a list that has come before: in [names], or
    among the names [seen] so far. *)
Fixpoint first_repeated (seen names : list string) : option string :=
  match names with
  | [] => None
  | n :: names' =>
      if existsb (String.eqb n) seen then Some n
      else first_repeated (n :: seen) names'
  end.

Definition first_duplicate (names : list string) : option string :=
  first_repeated [] names.

(** One row per group: its key, and the sum of [value] over its rows
    under the name [alias].  The key of the row is read off the first
    row of the group. *)
Definition group_by_agg_sum (E : Engine) (df : DataFrame)
    (keys : list string) (value alias : string) : Py.result DataFrame :=
  ks <- cols df keys ;;
  v <- col df value ;;
  vs <- int64_values v ;;
  _ <- match first_duplicate (keys ++ [alias]) with
       | Some n => Raise (DuplicateError n)
       | None => Ok tt
       end ;;
  let groups :=
    group_order E _ (group_rows (map (key_at ks) (seq 0 (height df)))) in
  let firsts := map (fun g : Group => List.hd 0%nat (snd g)) groups in
  let sums := map (fun g : Group => Some (sum_Z (take_list (snd g) vs))) groups in
  Ok (combine keys (map (take firsts) ks) ++ [(alias, Int64 sums)]).

(** ** The same sum over a [Float64] column

    The frames of the embedding carry no [Float64] column; its sums
    are given on the values of the column. *)

Definition add_f64 : f64 -> f64 -> f64 := SFadd 53 1024.

(** [sum()] of a Float64 column of fewer than 128 values: nulls are
    skipped and the values are added in binary64 from the first to
    the last, starting from 0.0. *)
Definition sum_f64 (vs : list (option f64)) : f64 :=
  fold_left add_f64 (drop_nulls vs) (S754_zero false).

(** The column of sums of
    [df.group_by(keys).agg([pl.col(value).sum()])] for the Float64
    values [vs] of the column [value] and the row keys [keys]: one
    sum per group, in the engine's order. *)
Definition group_sums_f64 (E : Engine) (keys : list Key)
    (vs : list (option f64)) : list (option f64) :=
  map (fun g : Group => Some (sum_f64 (take_list (snd g) vs)))
      (group_order E _ (group_rows keys)).

(** ** [df.sort(by, descending=d)] *)

Definition cell_leb (a b : Cell) : bool :=
  match a, b with
  | CStr x, CStr y => String.leb x y
  | CInt x, CInt y => x <=? y
  | CDate x, CDate y => x <=? y
  | CDatetime x, CDatetime y => x <=? y
  | _, _ => true
  end.

(** Nulls come first ([nulls_last] is not set), whatever the
    direction. *)
Definition sort_leb (descending : bool) (a b : option Cell) : bool :=
  match a, b with
  | None, _ => true
  | Some _, None => false
  | Some x, Some y => if descending then cell_leb y x else cell_leb x y
  end.

Fixpoint insert_sorted {A} (leb : A -> A -> bool) (x : A) (l : list A) : list A :=
  match l with
  | [] => [x]
  | y :: l' => if leb x y then x :: l else y :: insert_sorted leb x l'
  end.

(** A stable sort: equal elements keep their order. *)
Definition stable_sort {A} (leb : A -> A -> bool) (l : list A) : list A :=
  fold_right (insert_sorted leb) [] l.

(** The positions of [h] rows in the order of their keys in [s]; rows
    with equal keys come in the order the engine left them in. *)
Definition sorted_positions (E : Engine) (s : Series) (descending : bool)
    (h : nat) : list nat :=
  let key i := nth i (cells s) None in
  stable_sort (fun i j => sort_leb descending (key i) (key j))
              (tie_order E _ (seq 0 h)).

Definition sort (E : Engine) (df : DataFrame) (by_ : string)
    (descending : bool) : Py.result DataFrame :=
  s <- col df by_ ;;
  let idx := sorted_positions E s descending (height df) in
  Ok (map (fun c => (fst c, take idx (snd c))) df).

(** ** [df.to_dict(as_series=False)] *)

Definition Dict : Type := list (string * list Py.value).

Fixpoint sequence {A} (l : list (Py.result A)) : Py.result (list A) :=
  match l with
  | [] => Ok []
  | r :: l' =>
      a <- r ;;
      as_ <- sequence l' ;;
      Ok (a :: as_)
  end.

Definition to_list (s : Series) : Py.result (list Py.value) :=
  match s with
  | Utf8 vs => Ok (map (opt_value PyStr) vs)
  | Int64 vs => Ok (map (opt_value PyInt) vs)
  | Date vs => Ok (map (opt_value PyDate) vs)
  | Datetime vs => sequence (map datetime_value vs)
  end.

Definition to_dict (df : DataFrame) : Py.result Dict :=
  ls <- sequence (map (fun c => to_list (snd c)) df) ;;
  Ok (combine (columns df) ls).

(** ** [df.select([pl.col(c).agg().alias(name), ...])] on an Int64
    column, as the dict [to_dict(as_series=False)] makes of it: one
    value per expression. *)

Inductive Agg : Type := AggMean | AggMedian | AggStd | AggMin | AggMax.

Definition agg_value (O : Float64Ops) (a : Agg) (vs : list (option Z))
  : Py.value :=
  match a with
  | AggMean => opt_value PyFloat (mean_Z O vs)
  | AggMedian => opt_value PyFloat (median_Z O vs)
  | AggStd => opt_value PyFloat (std_Z O vs)
  | AggMin => opt_value PyInt (min_Z vs)
  | AggMax => opt_value PyInt (max_Z vs)
  end.

Fixpoint select_aggs (O : Float64Ops) (df : DataFrame)
    (exprs : list (string * Agg * string)) : Py.result Dict :=
  match exprs with
  | [] => Ok []
  | (c, a, name) :: exprs' =>
      s <- col df c ;;
      vs <- int64_values s ;;
      d <- select_aggs O df exprs' ;;
      Ok ((name, [agg_value O a vs]) :: d)
  end.

End Polars.

Export Polars.

(* ================================================================== *)
(** * pandas *)

Module Pandas.

(** [pd.DataFrame(d)] for a dict of lists: the columns of the dict, in
    its order.  The values are kept as the dict has them; how pandas
    shows a missing value ([None], or NaN under its own string type)
    is not part of the embedding. *)
Definition PdDataFrame : Type := Dict.

Definition DataFrame_of_dict (d : Dict) : PdDataFrame := d.

(** [df.round(n)]: the floats are rounded; integers, strings and [None]
    stay. *)
Definition round_value (O : Float64Ops) (n : Z) (v : Py.value) : Py.value :=
  match v with
  | PyFloat f => PyFloat (f_round O n f)
  | _ => v
  end.

Definition round (O : Float64Ops) (df : PdDataFrame) (n : Z) : PdDataFrame :=
  map (fun c => (fst c, map (round_value O n) (snd c))) df.

Definition lookup (df : PdDataFrame) (name : string) : option (list Py.value) :=
  option_map snd (find (fun c => (fst c =? name)%string) df).

End Pandas.

(* ================================================================== *)
(** * polarsUtils.py *)

Module PolarsUtils.

(** [filterLastNDaysFromMaxDate(df, days, columnDate)].  The
    [isinstance(df, pl.DataFrame)] test holds of every [DataFrame]. *)
Definition filterLastNDaysFromMaxDate
    (df : DataFrame) (days : Z) (columnDate : string) : Py.result DataFrame :=
  if negb (has_column df columnDate) then
    Raise (ValueError ("The column '" ++ columnDate
                       ++ "' does not exist in the DataFrame.")%string)
  else
    (* 1. Find the maximum date in the dataset *)
    c <- col df columnDate ;;
    maxDate <- max_item c ;;
    (* isinstance(maxDate, datetime): a date, a str, an int and None
       are not *)
    match maxDate with
    | PyDatetime maxDate =>
        (* 2. Calculate cutoff date *)
        td <- timedelta days ;;
        cutoffDate <- datetime_sub maxDate td ;;
        (* 3. Filter the DataFrame *)
        mask <- ge_datetime_mask c cutoffDate ;;
        Ok (filter df mask)
    | _ =>
        Raise (ValueError ("The maximum value in column '" ++ columnDate
                           ++ "' is not a datetime.")%string)
    end.

End PolarsUtils.

Export PolarsUtils.

(* ================================================================== *)
(** * eda.py *)

Module Eda.

Definition WAREHOUSE : string := "Almacen".
Definition DATE : string := "Fecha".
Definition CUSTOMER : string := "Cliente".
Definition SELLER : string := "Vendedor".
Definition PRODUCT_CONCAT : string := "ProdConcat".
Definition QUANTITY : string := "Cantidad".
Definition SALE_PRICE : string := "PrecioVenta".
Definition PAYMENT_METHODS : string := "Metodos De Pago".
Definition NO_MOV : string := "NoMov".
Definition TOTAL_SALES : string := "TOTAL VENTAS".
Definition SALES_MEAN : string := "PROMEDIO".
Definition SALES_MEDIAN : string := "MEDIANA".
Definition SALES_STDDEV : string := "DESVIACION ESTANDAR".
Definition SALES_MIN : string := "VENTA MINIMA".
Definition SALES_MAX : string := "VENTA MAXIMA".

Definition DATE_FORMAT : string := "%b %e %Y %I:%M%p".

(** The items chrono makes of the pattern. *)
Definition pattern_items : list Chrono.Item :=
  Eval cbv in Chrono.strftime_items DATE_FORMAT.

(** [cleanDateColumn(df, dateColumnName)] *)
Definition cleanDateColumn (df : DataFrame) (dateColumnName : string)
  : Py.result DataFrame :=
  if negb (has_column df dateColumnName) then
    Raise (ValueError ("The column '" ++ dateColumnName
                       ++ "' does not exist in the DataFrame.")%string)
  else
    c <- col df dateColumnName ;;
    parsed <- strptime c DATE_FORMAT ;;
    Ok (with_column df dateColumnName parsed).

(** [prepareSummaryStatistics(df)] *)
Definition prepareSummaryStatistics (E : Engine) (O : Float64Ops)
    (df : DataFrame) : Py.result Pandas.PdDataFrame :=
  (* 1. Aggregate total sale per warehouse and ticket *)
  ticketSales <- group_by_agg_sum E df [WAREHOUSE; NO_MOV] SALE_PRICE TOTAL_SALES ;;
  (* 2. Calculate summary statistics over the ticket totals *)
  summary <- select_aggs O ticketSales
               [(TOTAL_SALES, AggMean, SALES_MEAN);
                (TOTAL_SALES, AggMedian, SALES_MEDIAN);
                (TOTAL_SALES, AggStd, SALES_STDDEV);
                (TOTAL_SALES, AggMin, SALES_MIN);
                (TOTAL_SALES, AggMax, SALES_MAX)] ;;
  (* 3. Convert manually to Pandas DataFrame *)
  let summaryDf := Pandas.DataFrame_of_dict summary in
  (* 4. Round all numeric values to 2 decimal places *)
  Ok (Pandas.round O summaryDf 2).

(** [prepareTopSellers(df, limit, ascending, days)] *)
Definition prepareTopSellers (E : Engine) (df : DataFrame)
    (limit : Z) (ascending : bool) (days : Z) : Py.result Pandas.PdDataFrame :=
  (* 1. Keep only the last 'days' from the maximum date *)
  df <- filterLastNDaysFromMaxDate df days DATE ;;
  (* 2. Group by seller and calculate total sales *)
  grouped <- group_by_agg_sum E df [SELLER] SALE_PRICE TOTAL_SALES ;;
  topSellers <- sort E grouped TOTAL_SALES (negb ascending) ;;
  (* 3. Take only the top or bottom 'limit' sellers *)
  let topSellers := head topSellers limit in
  (* 4. Manual conversion to Pandas DataFrame *)
  d <- to_dict topSellers ;;
  Ok (Pandas.DataFrame_of_dict d).

End Eda.

Export Eda.

(* ================================================================== *)
(** * Engines, binary64 operations and tables to run the pipeline on *)

Module Examples.

(** The engine that keeps every order as it finds it. *)
Definition engine_keep : Engine :=
  {| group_order := fun A l => l;
     group_order_perm := fun A l => Permutation_refl l;
     tie_order := fun A l => l;
     tie_order_perm := fun A l => Permutation_refl l |}.

(** The engine that hands the groups over back to front. *)
Definition engine_rev_groups : Engine :=
  {| group_order := fun A l => rev l;
     group_order_perm := fun A l => Permutation_sym (Permutation_rev l);
     tie_order := fun A l => l;
     tie_order_perm := fun A l => Permutation_refl l |}.

(** The engine that sorts after turning the rows back to front. *)
Definition engine_rev_ties : Engine :=
  {| group_order := fun A l => l;
     group_order_perm := fun A l => Permutation_refl l;
     tie_order := fun A l => rev l;
     tie_order_perm := fun A l => Permutation_sym (Permutation_rev l) |}.

(** Binary64 with round-to-nearest-even, straight from the
    definitions: sums from left to right, the mean as their quotient by
    the count. *)
Definition f64_of_Z (z : Z) : f64 := binary_normalize 53 1024 z 0 false.
Definition f64_add : f64 -> f64 -> f64 := SFadd 53 1024.
Definition f64_sub : f64 -> f64 -> f64 := SFsub 53 1024.
Definition f64_mul : f64 -> f64 -> f64 := SFmul 53 1024.
Definition f64_div : f64 -> f64 -> f64 := SFdiv 53 1024.
Definition f64_sqrt : f64 -> f64 := SFsqrt 53 1024.

Definition f64_sum (xs : list f64) : f64 := fold_left f64_add xs (f64_of_Z 0).

Definition naive_mean (xs : list Z) : f64 :=
  f64_div (f64_sum (map f64_of_Z xs)) (f64_of_Z (Z.of_nat (List.length xs))).

Definition naive_median (xs : list Z) : f64 :=
  let s := stable_sort Z.leb xs in
  let n := List.length s in
  if Nat.even n
  then f64_div (f64_add (f64_of_Z (nth (n / 2 - 1) s 0)) (f64_of_Z (nth (n / 2) s 0)))
               (f64_of_Z 2)
  else f64_of_Z (nth (n / 2) s 0).

Definition naive_std (xs : list Z) : f64 :=
  let m := naive_mean xs in
  let sq := map (fun x => let d := f64_sub (f64_of_Z x) m in f64_mul d d) xs in
  f64_sqrt (f64_div (f64_sum sq) (f64_of_Z (Z.of_nat (List.length xs) - 1))).

(** The nearest integer, ties to the even one. *)
Definition f64_rint (f : f64) : f64 :=
  match f with
  | S754_finite s m e =>
      if 0 <=? e then f
      else
        let d := 2 ^ (- e) in
        let q := Z.pos m / d in
        let r := Z.pos m mod d in
        let up := (d <? 2 * r) || ((d =? 2 * r) && Z.odd q) in
        let z := if up then q + 1 else q in
        if z =? 0 then S754_zero s else f64_of_Z (if s then - z else z)
  | _ => f
  end.

(** [numpy.round]: scale by ten to the decimals, take the nearest
    integer, scale back. *)
Definition naive_round (decimals : Z) (f : f64) : f64 :=
  let scale := f64_of_Z (10 ^ decimals) in
  f64_div (f64_rint (f64_mul f scale)) scale.

Definition naive_ops : Float64Ops :=
  {| f_mean := naive_mean;
     f_median := naive_median;
     f_std := naive_std;
     f_round := naive_round |}.

(** 2024-01-05 and 2024-01-06, at midnight. *)
Definition jan5 : Z := 1704412800000000.
Definition jan6 : Z := 1704499200000000.

(** The three rows (W1,T1,2024-01-05,100), (W1,T1,2024-01-05,50) and
    (W2,T2,2024-01-06,200). *)
Definition scenario : DataFrame :=
  [ (WAREHOUSE, Utf8 [Some "W1"; Some "W1"; Some "W2"]);
    (NO_MOV, Utf8 [Some "T1"; Some "T1"; Some "T2"]);
    (DATE, Datetime [Some jan5; Some jan5; Some jan6]);
    (SALE_PRICE, Int64 [Some 100; Some 50; Some 200]) ].

(** One ticket of two rows. *)
Definition one_ticket : DataFrame :=
  [ (WAREHOUSE, Utf8 [Some "W1"; Some "W1"]);
    (NO_MOV, Utf8 [Some "T1"; Some "T1"]);
    (DATE, Datetime [Some jan5; Some jan5]);
    (SALE_PRICE, Int64 [Some 100; Some 50]) ].

(** Two sellers with the same total, and a third. *)
Definition sellers : DataFrame :=
  [ (SELLER, Utf8 [Some "Ana"; Some "Beto"; Some "Caro"]);
    (DATE, Datetime [Some jan6; Some jan6; Some jan6]);
    (SALE_PRICE, Int64 [Some 100; Some 100; Some 300]) ].

(** Three rows of two tickets with the prices 0.1 | 0.2, 0.3, each
    the binary64 number next to the decimal. *)
Definition tenths (n : Z) : f64 := f64_div (f64_of_Z n) (f64_of_Z 10).

Definition float_keys : list Key :=
  [ [Some (CStr "W1"); Some (CStr "T1")];
    [Some (CStr "W2"); Some (CStr "T2")];
    [Some (CStr "W2"); Some (CStr "T2")] ].

Definition float_prices : list (option f64) :=
  [Some (tenths 1); Some (tenths 2); Some (tenths 3)].

(** The raw text of the date column of one row, and a frame with
    it. *)
Definition raw_dates (texts : list (option string)) : DataFrame :=
  [ (DATE, Utf8 texts); (SALE_PRICE, Int64 (map (fun _ => Some 1) texts)) ].

Definition one_date (t : option Z) : DataFrame :=
  [ (DATE, Datetime [t]); (SALE_PRICE, Int64 [Some 1]) ].

Definition no_rows : DataFrame :=
  [ (DATE, Datetime []); (SALE_PRICE, Int64 []) ].

End Examples.

(* ================================================================== *)
(** * Vocabulary of the statements *)

Module Spec.

(** The rows of a frame at the positions that satisfy [p], in order. *)
Definition rows_where (df : DataFrame) (p : nat -> bool) : list Row :=
  map (row_at df) (List.filter p (seq 0 (height df))).

(** The positions a mask keeps. *)
Definition kept (mask : list bool) : list nat :=
  List.filter (fun i => nth i mask false) (seq 0 (List.length mask)).

(** A timestamp that is there and not before [cutoff]. *)
Definition at_least (cutoff : Z) (v : option Z) : bool :=
  match v with
  | Some t => cutoff <=? t
  | None => false
  end.

(** A timestamp that is there and is [m]. *)
Definition equal_to (m : Z) (v : option Z) : bool :=
  match v with
  | Some t => t =? m
  | None => false
  end.

(** [m] is the greatest value of the column. *)
Definition is_max (vs : list (option Z)) (m : Z) : Prop :=
  In (Some m) vs /\ forall t, In (Some t) vs -> t <= m.

(** The sum of a list of integers, in the integers. *)
Definition total (l : list Z) : Z := fold_right Z.add 0 l.

(** The value at a position, a null or a missing row counting as 0. *)
Definition value_at (vs : list (option Z)) (i : nat) : Z :=
  match nth i vs None with
  | Some v => v
  | None => 0
  end.

(** The keys of a list of row keys, each once, in order of first
    appearance. *)
Fixpoint distinct_keys (keys : list Key) : list Key :=
  match keys with
  | [] => []
  | k :: keys' =>
      k :: List.filter (fun k' => negb (key_eqb k' k)) (distinct_keys keys')
  end.

(** The positions of the rows that carry the key [k]. *)
Definition rows_of_key (keys : list Key) (k : Key) : list nat :=
  List.filter (fun i => key_eqb (nth i keys []) k) (seq 0 (List.length keys)).

(** The sum of the values of the rows that carry the key [k]. *)
Definition group_total (keys : list Key) (vs : list (option Z)) (k : Key) : Z :=
  sum_Z (take_list (rows_of_key keys k) vs).

(** The keys of the rows of a frame under the key columns [ks]. *)
Definition row_keys (df : DataFrame) (ks : list Series) : list Key :=
  map (key_at ks) (seq 0 (height df)).

End Spec.

Export Spec.

(* ================================================================== *)
(** * The functions around the pipeline

    The rest of polarsUtils.py, eda.py and systemUtils.py that computes
    on tables and strings: [selectColumns], [unionDataFrames],
    [replaceNaNWithZero], [prepareSalesByDay], [validateFiles] and, over
    a file system given as a structure, [findExcelFilesByMatch],
    [readExcelToDataFrame] and [createMergedDataFrameFromExcelMatch],
    with the polars calls they make. *)

(** ** Python: two more exception classes *)

Module PyMore.

(** The exception classes of these functions: those of the pipeline,
    polars' [ShapeError] and Python's [FileNotFoundError]. *)
Inductive exc : Type :=
| Pipeline (e : Py.exn)
| ShapeError (msg : string)
| FileNotFoundError (msg : string).

Inductive outcome (A : Type) : Type :=
| Return (a : A)
| Throw (e : exc).
Arguments Return {A} a.
Arguments Throw {A} e.

Definition obind {A B} (r : outcome A) (k : A -> outcome B) : outcome B :=
  match r with
  | Return a => k a
  | Throw e => Throw e
  end.

(** A pipeline call inside these functions. *)
Definition lift {A} (r : Py.result A) : outcome A :=
  match r with
  | Ok a => Return a
  | Raise e => Throw (Pipeline e)
  end.

(** [", ".join(l)] *)
Fixpoint join (sep : string) (l : list string) : string :=
  match l with
  | [] => EmptyString
  | [s] => s
  | s :: l' => (s ++ sep ++ join sep l')%string
  end.

(** [repr] of a list of strings, given [repr] of a string. *)
Definition repr_list (repr_str : string -> string) (l : list string) : string :=
  ("[" ++ join ", " (map repr_str l) ++ "]")%string.

End PyMore.

Export PyMore.

Declare Scope outcome_scope.
Notation "x <-- c1 ;; c2" := (PyMore.obind c1 (fun x => c2))
  (at level 61, c1 at next level, right associativity) : outcome_scope.
Local Open Scope outcome_scope.

(** ** polars: more frame operations *)

Module PolarsMore.

Inductive DType : Type := DUtf8 | DInt64 | DDate | DDatetime.

Definition dtype (s : Series) : DType :=
  match s with
  | Utf8 _ => DUtf8
  | Int64 _ => DInt64
  | Date _ => DDate
  | Datetime _ => DDatetime
  end.

(** [df.schema]: the names and types of the columns, in order. *)
Definition schema (df : DataFrame) : list (string * DType) :=
  map (fun c => (fst c, dtype (snd c))) df.

(** ** [df.select(names)] *)

Fixpoint last_char (s : string) : option ascii :=
  match s with
  | EmptyString => None
  | String c EmptyString => Some c
  | String _ s' => last_char s'
  end.

(** [pl.col(name)] reads the name ["*"] as every column and a name
    that starts with [^] and ends with [$] as a regular expression;
    every other name is the name of a column. *)
Definition is_pattern (name : string) : bool :=
  (name =? "*")%string
  || (String.prefix "^" name
      && match last_char name with
         | Some c => Ascii.eqb c "$"
         | None => false
         end).

(** The names that are column names for [pl.col]. *)
Definition plain (names : list string) : Prop :=
  forallb (fun n => negb (is_pattern n)) names = true.

(** [df.select(names)] for [plain] names: every name is looked up, then
    the frame is built, which refuses a name that comes twice. *)
Definition select (df : DataFrame) (names : list string) : Py.result DataFrame :=
  ss <- cols df names ;;
  match first_duplicate names with
  | Some n => Raise (DuplicateError n)
  | None => Ok (combine names ss)
  end.

(** ** [pl.concat(dfs)], vertical by default *)

(** [Series.append]: the types have to be the same. *)
Definition append_series (a b : Series) : option Series :=
  match a, b with
  | Utf8 x, Utf8 y => Some (Utf8 (x ++ y))
  | Int64 x, Int64 y => Some (Int64 (x ++ y))
  | Date x, Date y => Some (Date (x ++ y))
  | Datetime x, Datetime y => Some (Datetime (x ++ y))
  | _, _ => None
  end.

(** Column by column: the names have to match, then the types. *)
Fixpoint vstack_columns (a b : DataFrame) : outcome DataFrame :=
  match a, b with
  | (n1, s1) :: a', (n2, s2) :: b' =>
      if negb (n1 =? n2)%string then
        Throw (ShapeError "unable to vstack, column names don't match")
      else
        match append_series s1 s2 with
        | None =>
            Throw (Pipeline (SchemaError
                               "cannot append series, data types don't match"))
        | Some s =>
            rest <-- vstack_columns a' b' ;;
            Return ((n1, s) :: rest)
        end
  | _, _ => Return []
  end.

(** [DataFrame.vstack]: the widths are compared first.  A frame
    without columns takes the columns of the other; any other
    difference of width is refused. *)
Definition vstack (a b : DataFrame) : outcome DataFrame :=
  if negb (List.length a =? List.length b)%nat then
    match a with
    | [] => Return b
    | _ :: _ =>
        Throw (ShapeError "unable to append to a DataFrame: widths differ")
    end
  else vstack_columns a b.

(** The frames are stacked onto the first one, in order.  polars
    stacks runs of the list apart and then the runs: when more than
    one frame does not fit it may report another of them than the
    first, and what is proved of the exception holds of each; a list
    that starts with a frame without columns is stacked in order
    here.  ([pl.concat] of no frame raises; [unionDataFrames] never
    asks for it.) *)
Fixpoint vstack_all (acc : DataFrame) (dfs : list DataFrame) : outcome DataFrame :=
  match dfs with
  | [] => Return acc
  | df :: dfs' =>
      acc' <-- vstack acc df ;;
      vstack_all acc' dfs'
  end.

Definition concat_df (dfs : list DataFrame) : outcome DataFrame :=
  match dfs with
  | [] => Throw (Pipeline (ValueError "cannot concat empty list"))
  | df :: dfs' => vstack_all df dfs'
  end.

(** ** [pl.col(c).fill_null(0)] and [with_columns] of a list *)

Definition fill_null_list (z : Z) (vs : list (option Z)) : list (option Z) :=
  map (fun v => match v with Some x => Some x | None => Some z end) vs.

(** The numeric types of the source's list that the embedding has. *)
Definition is_numeric (s : Series) : bool :=
  match s with
  | Int64 _ => true
  | _ => false
  end.

(** Filling with an integer: on a column of integers. *)
Definition fill_null (s : Series) (z : Z) : Py.result Series :=
  match s with
  | Int64 vs => Ok (Int64 (fill_null_list z vs))
  | _ => Raise (InvalidOperationError "fill_null: the literal is an integer")
  end.

(** [df.with_columns(new)]: every new column, already evaluated on
    [df], is put in, in order. *)
Definition with_columns (df : DataFrame) (new : list (string * Series))
  : DataFrame :=
  fold_left (fun d c => with_column d (fst c) (snd c)) new df.

(** ** [pl.col(c).dt.date()] *)

(** The day of a microsecond count: the days since the epoch.  A
    [Date] is its own date. *)
Definition dt_date (s : Series) : Py.result Series :=
  match s with
  | Datetime vs => Ok (Date (map (option_map (fun us => us / us_per_day)) vs))
  | Date vs => Ok (Date vs)
  | _ => Raise (InvalidOperationError "`date` operation not supported for dtype")
  end.

(** ** [df.group_by(key_expr).agg([pl.col(value).sum().alias(alias)])]

    The grouped sum of [group_by_agg_sum], with the key columns given
    as evaluated expressions: [keys] are their names, [ks] their
    values. *)
Definition group_by_keys_agg_sum (E : Engine) (df : DataFrame)
    (keys : list string) (ks : list Series) (value alias : string)
  : Py.result DataFrame :=
  v <- col df value ;;
  vs <- int64_values v ;;
  _ <- match first_duplicate (keys ++ [alias]) with
       | Some n => Raise (DuplicateError n)
       | None => Ok tt
       end ;;
  let groups :=
    group_order E _ (group_rows (map (key_at ks) (seq 0 (height df)))) in
  let firsts := map (fun g : Group => List.hd 0%nat (snd g)) groups in
  let sums := map (fun g : Group => Some (sum_Z (take_list (snd g) vs))) groups in
  Ok (combine keys (map (take firsts) ks) ++ [(alias, Int64 sums)]).

End PolarsMore.

Export PolarsMore.

(** ** polarsUtils.py, continued *)

Module PolarsUtilsMore.

(** [selectColumns(df, columnsToKeep)].  [repr_str] is Python's [repr]
    of a string, for the list in the message.  The [isinstance] tests
    hold of every frame and every list of strings. *)
Definition selectColumns (repr_str : string -> string)
    (df : DataFrame) (columnsToKeep : list string) : Py.result DataFrame :=
  let missingColumns :=
    List.filter (fun c => negb (has_column df c)) columnsToKeep in
  match missingColumns with
  | _ :: _ =>
      Raise (ValueError
               ("The following columns are not present in the DataFrame: "
                ++ repr_list repr_str missingColumns)%string)
  | [] => select df columnsToKeep
  end.

(** [unionDataFrames(dfList)] *)
Definition unionDataFrames (dfList : list DataFrame) : outcome DataFrame :=
  match dfList with
  | [] => Throw (Pipeline (ValueError "The DataFrame list is empty."))
  | _ :: _ => concat_df dfList
  end.

(** [replaceNaNWithZero(df)] *)
Definition replaceNaNWithZero (df : DataFrame) : Py.result DataFrame :=
  let numericColumns :=
    map fst (List.filter (fun c => is_numeric (snd c)) df) in
  new <- sequence (map (fun c => s <- col df c ;;
                                 f <- fill_null s 0 ;;
                                 Ok (c, f))
                       numericColumns) ;;
  Ok (with_columns df new).

End PolarsUtilsMore.

Export PolarsUtilsMore.

(** ** systemUtils.py and the reading of the files *)

Module SystemUtils.

(** A Python [str] as [strip] sees it: its code points. *)
Definition str : Type := list N.

(** [str.isspace] of one character: the characters of the
    bidirectional classes WS, B and S and of the category Zs. *)
Definition isspace (c : N) : bool :=
  (((9 <=? c) && (c <=? 13)) || ((28 <=? c) && (c <=? 32))
   || (c =? 133) || (c =? 160) || (c =? 5760)
   || ((8192 <=? c) && (c <=? 8202))
   || (c =? 8232) || (c =? 8233) || (c =? 8239) || (c =? 8287)
   || (c =? 12288))%N.

Fixpoint lstrip (s : str) : str :=
  match s with
  | [] => []
  | c :: s' => if isspace c then lstrip s' else s
  end.

Definition rstrip (s : str) : str := rev (lstrip (rev s)).

(** [s.strip()]: the whitespace of both ends goes. *)
Definition strip (s : str) : str := rstrip (lstrip s).

(** [validateFiles(fileList)]: what it prints, and what it returns. *)
Definition validateFiles (fileList : list str) : list string * bool :=
  let missingFiles :=
    List.filter (fun filePath => match strip filePath with
                                 | [] => true
                                 | _ :: _ => false
                                 end) fileList in
  match missingFiles with
  | _ :: _ => (["Error: Missing required files for the report process."], false)
  | [] => (["All files are valid."], true)
  end.

(** The file system and the Excel readers and writers, as the
    functions see them. *)
Record World : Type := {
  (** [os.listdir] *)
  listdir : string -> outcome (list string);
  (** [fnmatch.fnmatch] *)
  fnmatch : string -> string -> bool;
  (** [os.path.join] and [os.path.exists] *)
  path_join : string -> string -> string;
  path_exists : string -> bool;
  (** [pl.read_excel(path, sheet_name=...)], with its fallback to
      pandas *)
  read_excel : string -> option string -> outcome DataFrame;
  (** [saveDataFrameToExcel], which writes a file *)
  save_excel : DataFrame -> string -> string -> outcome unit;
  (** [repr] of a [str] *)
  repr_str : string -> string
}.

(** [s.endswith(suffix)] *)
Definition endswith (s suffix : string) : bool :=
  (String.length suffix <=? String.length s)%nat
  && (substring (String.length s - String.length suffix)
                (String.length suffix) s =? suffix)%string.

(** [findExcelFilesByMatch(directory, keyword, extension)] *)
Definition findExcelFilesByMatch (W : World)
    (directory keyword extension : string) : outcome (list string) :=
  let pattern := ("*" ++ keyword ++ "*." ++ extension)%string in
  names <-- listdir W directory ;;
  Return (List.filter (fun fileName => fnmatch W fileName pattern) names).

(** [readExcelToDataFrame(path, sheetName)] *)
Definition readExcelToDataFrame (W : World)
    (path : string) (sheetName : option string) : outcome DataFrame :=
  if negb (endswith path ".xlsx") then
    Throw (Pipeline (ValueError "The file must have a .xlsx extension."))
  else if negb (path_exists W path) then
    Throw (FileNotFoundError ("The file '" ++ path ++ "' does not exist.")%string)
  else read_excel W path sheetName.

(** The body of the loop of [createMergedDataFrameFromExcelMatch] for
    one file: [columns] counts when it is a list with an element. *)
Definition readAndSelect (W : World) (directory : string)
    (columns : option (list string)) (sheetName : option string)
    (fileName : string) : outcome DataFrame :=
  let fullPath := path_join W directory fileName in
  df <-- readExcelToDataFrame W fullPath sheetName ;;
  match columns with
  | Some ((_ :: _) as cs) => lift (selectColumns (repr_str W) df cs)
  | _ => Return df
  end.

(** The loop: a file that raises is reported and left out. *)
Fixpoint readAll (W : World) (directory : string)
    (columns : option (list string)) (sheetName : option string)
    (matchingFiles : list string) : list DataFrame :=
  match matchingFiles with
  | [] => []
  | fileName :: rest =>
      match readAndSelect W directory columns sheetName fileName with
      | Return df => df :: readAll W directory columns sheetName rest
      | Throw _ => readAll W directory columns sheetName rest
      end
  end.

(** [createMergedDataFrameFromExcelMatch(directory, keyword, columns,
    sheetName, saveToExcel, outputPath, outputFileName)].  What is
    printed is left out. *)
Definition createMergedDataFrameFromExcelMatch (W : World)
    (directory keyword : string) (columns : option (list string))
    (sheetName : option string) (saveToExcel : bool)
    (outputPath : option string) (outputFileName : string)
  : outcome DataFrame :=
  (* 1. Find matching Excel files *)
  matchingFiles <-- findExcelFilesByMatch W directory keyword "xlsx" ;;
  match matchingFiles with
  | [] =>
      Throw (FileNotFoundError
               ("No Excel files matching '" ++ keyword
                ++ "' were found in '" ++ directory ++ "'.")%string)
  | _ :: _ =>
      (* 2. Read all files into DataFrames *)
      let dataFrames := readAll W directory columns sheetName matchingFiles in
      (* 3. Validate at least one DataFrame was read *)
      match dataFrames with
      | [] =>
          Throw (Pipeline (ValueError
            "No valid DataFrames could be created from the matching files."))
      | _ :: _ =>
          (* 4. Merge all DataFrames *)
          mergedDataFrame <-- unionDataFrames dataFrames ;;
          (* 5. Save to Excel if requested *)
          if saveToExcel then
            match outputPath with
            | None =>
                Throw (Pipeline (ValueError
                  "outputPath must be provided when saveToExcel=True."))
            | Some path =>
                _ <-- save_excel W mergedDataFrame path outputFileName ;;
                Return mergedDataFrame
            end
          else Return mergedDataFrame
      end
  end.

End SystemUtils.

Export SystemUtils.

(** ** eda.py, continued *)

Module EdaMore.

(** [prepareSalesByDay(df, days)] *)
Definition prepareSalesByDay (E : Engine) (df : DataFrame) (days : Z)
  : Py.result Pandas.PdDataFrame :=
  (* 1. Keep only the last 'days' from the most recent date *)
  df <- filterLastNDaysFromMaxDate df days DATE ;;
  (* 2. Group sales by date and calculate total sales per day *)
  d <- col df DATE ;;
  day <- dt_date d ;;
  grouped <- group_by_keys_agg_sum E df [DATE] [day] SALE_PRICE TOTAL_SALES ;;
  salesByDay <- sort E grouped DATE false ;;
  (* 3. Convert manually to Pandas DataFrame *)
  dict <- to_dict salesByDay ;;
  Ok (Pandas.DataFrame_of_dict dict).

(** The table [salesData] behind the figures of
    [prepareSalesDistributions(df, days)]: its steps 1 to 3, before the
    logarithm and the plots. *)
Definition salesData (E : Engine) (df : DataFrame) (days : Z)
  : Py.result Pandas.PdDataFrame :=
  (* 1. Filtrar ultimos N dias *)
  df <- filterLastNDaysFromMaxDate df days DATE ;;
  (* 2. Agrupar por NO_MOV y WAREHOUSE, sumar SALE_PRICE *)
  grouped <- group_by_agg_sum E df [NO_MOV; WAREHOUSE] SALE_PRICE TOTAL_SALES ;;
  (* 3. Convertir a pandas *)
  selected <- select grouped [TOTAL_SALES] ;;
  dict <- to_dict selected ;;
  Ok (Pandas.DataFrame_of_dict dict).

End EdaMore.

Export EdaMore.

(** ** A file system to run the merge on *)

Module ExamplesMore.

(** A directory with one workbook, which holds the three-row table,
    and a text file. *)
Definition world : World :=
  {| listdir := fun _ => Return ["Ventas por Tickets 1.xlsx"; "notas.txt"];
     fnmatch := fun fileName _ => endswith fileName ".xlsx";
     path_join := fun d f => (d ++ "/" ++ f)%string;
     path_exists := fun _ => true;
     read_excel := fun _ _ => Return Examples.scenario;
     save_excel := fun _ _ _ => Return tt;
     repr_str := fun s => ("'" ++ s ++ "'")%string |}.

End ExamplesMore.

(** ** Vocabulary of the statements, continued *)

Module SpecMore.

(** A column with 0 in the place of every null, when it is a column of
    integers; the column itself otherwise. *)
Definition zero_filled (s : Series) : Series :=
  match s with
  | Int64 vs => Int64 (map (fun v => Some (match v with Some x => x | None => 0 end)) vs)
  | _ => s
  end.

(** A column in which [replaceNaNWithZero] has nothing to replace. *)
Definition nothing_to_fill (s : Series) : Prop :=
  match s with
  | Int64 vs => null_count vs = 0%nat
  | _ => True
  end.

(** The day of a timestamp: its days since the epoch. *)
Definition day_of (us : Z) : Z := us / us_per_day.

(** The positions of the rows whose timestamp falls on the day [d]. *)
Definition rows_of_day (ds : list (option Z)) (d : Z) : list nat :=
  List.filter (fun i => match nth i ds None with
                        | Some t => day_of t =? d
                        | None => false
                        end)
              (seq 0 (List.length ds)).

(** The sum of the prices of the rows of the day [d]. *)
Definition day_total (ds prices : list (option Z)) (d : Z) : Z :=
  sum_Z (take_list (rows_of_day ds d) prices).

End SpecMore.

Export SpecMore.

(* ================================================================== *)
(** * Properties *)

Ltac inv H := inversion H; subst; clear H.

(** ** Frames and columns *)

Section Frames.

Lemma has_column_get (df : DataFrame) (name : string) :
  has_column df name = true <-> exists s, get_column df name = Some s.
Proof.
  unfold has_column, columns.
  induction df as [|[n s] df IH]; simpl.
  - split; [discriminate | intros [s H]; discriminate].
  - destruct (String.eqb n name) eqn:E; simpl.
    + split; eauto.
    + exact IH.
Qed.

Lemma has_column_false (df : DataFrame) (name : string) :
  has_column df name = false <-> get_column df name = None.
Proof.
  destruct (has_column df name) eqn:E.
  - apply has_column_get in E. destruct E as [s E]. rewrite E.
    split; discriminate.
  - destruct (get_column df name) eqn:G.
    + assert (has_column df name = true) by (apply has_column_get; eauto).
      congruence.
    + split; reflexivity.
Qed.

Lemma get_column_In (df : DataFrame) (name : string) (s : Series) :
  get_column df name = Some s -> In (name, s) df.
Proof.
  induction df as [|[n c] df IH]; simpl; [discriminate|].
  destruct (String.eqb_spec n name); intros H.
  - inv H. now left.
  - right. auto.
Qed.

Lemma wf_column_len (df : DataFrame) (name : string) (s : Series) :
  wf df -> get_column df name = Some s -> len s = height df.
Proof.
  intros [_ W] G. apply get_column_In in G.
  rewrite Forall_forall in W. exact (W _ G).
Qed.

Lemma cells_length (s : Series) : List.length (cells s) = len s.
Proof. destruct s; simpl; now rewrite length_map. Qed.

Lemma columns_map_columns f (df : DataFrame) :
  columns (map_columns f df) = columns df.
Proof.
  unfold columns, map_columns. rewrite map_map. now apply map_ext.
Qed.

Lemma get_column_map_columns f (df : DataFrame) (name : string) :
  get_column (map_columns f df) name
  = option_map (map_series f) (get_column df name).
Proof.
  induction df as [|[n c] df IH]; simpl; [reflexivity|].
  destruct (String.eqb n name); [reflexivity | exact IH].
Qed.

Lemma col_get (df : DataFrame) (name : string) (s : Series) :
  get_column df name = Some s -> col df name = Ok s.
Proof. unfold col. now intros ->. Qed.

End Frames.

(** ** Row selection *)

Section Selection.

Lemma select_mask_map {A B} (f : A -> B) (mask : list bool) (vs : list A) :
  select_mask mask (map f vs) = map f (select_mask mask vs).
Proof.
  revert vs. induction mask as [|b mask IH]; intros [|v vs]; simpl; try reflexivity.
  destruct b; simpl; now rewrite IH.
Qed.

Lemma cells_select_mask (mask : list bool) (s : Series) :
  cells (map_series (fun A => select_mask mask) s) = select_mask mask (cells s).
Proof. destruct s; simpl; now rewrite select_mask_map. Qed.

Lemma select_mask_shift {A} (d : A) (mask : list bool) :
  forall (vs : list A) (k : nat),
    List.length vs = List.length mask ->
    select_mask mask vs
    = map (fun i => nth (i - k) vs d)
          (List.filter (fun i => nth (i - k) mask false)
                       (seq k (List.length mask))).
Proof.
  induction mask as [|b mask IH]; intros [|v vs] k L;
    try reflexivity; try discriminate.
  assert (T : select_mask mask vs
              = map (fun i => nth (i - k) (v :: vs) d)
                    (List.filter (fun i => nth (i - k) (b :: mask) false)
                                 (seq (S k) (List.length mask)))).
  { rewrite (IH vs (S k)) by (simpl in L; lia).
    rewrite (filter_ext_in (fun i => nth (i - k) (b :: mask) false)
                           (fun i => nth (i - S k) mask false)).
    - apply map_ext_in. intros i Hi. apply filter_In in Hi.
      destruct Hi as [Hi _]. apply in_seq in Hi.
      replace (i - k)%nat with (S (i - S k)) by lia. reflexivity.
    - intros i Hi. apply in_seq in Hi.
      replace (i - k)%nat with (S (i - S k)) by lia. reflexivity. }
  cbn [List.length seq List.filter].
  rewrite Nat.sub_diag. cbn [nth].
  destruct b; cbn [select_mask map].
  - rewrite Nat.sub_diag. cbn [nth]. now rewrite T.
  - exact T.
Qed.

(** A mask selects the values at the positions it keeps. *)
Lemma select_mask_kept {A} (d : A) (mask : list bool) (vs : list A) :
  List.length vs = List.length mask ->
  select_mask mask vs = map (fun i => nth i vs d) (kept mask).
Proof.
  intros L. rewrite (select_mask_shift d mask vs 0 L). unfold kept.
  rewrite (filter_ext (fun i => nth (i - 0) mask false)
                      (fun i => nth i mask false)).
  - apply map_ext. intros i. now rewrite Nat.sub_0_r.
  - intros i. now rewrite Nat.sub_0_r.
Qed.

Lemma map_nth_seq {A B} (f : A -> B) (d : A) (l : list A) :
  map (fun j => f (nth j l d)) (seq 0 (List.length l)) = map f l.
Proof.
  rewrite <- (map_map (fun j => nth j l d) f).
  f_equal. clear f.
  induction l as [|x l IH]; simpl; [reflexivity|].
  f_equal. rewrite <- seq_shift, map_map. exact IH.
Qed.

Lemma height_filter (df : DataFrame) (mask : list bool) :
  wf df -> List.length mask = height df ->
  df <> [] ->
  height (filter df mask) = List.length (kept mask).
Proof.
  intros W L N. destruct df as [|[n s] df]; [congruence|].
  unfold filter, map_columns. cbn [map height fst snd].
  rewrite <- cells_length, cells_select_mask.
  rewrite (select_mask_kept None) by (rewrite cells_length; simpl in L; lia).
  now rewrite length_map.
Qed.

(** The rows of a filtered frame are the rows of the frame at the
    positions the mask keeps. *)
Lemma rows_filter (df : DataFrame) (mask : list bool) :
  wf df -> List.length mask = height df ->
  df <> [] ->
  rows (filter df mask) = map (row_at df) (kept mask).
Proof.
  intros W L N. unfold rows. rewrite height_filter by assumption.
  rewrite <- (map_nth_seq (row_at df) 0%nat (kept mask)).
  apply map_ext_in. intros j Hj. apply in_seq in Hj.
  unfold row_at, filter, map_columns. rewrite map_map.
  apply map_ext_in. intros [n s] Hs. cbn [fst snd].
  rewrite cells_select_mask.
  rewrite (select_mask_kept None).
  - rewrite (nth_indep _ None (nth 0%nat (cells s) None)).
    + now rewrite (map_nth (fun i => nth i (cells s) None)).
    + rewrite length_map. lia.
  - rewrite cells_length. destruct W as [_ W].
    rewrite Forall_forall in W. specialize (W _ Hs). simpl in W.
    now rewrite W, L.
Qed.

Lemma kept_all_false (mask : list bool) :
  Forall (fun b => b = false) mask -> forall {A} (vs : list A), select_mask mask vs = [].
Proof.
  induction 1 as [|b mask Hb _ IH]; intros A [|v vs]; simpl; try reflexivity.
  subst b. apply IH.
Qed.

End Selection.


(** ** The window filter *)

Section WindowFilter.

Lemma In_drop_nulls {A} (vs : list (option A)) (v : A) :
  In v (drop_nulls vs) <-> In (Some v) vs.
Proof.
  induction vs as [|[x|] vs IH]; simpl.
  - tauto.
  - rewrite IH. split; intros [H|H]; auto; left; congruence.
  - rewrite IH. split; [auto | intros [H|H]; [discriminate | auto]].
Qed.

Lemma fold_max_spec (l : list Z) (a : Z) :
  let m := fold_left Z.max l a in
  In m (a :: l) /\ a <= m /\ forall t, In t l -> t <= m.
Proof.
  revert a. induction l as [|x l IH]; intros a; simpl.
  - repeat split; [now left | lia | tauto].
  - destruct (IH (Z.max a x)) as (I & B & U). simpl in I.
    repeat split.
    + destruct I as [I|I]; [|now right; right].
      rewrite <- I. destruct (Z.max_spec a x) as [[_ ->]|[_ ->]]; auto.
    + lia.
    + intros t [->|T]; [lia | auto].
Qed.

Lemma max_Z_is_max (vs : list (option Z)) (m : Z) :
  max_Z vs = Some m -> is_max vs m.
Proof.
  unfold max_Z, is_max. destruct (drop_nulls vs) as [|v l] eqn:D; [discriminate|].
  intros H. inv H.
  destruct (fold_max_spec l v) as (I & B & U). split.
  - apply In_drop_nulls. now rewrite D.
  - intros t T. apply In_drop_nulls in T. rewrite D in T.
    destruct T as [->|T]; auto.
Qed.

Lemma max_Z_empty (vs : list (option Z)) : vs = [] -> max_Z vs = None.
Proof. now intros ->. Qed.

Lemma nth_ge_datetime (vs : list (option Z)) (cutoff : Z) (i : nat) :
  nth i (ge_datetime vs cutoff) false = at_least cutoff (nth i vs None).
Proof.
  unfold ge_datetime.
  exact (map_nth (fun v => match v with
                           | Some t => cutoff <=? t
                           | None => false
                           end) vs None i).
Qed.

Lemma kept_ge_datetime (vs : list (option Z)) (cutoff : Z) :
  kept (ge_datetime vs cutoff)
  = List.filter (fun i => at_least cutoff (nth i vs None))
                (seq 0 (List.length vs)).
Proof.
  unfold kept. rewrite (filter_ext _ _ (nth_ge_datetime vs cutoff)).
  unfold ge_datetime. now rewrite length_map.
Qed.

Lemma nth_In_or_default {A} (l : list A) (d : A) (i : nat) :
  nth i l d = d \/ In (nth i l d) l.
Proof.
  destruct (Nat.lt_ge_cases i (List.length l)) as [H|H].
  - right. now apply nth_In.
  - left. now apply nth_overflow.
Qed.

(** What the function does once the maximum is a datetime and the
    cutoff exists. *)
Lemma filterLastNDays_run (df : DataFrame) (days : Z) (c : string)
      (vs : list (option Z)) (maxDate : Z) :
  get_column df c = Some (Datetime vs) ->
  max_Z vs = Some maxDate ->
  in_datetime_range maxDate = true ->
  in_datetime_range (maxDate - days * us_per_day) = true ->
  filterLastNDaysFromMaxDate df days c
  = Ok (filter df (ge_datetime vs (maxDate - days * us_per_day))).
Proof.
  intros G M R1 R2. unfold filterLastNDaysFromMaxDate.
  assert (H : has_column df c = true) by (apply has_column_get; eauto).
  rewrite H. cbn [negb]. rewrite (col_get _ _ _ G). cbn [bind max_item].
  rewrite M. cbn [datetime_value]. rewrite R1. cbn [bind].
  assert (T : timedelta days = Ok (days * us_per_day)).
  { unfold timedelta.
    destruct (Z.leb_spec (Z.abs days) timedelta_max_days) as [_|B]; [reflexivity|].
    exfalso. unfold in_datetime_range in R1, R2.
    apply andb_true_iff in R1, R2. rewrite !Z.leb_le in R1, R2.
    unfold datetime_min, datetime_max, us_per_day, timedelta_max_days in *.
    lia. }
  rewrite T. cbn [bind]. unfold datetime_sub. rewrite R2. reflexivity.
Qed.

Lemma at_least_max (vs : list (option Z)) (m : Z) (v : option Z) :
  is_max vs m -> v = None \/ In v vs -> at_least m v = equal_to m v.
Proof.
  intros [_ U] [->|I]; [reflexivity|].
  destruct v as [t|]; [|reflexivity]. simpl.
  specialize (U _ I).
  destruct (Z.leb_spec m t), (Z.eqb_spec t m); try reflexivity; lia.
Qed.

End WindowFilter.

(** C1, as the code has it.  The window filter of a frame whose
    timestamp column has a maximum [maxDate] that is a Python datetime,
    for [days >= 0] such that [maxDate - days] is a datetime too:
    the function returns, its result has the columns of the input and
    exactly the rows whose timestamp is at least [maxDate - days], in
    their order; for [days = 0] these are exactly the rows whose
    timestamp is [maxDate]. *)
Theorem filterLastNDays_window
    (df : DataFrame) (days : Z) (c : string)
    (vs : list (option Z)) (maxDate : Z) :
  wf df ->
  get_column df c = Some (Datetime vs) ->
  max_Z vs = Some maxDate ->
  in_datetime_range maxDate = true ->
  0 <= days ->
  in_datetime_range (maxDate - days * us_per_day) = true ->
  is_max vs maxDate /\
  exists out,
    filterLastNDaysFromMaxDate df days c = Ok out /\
    columns out = columns df /\
    rows out
    = rows_where df (fun i => at_least (maxDate - days * us_per_day)
                                       (nth i vs None)) /\
    (days = 0 ->
     rows out = rows_where df (fun i => equal_to maxDate (nth i vs None))).
Proof.
  intros W G M R1 D R2.
  pose proof (max_Z_is_max _ _ M) as IM. split; [exact IM|].
  exists (filter df (ge_datetime vs (maxDate - days * us_per_day))).
  assert (L : List.length vs = height df)
    by exact (wf_column_len _ _ _ W G).
  assert (N : df <> []) by (intros ->; discriminate).
  assert (RW : rows (filter df (ge_datetime vs (maxDate - days * us_per_day)))
               = rows_where df (fun i => at_least (maxDate - days * us_per_day)
                                                  (nth i vs None))).
  { rewrite rows_filter; trivial.
    - unfold rows_where. now rewrite kept_ge_datetime, L.
    - unfold ge_datetime. now rewrite length_map. }
  repeat split.
  - now apply filterLastNDays_run.
  - apply columns_map_columns.
  - exact RW.
  - intros ->. rewrite RW. unfold rows_where. f_equal.
    apply filter_ext. intros i.
    replace (maxDate - 0 * us_per_day) with maxDate by lia.
    apply (at_least_max vs); trivial.
    destruct (nth_In_or_default vs None i); auto.
Qed.

(** The hypotheses of [filterLastNDays_window] hold of the three-row
    table with a window of one day, which keeps all three rows. *)
Lemma filterLastNDays_window_witness :
  is_max [Some Examples.jan5; Some Examples.jan5; Some Examples.jan6] Examples.jan6 /\
  exists out,
    filterLastNDaysFromMaxDate Examples.scenario 1 DATE = Ok out /\
    columns out = columns Examples.scenario /\
    rows out
    = rows_where Examples.scenario
        (fun i => at_least (Examples.jan6 - 1 * us_per_day)
                    (nth i [Some Examples.jan5; Some Examples.jan5; Some Examples.jan6] None)) /\
    (1 = 0 ->
     rows out
     = rows_where Examples.scenario
         (fun i => equal_to Examples.jan6
                     (nth i [Some Examples.jan5; Some Examples.jan5; Some Examples.jan6] None))).
Proof.
  apply (filterLastNDays_window Examples.scenario 1 DATE
           [Some Examples.jan5; Some Examples.jan5; Some Examples.jan6]
           Examples.jan6).
  - split.
    + repeat constructor; simpl; intuition discriminate.
    + repeat constructor.
  - reflexivity.
  - reflexivity.
  - reflexivity.
  - lia.
  - reflexivity.
Defined.

(** C1, as the spec has it, fails twice: a table of one row whose
    timestamp is null is not empty, and there the function raises for
    [days = 0]; and on the three-row table it raises for [days = 800000],
    a cutoff before the year 1. *)
Lemma filterLastNDays_window_counterexample :
  wf (Examples.one_date None) /\
  height (Examples.one_date None) = 1%nat /\
  get_column (Examples.one_date None) DATE = Some (Datetime [None]) /\
  filterLastNDaysFromMaxDate (Examples.one_date None) 0 DATE
  = Raise (ValueError "The maximum value in column 'Fecha' is not a datetime.") /\
  wf Examples.scenario /\
  filterLastNDaysFromMaxDate Examples.scenario 800000 DATE
  = Raise (OverflowError "date value out of range").
Proof.
  repeat split; try reflexivity.
  - repeat constructor; simpl; intuition discriminate.
  - repeat constructor.
  - repeat constructor; simpl; intuition discriminate.
  - repeat constructor.
Qed.

(** C4.  The window filter of a frame with no rows raises: the
    [ValueError] of the source, which for a frame that has the date
    column is the one about the maximum that is no datetime. *)
Theorem filterLastNDays_no_rows_raises
    (df : DataFrame) (days : Z) (c : string) :
  wf df ->
  height df = 0%nat ->
  exists msg,
    filterLastNDaysFromMaxDate df days c = Raise (ValueError msg) /\
    (has_column df c = true ->
     msg = ("The maximum value in column '" ++ c ++ "' is not a datetime.")%string).
Proof.
  intros W H. unfold filterLastNDaysFromMaxDate.
  destruct (has_column df c) eqn:HC; cbn [negb].
  - apply has_column_get in HC. destruct HC as [s G].
    pose proof (wf_column_len _ _ _ W G) as L. rewrite H in L.
    rewrite (col_get _ _ _ G). cbn [bind].
    eexists. split; [|reflexivity].
    destruct s as [vs|vs|vs|vs]; simpl in L;
      apply length_zero_iff_nil in L; subst vs; reflexivity.
  - eexists. split; [reflexivity | discriminate].
Qed.

(** The frame with the two columns and no rows is well formed and has
    height zero. *)
Lemma filterLastNDays_no_rows_raises_witness :
  exists msg,
    filterLastNDaysFromMaxDate Examples.no_rows 30 DATE = Raise (ValueError msg) /\
    (has_column Examples.no_rows DATE = true ->
     msg = ("The maximum value in column '" ++ DATE ++ "' is not a datetime.")%string).
Proof.
  apply (filterLastNDays_no_rows_raises Examples.no_rows 30 DATE).
  - split.
    + repeat constructor; simpl; intuition discriminate.
    + repeat constructor.
  - reflexivity.
Defined.

(** C10, as the code has it.  For [days < 0] such that [maxDate - days]
    is still a datetime, the window filter of a frame whose date column
    has a datetime as its maximum returns a frame with the same columns
    and no row. *)
Theorem filterLastNDays_negative_days
    (df : DataFrame) (days : Z) (c : string)
    (vs : list (option Z)) (maxDate : Z) :
  get_column df c = Some (Datetime vs) ->
  max_Z vs = Some maxDate ->
  in_datetime_range maxDate = true ->
  days < 0 ->
  in_datetime_range (maxDate - days * us_per_day) = true ->
  exists out,
    filterLastNDaysFromMaxDate df days c = Ok out /\
    columns out = columns df /\
    height out = 0%nat /\
    rows out = [].
Proof.
  intros G M R1 D R2.
  exists (filter df (ge_datetime vs (maxDate - days * us_per_day))).
  assert (F : Forall (fun b => b = false)
                     (ge_datetime vs (maxDate - days * us_per_day))).
  { destruct (max_Z_is_max _ _ M) as [_ U].
    unfold ge_datetime. apply Forall_map, Forall_forall.
    intros [t|] I; [|reflexivity].
    specialize (U _ I). apply Z.leb_gt. unfold us_per_day. lia. }
  assert (H : height (filter df (ge_datetime vs (maxDate - days * us_per_day)))
              = 0%nat).
  { destruct df as [|[n s] df]; [reflexivity|].
    unfold filter, map_columns. cbn [map height fst snd].
    destruct s; simpl; now rewrite (kept_all_false _ F). }
  repeat split.
  - now apply filterLastNDays_run.
  - apply columns_map_columns.
  - exact H.
  - unfold rows. now rewrite H.
Qed.

(** The three-row table, one day into the future. *)
Lemma filterLastNDays_negative_days_witness :
  exists out,
    filterLastNDaysFromMaxDate Examples.scenario (-1) DATE = Ok out /\
    columns out = columns Examples.scenario /\
    height out = 0%nat /\
    rows out = [].
Proof.
  apply (filterLastNDays_negative_days Examples.scenario (-1) DATE
           [Some Examples.jan5; Some Examples.jan5; Some Examples.jan6]
           Examples.jan6); reflexivity.
Defined.

(** C10, as stated for every [days < 0], fails: three million days
    after 2024-01-06 there is no datetime, and the function raises. *)
Lemma filterLastNDays_negative_days_counterexample :
  get_column Examples.scenario DATE
  = Some (Datetime [Some Examples.jan5; Some Examples.jan5; Some Examples.jan6]) /\
  max_item (Datetime [Some Examples.jan5; Some Examples.jan5; Some Examples.jan6])
  = Ok (PyDatetime Examples.jan6) /\
  -3000000 < 0 /\
  filterLastNDaysFromMaxDate Examples.scenario (-3000000) DATE
  = Raise (OverflowError "date value out of range").
Proof. repeat split. Qed.


(** ** The date normaliser *)

Section DateNormaliser.

Lemma null_count_cons {A} (v : option A) (vs : list (option A)) :
  null_count (v :: vs)
  = ((match v with None => 1 | Some _ => 0 end) + null_count vs)%nat.
Proof. unfold null_count. simpl. now destruct v. Qed.

(** A conversion that keeps nulls null cannot lower their number. *)
Lemma null_count_map_le {A B} (f : option A -> option B) (vs : list (option A)) :
  f None = None ->
  (null_count vs <= null_count (map f vs))%nat.
Proof.
  intros F. induction vs as [|v vs IH]; [reflexivity|].
  cbn [map]. rewrite !null_count_cons.
  destruct v; [destruct (f (Some a)) | rewrite F]; lia.
Qed.

(** When the number of nulls is the same, every null of the result was
    one in the input. *)
Lemma null_count_map_eq {A B} (f : option A -> option B) (vs : list (option A)) :
  f None = None ->
  null_count (map f vs) = null_count vs ->
  forall v, In v vs -> f v = None -> v = None.
Proof.
  intros F. induction vs as [|x vs IH]; intros E v I N; [contradiction|].
  cbn [map] in E. rewrite !null_count_cons in E.
  pose proof (null_count_map_le f vs F) as LE.
  destruct I as [->|I].
  - destruct v; [|reflexivity]. rewrite N in E. lia.
  - apply IH; trivial.
    destruct x; [destruct (f (Some a)) | rewrite F in E]; lia.
Qed.

Lemma columns_replace_column (df : DataFrame) (c : string) (s : Series) :
  columns (replace_column df c s) = columns df.
Proof.
  induction df as [|[n x] df IH]; simpl; [reflexivity|].
  destruct (String.eqb n c); simpl; [reflexivity | now rewrite IH].
Qed.

Lemma get_replace_column_same (df : DataFrame) (c : string) (s : Series) :
  has_column df c = true -> get_column (replace_column df c s) c = Some s.
Proof.
  unfold has_column, columns.
  induction df as [|[n x] df IH]; simpl; [discriminate|].
  destruct (String.eqb n c) eqn:E; simpl; rewrite E; auto.
Qed.

Lemma get_replace_column_other (df : DataFrame) (c n : string) (s : Series) :
  n <> c -> get_column (replace_column df c s) n = get_column df n.
Proof.
  intros D. induction df as [|[m x] df IH]; simpl; [reflexivity|].
  destruct (String.eqb_spec m c) as [->|M]; simpl.
  - destruct (String.eqb_spec c n); [congruence | reflexivity].
  - destruct (String.eqb m n); [reflexivity | exact IH].
Qed.

Lemma replace_column_len (df : DataFrame) (c : string) (s : Series) (h : nat) :
  len s = h ->
  Forall (fun x => len (snd x) = h) df ->
  Forall (fun x => len (snd x) = h) (replace_column df c s).
Proof.
  intros L F. induction F as [|[n x] df Hx F IH]; simpl; [constructor|].
  destruct (String.eqb n c); constructor; auto.
Qed.

Lemma height_replace_column (df : DataFrame) (c : string) (s old : Series) :
  get_column df c = Some old -> len s = len old ->
  height (replace_column df c s) = height df.
Proof.
  destruct df as [|[n x] df]; simpl; [reflexivity|].
  destruct (String.eqb n c); simpl; [|reflexivity].
  intros H. inv H. auto.
Qed.

Lemma parse_us_None (fmt : string) : parse_us fmt None = None.
Proof. reflexivity. Qed.

(** When and with what the function returns. *)
Lemma cleanDateColumn_Ok (df : DataFrame) (c : string) (out : DataFrame) :
  cleanDateColumn df c = Ok out <->
  exists vs,
    get_column df c = Some (Utf8 vs) /\
    null_count (map (parse_us DATE_FORMAT) vs) = null_count vs /\
    out = replace_column df c (Datetime (map (parse_us DATE_FORMAT) vs)).
Proof.
  unfold cleanDateColumn. destruct (has_column df c) eqn:H; cbn [negb].
  - pose proof H as H'. apply has_column_get in H'. destruct H' as [s G].
    rewrite (col_get _ _ _ G). cbn [bind]. unfold with_column. rewrite H.
    destruct s as [vs|vs|vs|vs]; cbn [strptime bind];
      try (split; [discriminate | intros (vs' & G' & _); congruence]).
    destruct (Nat.eqb_spec (null_count (map (parse_us DATE_FORMAT) vs))
                           (null_count vs)) as [E|E]; cbn [bind].
    + split.
      * intros X. inv X. eauto.
      * intros (vs' & G' & _ & ->). congruence.
    + split; [discriminate|]. intros (vs' & G' & E' & _).
      assert (vs' = vs) by congruence. subst. contradiction.
  - split; [discriminate|]. intros (vs & G & _).
    apply has_column_false in H. congruence.
Qed.

(** When the function returns, a value that was there has been
    parsed. *)
Lemma cleanDateColumn_parsed (df : DataFrame) (c : string) (out : DataFrame)
      (vs : list (option string)) (ts : list (option Z)) :
  cleanDateColumn df c = Ok out ->
  get_column df c = Some (Utf8 vs) ->
  get_column out c = Some (Datetime ts) ->
  forall i s,
    nth i vs None = Some s ->
    exists dt,
      Chrono.parse_from_str s DATE_FORMAT = Some dt /\
      nth i ts None = Some (Chrono.timestamp_micros dt).
Proof.
  intros C G GO i s N.
  apply cleanDateColumn_Ok in C. destruct C as (vs' & G' & E & ->).
  assert (vs' = vs) by congruence. subst vs'.
  rewrite get_replace_column_same in GO by (apply has_column_get; eauto).
  inv GO.
  assert (I : In (Some s) vs).
  { rewrite <- N. apply nth_In.
    destruct (Nat.lt_ge_cases i (List.length vs)) as [L|L]; [exact L|].
    rewrite nth_overflow in N by exact L. discriminate. }
  rewrite <- (parse_us_None DATE_FORMAT), map_nth, N.
  destruct (Chrono.parse_from_str s DATE_FORMAT) as [dt|] eqn:P.
  + exists dt. split; [reflexivity|]. simpl. now rewrite P.
  + exfalso.
    assert (X : Some s = None).
    { apply (null_count_map_eq (parse_us DATE_FORMAT) vs); trivial.
      simpl. now rewrite P. }
    discriminate.
Qed.

End DateNormaliser.

(** C6.  [cleanDateColumn] raises the [ValueError] of the source when
    the column is absent; it raises polars' error of a failed strict
    conversion when a value of the column does not parse under the
    pattern; and when it returns, every value that was there parsed: no
    value has been turned into a null. *)
Theorem cleanDateColumn_errors (df : DataFrame) (c : string) :
  (has_column df c = false ->
   cleanDateColumn df c
   = Raise (ValueError ("The column '" ++ c
                        ++ "' does not exist in the DataFrame.")%string)) /\
  (forall vs s,
      get_column df c = Some (Utf8 vs) ->
      In (Some s) vs ->
      Chrono.parse_from_str s DATE_FORMAT = None ->
      cleanDateColumn df c
      = Raise (InvalidOperationError
                 "conversion from `str` to `datetime[us]` failed")) /\
  (forall out vs ts,
      cleanDateColumn df c = Ok out ->
      get_column df c = Some (Utf8 vs) ->
      get_column out c = Some (Datetime ts) ->
      forall i s,
        nth i vs None = Some s ->
        exists dt,
          Chrono.parse_from_str s DATE_FORMAT = Some dt /\
          nth i ts None = Some (Chrono.timestamp_micros dt)).
Proof.
  repeat split.
  - intros H. unfold cleanDateColumn. now rewrite H.
  - intros vs s G I P. unfold cleanDateColumn.
    assert (H : has_column df c = true) by (apply has_column_get; eauto).
    rewrite H. cbn [negb]. rewrite (col_get _ _ _ G). cbn [bind strptime].
    destruct (Nat.eqb_spec (null_count (map (parse_us DATE_FORMAT) vs))
                           (null_count vs)) as [E|E]; [|reflexivity].
    exfalso.
    assert (N : Some s = None).
    { apply (null_count_map_eq (parse_us DATE_FORMAT) vs); trivial.
      simpl. now rewrite P. }
    discriminate.
  - intros out vs ts C G GO i s N.
    exact (cleanDateColumn_parsed df c out vs ts C G GO i s N).
Qed.

(** The three cases of [cleanDateColumn_errors] on tables of dates as
    text: no such column; an ISO date under the pattern of the source; a
    date in the pattern. *)
Lemma cleanDateColumn_errors_witness :
  cleanDateColumn (Examples.raw_dates [Some "Jan 5 2024 3:45PM"]) "Date"
  = Raise (ValueError "The column 'Date' does not exist in the DataFrame.") /\
  cleanDateColumn (Examples.raw_dates [Some "Jan 5 2024 3:45PM"; Some "2024-01-05"]) DATE
  = Raise (InvalidOperationError "conversion from `str` to `datetime[us]` failed") /\
  exists dt,
    Chrono.parse_from_str "Jan 5 2024 3:45PM" DATE_FORMAT = Some dt /\
    nth 0 [Some 1704469500000000; None] None = Some (Chrono.timestamp_micros dt).
Proof.
  split; [|split].
  - apply (cleanDateColumn_errors (Examples.raw_dates [Some "Jan 5 2024 3:45PM"]) "Date").
    reflexivity.
  - apply (proj1 (proj2 (cleanDateColumn_errors
             (Examples.raw_dates [Some "Jan 5 2024 3:45PM"; Some "2024-01-05"]) DATE))
             [Some "Jan 5 2024 3:45PM"; Some "2024-01-05"] "2024-01-05").
    + reflexivity.
    + simpl. auto.
    + reflexivity.
  - apply (proj2 (proj2 (cleanDateColumn_errors
             (Examples.raw_dates [Some "Jan 5 2024 3:45PM"; None]) DATE))
             (replace_column (Examples.raw_dates [Some "Jan 5 2024 3:45PM"; None]) DATE
                (Datetime [Some 1704469500000000; None]))
             [Some "Jan 5 2024 3:45PM"; None]
             [Some 1704469500000000; None]).
    + reflexivity.
    + reflexivity.
    + reflexivity.
    + reflexivity.
Defined.

(** C7.  When [cleanDateColumn] returns on a well-formed frame, the
    result has the same column names in the same order and the same
    height, every column other than the date column is the column it
    was, and the date column is a [Datetime] whose value at each
    position is the parse of the text at that position. *)
Theorem cleanDateColumn_frame (df : DataFrame) (c : string) (out : DataFrame) :
  wf df ->
  cleanDateColumn df c = Ok out ->
  columns out = columns df /\
  height out = height df /\
  wf out /\
  (forall n, n <> c -> get_column out n = get_column df n) /\
  exists vs ts,
    get_column df c = Some (Utf8 vs) /\
    get_column out c = Some (Datetime ts) /\
    List.length ts = List.length vs /\
    forall i, nth i ts None = parse_us DATE_FORMAT (nth i vs None).
Proof.
  intros W C. apply cleanDateColumn_Ok in C. destruct C as (vs & G & E & ->).
  assert (H : height (replace_column df c (Datetime (map (parse_us DATE_FORMAT) vs)))
              = height df).
  { apply (height_replace_column _ _ _ _ G). simpl. apply length_map. }
  repeat split.
  - apply columns_replace_column.
  - exact H.
  - rewrite columns_replace_column. exact (proj1 W).
  - rewrite H. apply replace_column_len; [|exact (proj2 W)].
    simpl. rewrite length_map. exact (wf_column_len _ _ _ W G).
  - intros n D. now apply get_replace_column_other.
  - exists vs, (map (parse_us DATE_FORMAT) vs). repeat split.
    + exact G.
    + apply get_replace_column_same, has_column_get. eauto.
    + apply length_map.
    + intros i. rewrite <- (parse_us_None DATE_FORMAT) at 1. apply map_nth.
Qed.

(** A table of two dates as text, one of them null, on which the
    function returns. *)
Lemma cleanDateColumn_frame_witness :
  let df := Examples.raw_dates [Some "Jan 5 2024 3:45PM"; None] in
  let out := [ (DATE, Datetime [Some 1704469500000000; None]);
               (SALE_PRICE, Int64 [Some 1; Some 1]) ] in
  columns out = columns df /\
  height out = height df /\
  wf out /\
  (forall n, n <> DATE -> get_column out n = get_column df n) /\
  exists vs ts,
    get_column df DATE = Some (Utf8 vs) /\
    get_column out DATE = Some (Datetime ts) /\
    List.length ts = List.length vs /\
    forall i, nth i ts None = parse_us DATE_FORMAT (nth i vs None).
Proof.
  apply (cleanDateColumn_frame (Examples.raw_dates [Some "Jan 5 2024 3:45PM"; None]) DATE).
  - split.
    + repeat constructor; simpl; intuition discriminate.
    + repeat constructor.
  - reflexivity.
Defined.


(** ** Wrapping sums *)

Section WrappingSums.

Lemma wrap64_add_r (a b : Z) : wrap64 (a + wrap64 b) = wrap64 (a + b).
Proof.
  unfold wrap64. f_equal.
  replace (a + ((b + 2 ^ 63) mod 2 ^ 64 - 2 ^ 63) + 2 ^ 63)
    with (a + (b + 2 ^ 63) mod 2 ^ 64) by lia.
  rewrite Z.add_mod_idemp_r by lia. f_equal. lia.
Qed.

Lemma wrap64_add_l (a b : Z) : wrap64 (wrap64 a + b) = wrap64 (a + b).
Proof. rewrite (Z.add_comm (wrap64 a)), wrap64_add_r. f_equal. lia. Qed.

Lemma wrap64_small (z : Z) : - 2 ^ 63 <= z < 2 ^ 63 -> wrap64 z = z.
Proof. intros H. unfold wrap64. rewrite Z.mod_small; lia. Qed.

Lemma fold_wadd (l : list Z) (a : Z) :
  fold_left wadd l (wrap64 a) = wrap64 (a + total l).
Proof.
  revert a. induction l as [|x l IH]; intros a; simpl.
  - f_equal. lia.
  - unfold wadd at 2. rewrite wrap64_add_l, IH. f_equal. lia.
Qed.

(** The wrapping sum is the sum in the integers, wrapped once. *)
Lemma sum_Z_total (vs : list (option Z)) :
  sum_Z vs = wrap64 (total (drop_nulls vs)).
Proof.
  unfold sum_Z. change 0 with (wrap64 0) at 1. now rewrite fold_wadd.
Qed.

Lemma total_app (l1 l2 : list Z) : total (l1 ++ l2) = total l1 + total l2.
Proof. induction l1; simpl; lia. Qed.

Lemma total_perm (l1 l2 : list Z) : Permutation l1 l2 -> total l1 = total l2.
Proof. induction 1; simpl; lia. Qed.

Lemma wrap64_total_wrapped {A} (F : A -> Z) (l : list A) :
  wrap64 (total (map (fun x => wrap64 (F x)) l)) = wrap64 (total (map F l)).
Proof.
  induction l as [|x l IH]; simpl; [reflexivity|].
  rewrite wrap64_add_l, <- wrap64_add_r, IH, wrap64_add_r. reflexivity.
Qed.

Lemma drop_nulls_map_Some {A} (l : list A) : drop_nulls (map Some l) = l.
Proof. induction l; simpl; congruence. Qed.

Lemma total_take_list (idx : list nat) (vs : list (option Z)) :
  total (drop_nulls (take_list idx vs)) = total (map (value_at vs) idx).
Proof.
  unfold take_list, value_at.
  induction idx as [|i idx IH]; simpl; [reflexivity|].
  destruct (nth i vs None); simpl; lia.
Qed.

Lemma total_value_at_seq (vs : list (option Z)) :
  total (map (value_at vs) (seq 0 (List.length vs))) = total (drop_nulls vs).
Proof.
  unfold value_at.
  rewrite (map_nth_seq (fun o : option Z => match o with
                                            | Some v => v
                                            | None => 0
                                            end) None vs).
  induction vs as [|[v|] vs IH]; simpl; lia.
Qed.

Lemma total_concat_map {A} (F : A -> Z) (ls : list (list A)) :
  total (map (fun l => total (map F l)) ls) = total (map F (List.concat ls)).
Proof.
  induction ls as [|l ls IH]; simpl; [reflexivity|].
  now rewrite map_app, total_app, IH.
Qed.

End WrappingSums.

(** ** Groups *)

Section Groups.

Lemma Permutation_concat {A} (l1 l2 : list (list A)) :
  Permutation l1 l2 -> Permutation (List.concat l1) (List.concat l2).
Proof.
  induction 1 as [|x l1 l2 _ IH|x y l|l1 l2 l3 _ IH1 _ IH2]; simpl.
  - constructor.
  - now apply Permutation_app_head.
  - rewrite !app_assoc. apply Permutation_app_tail, Permutation_app_comm.
  - now transitivity (List.concat l2).
Qed.

Lemma group_insert_rows (k : Key) (i : nat) (gs : list Group) :
  Permutation (List.concat (map snd (group_insert k i gs)))
              (i :: List.concat (map snd gs)).
Proof.
  induction gs as [|[k' ix] gs IH]; simpl.
  - reflexivity.
  - destruct (key_eqb k k'); simpl.
    + rewrite <- app_assoc. simpl.
      symmetry. apply Permutation_middle.
    + rewrite IH. symmetry. apply Permutation_middle.
Qed.

Lemma fold_group_insert_rows (l : list (nat * Key)) (gs : list Group) :
  Permutation
    (List.concat (map snd (fold_left (fun gs ik => group_insert (snd ik) (fst ik) gs) l gs)))
    (map fst l ++ List.concat (map snd gs)).
Proof.
  revert gs. induction l as [|[i k] l IH]; intros gs; simpl.
  - reflexivity.
  - rewrite IH, group_insert_rows. symmetry. apply Permutation_middle.
Qed.

Lemma map_fst_combine {A B} (l1 : list A) (l2 : list B) :
  List.length l1 = List.length l2 -> map fst (combine l1 l2) = l1.
Proof.
  revert l2. induction l1 as [|a l1 IH]; intros [|b l2] L; simpl in *;
    try reflexivity; try discriminate.
  f_equal. apply IH. lia.
Qed.

(** The groups partition the rows. *)
Lemma group_rows_partition (keys : list Key) :
  Permutation (List.concat (map snd (group_rows keys))) (seq 0 (List.length keys)).
Proof.
  unfold group_rows. rewrite fold_group_insert_rows. simpl.
  rewrite app_nil_r, map_fst_combine; [reflexivity | apply length_seq].
Qed.

Lemma cols_length (df : DataFrame) (names : list string) (ks : list Series) :
  cols df names = Ok ks -> List.length ks = List.length names.
Proof.
  revert ks. induction names as [|n names IH]; intros ks; simpl.
  - intros H. now inv H.
  - destruct (col df n); simpl; [|discriminate].
    destruct (cols df names); simpl; [|discriminate].
    intros H. inv H. simpl. f_equal. now apply IH.
Qed.

Lemma first_repeated_None (seen names : list string) :
  first_repeated seen names = None ->
  NoDup names /\ forall n, In n names -> ~ In n seen.
Proof.
  revert seen. induction names as [|n names IH]; intros seen; simpl.
  - intros _. split; [constructor | intros n []].
  - destruct (existsb (String.eqb n) seen) eqn:E; [discriminate|].
    intros H. destruct (IH _ H) as [N D].
    assert (Ns : ~ In n seen).
    { intros I.
      assert (X : existsb (String.eqb n) seen = true).
      { apply existsb_exists. exists n. split; [exact I | apply String.eqb_refl]. }
      congruence. }
    split.
    + constructor; [|exact N]. intros I. apply (D n I). now left.
    + intros m [<-|I]; [exact Ns|]. intros Is. apply (D m I). now right.
Qed.

Lemma first_duplicate_None (names : list string) :
  first_duplicate names = None -> NoDup names.
Proof. intros H. exact (proj1 (first_repeated_None [] names H)). Qed.

Lemma get_column_app_last (df : DataFrame) (name : string) (s : Series) :
  ~ In name (columns df) ->
  get_column (df ++ [(name, s)]) name = Some s.
Proof.
  induction df as [|[n c] df IH]; simpl; intros N.
  - now rewrite String.eqb_refl.
  - destruct (String.eqb_spec n name) as [->|D]; [tauto | auto].
Qed.

Lemma columns_combine (names : list string) (ss : list Series) :
  List.length ss = List.length names ->
  columns (combine names ss) = names.
Proof. intros L. unfold columns. now apply map_fst_combine. Qed.

(** What the grouped sum returns, when it returns. *)
Lemma group_by_agg_sum_Ok (E : Engine) (df : DataFrame)
      (keys : list string) (value alias : string) (out : DataFrame) :
  group_by_agg_sum E df keys value alias = Ok out ->
  exists ks vs,
    cols df keys = Ok ks /\
    get_column df value = Some (Int64 vs) /\
    NoDup (keys ++ [alias]) /\
    let groups := group_order E _ (group_rows (row_keys df ks)) in
    out = combine keys
                  (map (take (map (fun g : Group => List.hd 0%nat (snd g)) groups)) ks)
          ++ [(alias,
               Int64 (map (fun g : Group => Some (sum_Z (take_list (snd g) vs)))
                          groups))].
Proof.
  unfold group_by_agg_sum, col.
  destruct (cols df keys) as [ks|]; cbn [bind]; [|discriminate].
  destruct (get_column df value) as [v|]; cbn [bind]; [|discriminate].
  destruct v as [vs|vs|vs|vs]; cbn [int64_values bind]; try discriminate.
  destruct (first_duplicate (keys ++ [alias])) eqn:D; cbn [bind]; [discriminate|].
  intros H. inv H. exists ks, vs. repeat split.
  now apply first_duplicate_None.
Qed.

Lemma group_by_agg_sum_run (E : Engine) (df : DataFrame)
      (keys : list string) (value alias : string)
      (ks : list Series) (vs : list (option Z)) :
  cols df keys = Ok ks ->
  get_column df value = Some (Int64 vs) ->
  first_duplicate (keys ++ [alias]) = None ->
  group_by_agg_sum E df keys value alias
  = Ok (let groups := group_order E _ (group_rows (row_keys df ks)) in
        combine keys
                (map (take (map (fun g : Group => List.hd 0%nat (snd g)) groups)) ks)
        ++ [(alias,
             Int64 (map (fun g : Group => Some (sum_Z (take_list (snd g) vs)))
                        groups))]).
Proof.
  intros K V D. unfold group_by_agg_sum, col.
  rewrite K, V. cbn [bind int64_values]. rewrite D. reflexivity.
Qed.

Lemma NoDup_app_last_not_In {A} (l : list A) (a : A) :
  NoDup (l ++ [a]) -> ~ In a l.
Proof.
  intros N I. apply NoDup_remove_2 with (l' := []) in N.
  apply N. rewrite app_nil_r. exact I.
Qed.

End Groups.

(** C3, for a column of integers.  The grouped sum conserves the
    total: on a well-formed frame whose value column is an [Int64]
    column, the sum of the column of group sums is the sum of the value
    column, both as polars sums of [Int64] columns.  And the three-row
    table, grouped by warehouse and ticket, has the two rows
    (W1,T1,150) and (W2,T2,200), in the order the engine chose. *)
Theorem group_by_agg_sum_conserves_total :
  (forall (E : Engine) (df : DataFrame) (keys : list string)
          (value alias : string) (prices : list (option Z)) (out : DataFrame),
      wf df ->
      get_column df value = Some (Int64 prices) ->
      group_by_agg_sum E df keys value alias = Ok out ->
      exists totals,
        get_column out alias = Some (Int64 totals) /\
        sum_Z totals = sum_Z prices) /\
  (forall E : Engine,
      exists out,
        group_by_agg_sum E Examples.scenario [WAREHOUSE; NO_MOV] SALE_PRICE TOTAL_SALES
        = Ok out /\
        Permutation (rows out)
                    [ [Some (CStr "W1"); Some (CStr "T1"); Some (CInt 150)];
                      [Some (CStr "W2"); Some (CStr "T2"); Some (CInt 200)] ]).
Proof.
  split.
  - intros E df keys value alias prices out W GP G.
    apply group_by_agg_sum_Ok in G.
    destruct G as (ks & vs & K & V & N & ->).
    assert (prices = vs) by congruence. subst prices.
    set (groups := group_order E Group (group_rows (row_keys df ks))).
    exists (map (fun g : Group => Some (sum_Z (take_list (snd g) vs))) groups).
    repeat split; trivial.
    + apply get_column_app_last. rewrite columns_combine.
      * now apply NoDup_app_last_not_In.
      * rewrite length_map. now apply cols_length in K.
    + rewrite !sum_Z_total.
      rewrite <- (map_map (fun g : Group => sum_Z (take_list (snd g) vs)) Some).
      rewrite drop_nulls_map_Some.
      rewrite (map_ext _ (fun g : Group => wrap64 (total (map (value_at vs) (snd g)))))
        by (intros g; now rewrite sum_Z_total, total_take_list).
      rewrite (wrap64_total_wrapped (fun g : Group => total (map (value_at vs) (snd g)))).
      f_equal.
      replace (map (fun g : Group => total (map (value_at vs) (snd g))) groups)
        with (map (fun l => total (map (value_at vs) l)) (map snd groups))
        by (now rewrite map_map).
      rewrite total_concat_map.
      rewrite <- total_value_at_seq.
      apply total_perm, Permutation_map.
      transitivity (List.concat (map snd (group_rows (row_keys df ks)))).
      * apply Permutation_concat, Permutation_map. apply group_order_perm.
      * rewrite group_rows_partition. unfold row_keys.
        rewrite length_map, length_seq.
        pose proof (wf_column_len _ _ _ W V) as L. simpl in L. now rewrite L.
  - intros E.
    set (k1 := [Some (CStr "W1"); Some (CStr "T1")]).
    set (k2 := [Some (CStr "W2"); Some (CStr "T2")]).
    assert (G : group_rows (row_keys Examples.scenario
                              [Utf8 [Some "W1"; Some "W1"; Some "W2"];
                               Utf8 [Some "T1"; Some "T1"; Some "T2"]])
                = [(k1, [0; 1]%nat); (k2, [2%nat])]) by reflexivity.
    pose proof (group_order_perm E Group [(k1, [0; 1]%nat); (k2, [2%nat])]) as P.
    apply Permutation_sym, Permutation_length_2_inv in P.
    rewrite (group_by_agg_sum_run E Examples.scenario [WAREHOUSE; NO_MOV]
               SALE_PRICE TOTAL_SALES
               [Utf8 [Some "W1"; Some "W1"; Some "W2"];
                Utf8 [Some "T1"; Some "T1"; Some "T2"]]
               [Some 100; Some 50; Some 200] eq_refl eq_refl eq_refl).
    cbv zeta.
    rewrite G.
    destruct P as [-> | ->]; eexists; (split; [reflexivity|]).
    + vm_compute. reflexivity.
    + vm_compute. apply perm_swap.
Qed.

(** The general half of [group_by_agg_sum_conserves_total] at the
    three-row table, grouped in reverse order: 200 + 150 = 100 + 50 +
    200. *)
Lemma group_by_agg_sum_conserves_total_witness :
  exists totals,
    get_column [ (WAREHOUSE, Utf8 [Some "W2"; Some "W1"]);
                 (NO_MOV, Utf8 [Some "T2"; Some "T1"]);
                 (TOTAL_SALES, Int64 [Some 200; Some 150]) ] TOTAL_SALES
    = Some (Int64 totals) /\
    sum_Z totals = sum_Z [Some 100; Some 50; Some 200].
Proof.
  apply (proj1 group_by_agg_sum_conserves_total Examples.engine_rev_groups
               Examples.scenario [WAREHOUSE; NO_MOV] SALE_PRICE TOTAL_SALES).
  - split.
    + repeat constructor; simpl; intuition discriminate.
    + repeat constructor.
  - reflexivity.
  - reflexivity.
Defined.

(** C3, as the spec has it for every numeric column, fails on a column
    of binary64 prices.  With the prices 0.1 | 0.2, 0.3 of two tickets
    the ticket totals are 0.1 and 0.5, which add up to 0.6 in either
    order, while the three prices add up to 0.6000000000000001. *)
Lemma group_by_agg_sum_float_counterexample :
  sum_f64 Examples.float_prices = S754_finite false 5404319552844596 (-53) /\
  forall E : Engine,
    Permutation
      (group_sums_f64 E Examples.float_keys Examples.float_prices)
      [ Some (S754_finite false 7205759403792794 (-56));
        Some (S754_finite false 4503599627370496 (-53)) ] /\
    sum_f64 (group_sums_f64 E Examples.float_keys Examples.float_prices)
    = S754_finite false 5404319552844595 (-53) /\
    sum_f64 (group_sums_f64 E Examples.float_keys Examples.float_prices)
    <> sum_f64 Examples.float_prices.
Proof.
  split; [vm_compute; reflexivity|].
  intros E. unfold group_sums_f64.
  set (k1 := [Some (CStr "W1"); Some (CStr "T1")]).
  set (k2 := [Some (CStr "W2"); Some (CStr "T2")]).
  assert (G : group_rows Examples.float_keys = [(k1, [0%nat]); (k2, [1; 2]%nat)])
    by reflexivity.
  rewrite G.
  pose proof (group_order_perm E Group [(k1, [0%nat]); (k2, [1; 2]%nat)]) as P.
  apply Permutation_sym, Permutation_length_2_inv in P.
  destruct P as [-> | ->].
  - split; [vm_compute; reflexivity|].
    split; [vm_compute; reflexivity|].
    vm_compute. discriminate.
  - split; [vm_compute; apply perm_swap|].
    split; [vm_compute; reflexivity|].
    vm_compute. discriminate.
Qed.


(** ** Group keys *)

Section GroupKeys.

Lemma cell_eqb_eq (a b : Cell) : cell_eqb a b = true <-> a = b.
Proof.
  destruct a, b; simpl; try (split; [discriminate | congruence]).
  - rewrite String.eqb_eq. split; congruence.
  - rewrite Z.eqb_eq. split; congruence.
  - rewrite Z.eqb_eq. split; congruence.
  - rewrite Z.eqb_eq. split; congruence.
Qed.

Lemma ocell_eqb_eq (a b : option Cell) : ocell_eqb a b = true <-> a = b.
Proof.
  destruct a, b; simpl; try (split; [discriminate | congruence]).
  - rewrite cell_eqb_eq. split; congruence.
  - tauto.
Qed.

Lemma key_eqb_eq (a b : Key) : key_eqb a b = true <-> a = b.
Proof.
  revert b. induction a as [|x a IH]; intros [|y b]; simpl;
    try (split; [discriminate | congruence]); [tauto|].
  rewrite andb_true_iff, ocell_eqb_eq, IH. split.
  - intros [-> ->]. reflexivity.
  - intros H. inv H. auto.
Qed.

Lemma key_eqb_refl (a : Key) : key_eqb a a = true.
Proof. now apply key_eqb_eq. Qed.

Lemma key_eqb_neq (a b : Key) : key_eqb a b = false <-> a <> b.
Proof.
  rewrite <- key_eqb_eq. destruct (key_eqb a b); split; congruence.
Qed.

Lemma key_eqb_sym (a b : Key) : key_eqb a b = key_eqb b a.
Proof.
  destruct (key_eqb a b) eqn:E.
  - apply key_eqb_eq in E. subst. symmetry. apply key_eqb_refl.
  - symmetry. apply key_eqb_neq. apply key_eqb_neq in E. congruence.
Qed.

Lemma In_distinct_keys (keys : list Key) (k : Key) :
  In k (distinct_keys keys) <-> In k keys.
Proof.
  induction keys as [|a keys IH]; simpl; [tauto|].
  rewrite filter_In, IH, negb_true_iff, key_eqb_neq.
  destruct (key_eqb a k) eqn:E.
  - apply key_eqb_eq in E. tauto.
  - apply key_eqb_neq in E. split; [tauto|].
    intros [H|H]; [tauto | right; split; congruence].
Qed.

Lemma NoDup_distinct_keys (keys : list Key) : NoDup (distinct_keys keys).
Proof.
  induction keys as [|a keys IH]; simpl; constructor.
  - rewrite filter_In, negb_true_iff, key_eqb_neq. tauto.
  - now apply NoDup_filter.
Qed.

(** A further row adds its key at the end, unless the key is known. *)
Lemma distinct_keys_snoc (p : list Key) (k : Key) :
  distinct_keys (p ++ [k])
  = if existsb (key_eqb k) p then distinct_keys p
    else distinct_keys p ++ [k].
Proof.
  induction p as [|a p IH]; simpl; [reflexivity|].
  rewrite IH. destruct (key_eqb k a) eqn:E; simpl.
  - apply key_eqb_eq in E. subst a.
    destruct (existsb (key_eqb k) p); [reflexivity|].
    rewrite filter_app. simpl. rewrite key_eqb_refl. simpl.
    now rewrite app_nil_r.
  - destruct (existsb (key_eqb k) p); [reflexivity|].
    rewrite filter_app. simpl. rewrite E. reflexivity.
Qed.

Lemma rows_of_key_snoc (p : list Key) (k k' : Key) :
  rows_of_key (p ++ [k]) k'
  = rows_of_key p k' ++ (if key_eqb k k' then [List.length p] else []).
Proof.
  unfold rows_of_key. rewrite length_app. simpl.
  rewrite Nat.add_1_r, seq_S, filter_app. simpl. f_equal.
  - apply filter_ext_in. intros i I. apply in_seq in I.
    rewrite app_nth1 by lia. reflexivity.
  - rewrite app_nth2 by lia. rewrite Nat.sub_diag. reflexivity.
Qed.

Lemma filter_none {A} (f : A -> bool) (l : list A) :
  (forall x, In x l -> f x = false) -> List.filter f l = [].
Proof.
  induction l as [|x l IH]; intros H; simpl; [reflexivity|].
  rewrite (H x) by now left. apply IH. intros y I. apply H. now right.
Qed.

Lemma existsb_key_false (p : list Key) (k k' : Key) :
  existsb (key_eqb k) p = false -> In k' p -> key_eqb k k' = false.
Proof.
  intros H I. destruct (key_eqb k k') eqn:E; [|reflexivity].
  assert (X : existsb (key_eqb k) p = true)
    by (apply existsb_exists; eauto).
  congruence.
Qed.

Lemma rows_of_key_absent (p : list Key) (k : Key) :
  existsb (key_eqb k) p = false -> rows_of_key p k = [].
Proof.
  intros H. unfold rows_of_key. apply filter_none.
  intros i I. apply in_seq in I. rewrite key_eqb_sym.
  apply (existsb_key_false p); trivial. apply nth_In. lia.
Qed.

Lemma existsb_distinct_keys (p : list Key) (k : Key) :
  existsb (key_eqb k) (distinct_keys p) = existsb (key_eqb k) p.
Proof.
  destruct (existsb (key_eqb k) p) eqn:E.
  - apply existsb_exists in E. destruct E as (x & I & X).
    apply existsb_exists. exists x. split; [|exact X].
    now apply In_distinct_keys.
  - destruct (existsb (key_eqb k) (distinct_keys p)) eqn:F; [|reflexivity].
    apply existsb_exists in F. destruct F as (x & I & X).
    apply (proj1 (In_distinct_keys _ _)) in I.
    rewrite (existsb_key_false p k x E I) in X. discriminate.
Qed.

Lemma combine_snoc {A B} (l1 : list A) (l2 : list B) (a : A) (b : B) :
  List.length l1 = List.length l2 ->
  combine (l1 ++ [a]) (l2 ++ [b]) = combine l1 l2 ++ [(a, b)].
Proof.
  revert l2. induction l1 as [|x l1 IH]; intros [|y l2] L; simpl in *;
    try reflexivity; try discriminate.
  f_equal. apply IH. lia.
Qed.

Lemma group_rows_snoc (p : list Key) (k : Key) :
  group_rows (p ++ [k]) = group_insert k (List.length p) (group_rows p).
Proof.
  unfold group_rows. rewrite length_app. simpl.
  rewrite Nat.add_1_r, seq_S. simpl.
  rewrite combine_snoc by apply length_seq.
  now rewrite fold_left_app.
Qed.

Lemma group_insert_map (R : Key -> list nat) (k : Key) (n : nat) (D : list Key) :
  NoDup D ->
  group_insert k n (map (fun k' => (k', R k')) D)
  = if existsb (key_eqb k) D
    then map (fun k' => (k', R k' ++ (if key_eqb k k' then [n] else []))) D
    else map (fun k' => (k', R k')) D ++ [(k, [n])].
Proof.
  induction 1 as [|a D N _ IH]; simpl; [reflexivity|].
  destruct (key_eqb k a) eqn:E; simpl.
  - f_equal. apply map_ext_in. intros k' I.
    apply key_eqb_eq in E. subst a.
    assert (X : key_eqb k k' = false).
    { apply key_eqb_neq. intros ->. contradiction. }
    now rewrite X, app_nil_r.
  - rewrite IH, app_nil_r. now destruct (existsb (key_eqb k) D).
Qed.

(** The groups of a list of row keys: one per distinct key, in order of
    first appearance, each with the positions of the rows that carry
    its key. *)
Lemma group_rows_spec (keys : list Key) :
  group_rows keys
  = map (fun k => (k, rows_of_key keys k)) (distinct_keys keys).
Proof.
  induction keys as [|k p IH] using rev_ind; [reflexivity|].
  rewrite group_rows_snoc, IH.
  rewrite group_insert_map by apply NoDup_distinct_keys.
  rewrite existsb_distinct_keys, distinct_keys_snoc.
  destruct (existsb (key_eqb k) p) eqn:E.
  - apply map_ext. intros k'. now rewrite rows_of_key_snoc.
  - rewrite map_app. simpl. f_equal.
    + apply map_ext_in. intros k' I. rewrite rows_of_key_snoc.
      apply (proj1 (In_distinct_keys _ _)) in I.
      now rewrite (existsb_key_false p k k' E I), app_nil_r.
    + rewrite rows_of_key_snoc, key_eqb_refl.
      now rewrite (rows_of_key_absent p k E).
Qed.

(** All rows under one key: one group. *)
Lemma distinct_keys_constant (keys : list Key) (k : Key) :
  keys <> [] ->
  (forall k', In k' keys -> k' = k) ->
  distinct_keys keys = [k].
Proof.
  induction keys as [|a keys IH]; intros N H; [congruence|].
  simpl. rewrite (H a) by now left. f_equal.
  apply filter_none. intros x I. apply (proj1 (In_distinct_keys _ _)) in I.
  rewrite (H x) by now right. now rewrite key_eqb_refl.
Qed.

End GroupKeys.


(** ** Gathering rows *)

Section Gather.

Lemma take_list_map {A B} (f : A -> B) (idx : list nat) (vs : list (option A)) :
  take_list idx (map (option_map f) vs) = map (option_map f) (take_list idx vs).
Proof.
  unfold take_list. rewrite map_map. apply map_ext. intros i.
  change (@None B) with (option_map f None). apply map_nth.
Qed.

Lemma cells_take (idx : list nat) (s : Series) :
  cells (take idx s) = take_list idx (cells s).
Proof. destruct s; simpl; now rewrite take_list_map. Qed.

Lemma len_take (idx : list nat) (s : Series) : len (take idx s) = List.length idx.
Proof. destruct s; simpl; unfold take_list; now rewrite length_map. Qed.

Lemma nth_take_list {A} (idx : list nat) (vs : list (option A)) (j : nat) :
  (j < List.length idx)%nat ->
  nth j (take_list idx vs) None = nth (nth j idx 0%nat) vs None.
Proof.
  intros L. unfold take_list.
  rewrite (nth_indep _ None (nth 0%nat vs None)) by now rewrite length_map.
  apply (map_nth (fun i => nth i vs None)).
Qed.

(** The rows of a gathered frame are the rows at the positions
    gathered. *)
Lemma rows_take (df : DataFrame) (idx : list nat) :
  df <> [] ->
  rows (map (fun c => (fst c, take idx (snd c))) df) = map (row_at df) idx.
Proof.
  intros N. unfold rows.
  assert (H : height (map (fun c => (fst c, take idx (snd c))) df)
              = List.length idx).
  { destruct df as [|[n s] df]; [congruence|]. simpl. apply len_take. }
  rewrite H, <- (map_nth_seq (row_at df) 0%nat idx).
  apply map_ext_in. intros j J. apply in_seq in J.
  unfold row_at. rewrite map_map. apply map_ext. intros [n s]. cbn [fst snd].
  rewrite cells_take. apply nth_take_list. lia.
Qed.

Lemma rows_seq (df : DataFrame) : rows df = map (row_at df) (seq 0 (height df)).
Proof. reflexivity. Qed.

Lemma row_at_app (a b : DataFrame) (i : nat) :
  row_at (a ++ b) i = row_at a i ++ row_at b i.
Proof. unfold row_at. apply map_app. Qed.

Lemma row_at_combine (names : list string) (ss : list Series) (i : nat) :
  List.length ss = List.length names ->
  row_at (combine names ss) i = key_at ss i.
Proof.
  unfold row_at, key_at. revert ss.
  induction names as [|n names IH]; intros [|s ss] L; simpl in *;
    try reflexivity; try discriminate.
  f_equal. apply IH. lia.
Qed.

Lemma key_at_take (ks : list Series) (idx : list nat) (j : nat) :
  (j < List.length idx)%nat ->
  key_at (map (take idx) ks) j = key_at ks (nth j idx 0%nat).
Proof.
  intros L. unfold key_at. rewrite map_map. apply map_ext. intros s.
  rewrite cells_take. now apply nth_take_list.
Qed.

Lemma height_app_last (names : list string) (ss : list Series)
      (alias : string) (s : Series) (h : nat) :
  List.length ss = List.length names ->
  Forall (fun x => len x = h) ss -> len s = h ->
  height (combine names ss ++ [(alias, s)]) = h.
Proof.
  intros L F S. destruct names as [|n names], ss as [|x ss]; simpl in *;
    try discriminate; trivial.
  now inv F.
Qed.

End Gather.

(** ** The rows of a grouped sum *)

Section GroupedRows.

Lemma hd_rows_of_key (keys : list Key) (k : Key) :
  In k keys -> nth (List.hd 0%nat (rows_of_key keys k)) keys [] = k.
Proof.
  intros I. unfold rows_of_key.
  destruct (In_nth keys k [] I) as (i & L & X).
  assert (M : In i (List.filter (fun i => key_eqb (nth i keys []) k)
                                (seq 0 (List.length keys)))).
  { apply filter_In. split; [apply in_seq; lia|]. now rewrite X, key_eqb_refl. }
  destruct (List.filter (fun i => key_eqb (nth i keys []) k)
                        (seq 0 (List.length keys))) as [|j l] eqn:F;
    [contradiction|].
  assert (J : In j (List.filter (fun i => key_eqb (nth i keys []) k)
                                (seq 0 (List.length keys))))
    by (rewrite F; now left).
  apply filter_In in J. destruct J as [_ J]. simpl. now apply key_eqb_eq.
Qed.

Lemma hd_rows_of_key_lt (keys : list Key) (k : Key) :
  In k keys -> (List.hd 0%nat (rows_of_key keys k) < List.length keys)%nat.
Proof.
  intros I. unfold rows_of_key.
  destruct (In_nth keys k [] I) as (i & L & X).
  destruct (List.filter (fun i => key_eqb (nth i keys []) k)
                        (seq 0 (List.length keys))) as [|j l] eqn:F.
  - simpl. lia.
  - assert (J : In j (List.filter (fun i => key_eqb (nth i keys []) k)
                                  (seq 0 (List.length keys))))
      by (rewrite F; now left).
    apply filter_In in J. destruct J as [J _]. apply in_seq in J. simpl. lia.
Qed.

Lemma nth_row_keys (df : DataFrame) (ks : list Series) (i : nat) :
  (i < height df)%nat -> nth i (row_keys df ks) [] = key_at ks i.
Proof.
  intros L. unfold row_keys.
  rewrite (nth_indep _ [] (key_at ks 0%nat)) by now rewrite length_map, length_seq.
  rewrite (map_nth (key_at ks)), seq_nth by exact L. reflexivity.
Qed.

Lemma length_row_keys (df : DataFrame) (ks : list Series) :
  List.length (row_keys df ks) = height df.
Proof. unfold row_keys. now rewrite length_map, length_seq. Qed.

(** One row per group of the engine's list: the key of the group, then
    its sum. *)
Lemma rows_grouped (groups : list Group) (names : list string)
      (ks : list Series) (alias : string) (vs : list (option Z)) :
  List.length ks = List.length names ->
  rows (combine names
                (map (take (map (fun g : Group => List.hd 0%nat (snd g)) groups)) ks)
        ++ [(alias,
             Int64 (map (fun g : Group => Some (sum_Z (take_list (snd g) vs)))
                        groups))])
  = map (fun g : Group =>
           key_at ks (List.hd 0%nat (snd g))
           ++ [Some (CInt (sum_Z (take_list (snd g) vs)))]) groups.
Proof.
  intros L. unfold rows.
  rewrite (height_app_last _ _ _ _ (List.length groups)).
  - rewrite <- (map_nth_seq
                  (fun g : Group =>
                     key_at ks (List.hd 0%nat (snd g))
                     ++ [Some (CInt (sum_Z (take_list (snd g) vs)))])
                  ([], []) groups).
    apply map_ext_in. intros j J. apply in_seq in J.
    rewrite row_at_app, row_at_combine by now rewrite length_map.
    rewrite key_at_take by (rewrite length_map; lia).
    f_equal.
    + f_equal.
      rewrite (nth_indep _ 0%nat (List.hd 0%nat (snd (@nil (option Cell), @nil nat))))
        by (rewrite length_map; lia).
      apply (map_nth (fun g : Group => List.hd 0%nat (snd g))).
    + unfold row_at. cbn [map snd cells]. f_equal.
      rewrite map_map.
      rewrite (nth_indep _ None
                 (option_map CInt
                    (Some (sum_Z (take_list (snd (@nil (option Cell), @nil nat)) vs)))))
        by (rewrite length_map; lia).
      apply (map_nth (fun g : Group =>
                        option_map CInt (Some (sum_Z (take_list (snd g) vs))))).
  - now rewrite length_map.
  - apply Forall_map, Forall_forall. intros s _.
    rewrite len_take. apply length_map.
  - simpl. apply length_map.
Qed.

(** The rows of a grouped sum, in the terms of the table: one row per
    distinct key, with the sum of the values of the rows that carry
    the key; in the order the engine chose. *)
Lemma rows_group_by_agg_sum (E : Engine) (df : DataFrame)
      (keys : list string) (value alias : string) (out : DataFrame)
      (ks : list Series) (vs : list (option Z)) :
  group_by_agg_sum E df keys value alias = Ok out ->
  cols df keys = Ok ks ->
  get_column df value = Some (Int64 vs) ->
  Permutation
    (rows out)
    (map (fun k => k ++ [Some (CInt (group_total (row_keys df ks) vs k))])
         (distinct_keys (row_keys df ks))).
Proof.
  intros G K V. apply group_by_agg_sum_Ok in G.
  destruct G as (ks' & vs' & K' & V' & N & ->).
  assert (ks' = ks) by congruence. assert (vs' = vs) by congruence.
  subst ks' vs'. cbv zeta.
  rewrite rows_grouped by now apply cols_length in K.
  rewrite (Permutation_map _ (group_order_perm E Group _)).
  rewrite group_rows_spec, map_map. cbn [snd].
  apply Permutation_refl'. apply map_ext_in. intros k I.
  apply (proj1 (In_distinct_keys _ _)) in I. f_equal.
  rewrite <- (hd_rows_of_key _ _ I) at 2.
  symmetry. apply nth_row_keys.
  rewrite <- (length_row_keys df ks). now apply hd_rows_of_key_lt.
Qed.

End GroupedRows.


(** ** Sorting *)

Section Sorting.

Context {A : Type} (leb : A -> A -> bool).

Lemma insert_sorted_perm (x : A) (l : list A) :
  Permutation (insert_sorted leb x l) (x :: l).
Proof.
  induction l as [|y l IH]; simpl; [reflexivity|].
  destruct (leb x y); [reflexivity|].
  rewrite IH. apply perm_swap.
Qed.

Lemma stable_sort_perm (l : list A) : Permutation (stable_sort leb l) l.
Proof.
  induction l as [|x l IH]; simpl; [reflexivity|].
  rewrite insert_sorted_perm. now constructor.
Qed.

Hypothesis leb_total : forall a b, leb a b = false -> leb b a = true.

Lemma insert_sorted_Sorted (x : A) (l : list A) :
  Sorted (fun a b => leb a b = true) l ->
  Sorted (fun a b => leb a b = true) (insert_sorted leb x l).
Proof.
  induction 1 as [|y l S IH H]; simpl.
  - repeat constructor.
  - destruct (leb x y) eqn:E.
    + repeat constructor; assumption.
    + constructor; [exact IH|].
      destruct l as [|z l]; simpl.
      * constructor. now apply leb_total.
      * inv H. destruct (leb x z); constructor; auto.
Qed.

Lemma stable_sort_Sorted (l : list A) :
  Sorted (fun a b => leb a b = true) (stable_sort leb l).
Proof.
  induction l as [|x l IH]; simpl; [constructor|].
  now apply insert_sorted_Sorted.
Qed.

End Sorting.

Section SortFrames.

Lemma cell_leb_total (a b : Cell) : cell_leb a b = false -> cell_leb b a = true.
Proof.
  destruct a, b; simpl; try discriminate; try reflexivity.
  - intros H. destruct (String.leb_total s s0); congruence.
  - rewrite Z.leb_gt, Z.leb_le. lia.
  - rewrite Z.leb_gt, Z.leb_le. lia.
  - rewrite Z.leb_gt, Z.leb_le. lia.
Qed.

Lemma sort_leb_total (d : bool) (a b : option Cell) :
  sort_leb d a b = false -> sort_leb d b a = true.
Proof.
  destruct a as [x|], b as [y|]; simpl; try discriminate; try reflexivity.
  destruct d; apply cell_leb_total.
Qed.

(** A relation that holds along a list of positions holds along the
    list of what stands at them. *)
Lemma Sorted_map_in {A B} (R : A -> A -> Prop) (R' : B -> B -> Prop)
      (f : A -> B) (P : A -> Prop) (l : list A) :
  (forall a b, P a -> P b -> R a b -> R' (f a) (f b)) ->
  Forall P l -> Sorted R l -> Sorted R' (map f l).
Proof.
  intros H F S. induction S as [|a l S IH Hd]; simpl; [constructor|].
  inv F. constructor; [auto|].
  destruct Hd as [|b l Hab]; simpl; constructor.
  match goal with X : Forall P (b :: l) |- _ => inv X end. auto.
Qed.

Lemma take_list_map_Some {A} (d : A) (idx : list nat) (vs : list A) :
  Forall (fun i => (i < List.length vs)%nat) idx ->
  take_list idx (map Some vs) = map Some (map (fun i => nth i vs d) idx).
Proof.
  intros F. unfold take_list. rewrite map_map.
  apply map_ext_in. intros i I. rewrite Forall_forall in F.
  rewrite (nth_indep _ None (Some d)) by (rewrite length_map; auto).
  apply (map_nth Some).
Qed.

Lemma sorted_positions_perm (E : Engine) (s : Series) (d : bool) (h : nat) :
  Permutation (sorted_positions E s d h) (seq 0 h).
Proof.
  unfold sorted_positions. rewrite stable_sort_perm. apply tie_order_perm.
Qed.

Lemma sorted_positions_lt (E : Engine) (s : Series) (d : bool) (h : nat) :
  Forall (fun i => (i < h)%nat) (sorted_positions E s d h).
Proof.
  apply Forall_forall. intros i I.
  apply (Permutation_in _ (sorted_positions_perm E s d h)) in I.
  apply in_seq in I. lia.
Qed.

Lemma sort_run (E : Engine) (df : DataFrame) (by_ : string) (d : bool)
      (s : Series) :
  get_column df by_ = Some s ->
  sort E df by_ d
  = Ok (map (fun c => (fst c, take (sorted_positions E s d (height df)) (snd c)))
            df).
Proof. intros G. unfold sort. now rewrite (col_get _ _ _ G). Qed.

(** Sorting by a column of integers without nulls puts the integers in
    order. *)
Lemma sorted_positions_Int64 (E : Engine) (ts : list Z) (d : bool) :
  Sorted (fun a b => if d then b <= a else a <= b)
         (map (fun i => nth i ts 0)
              (sorted_positions E (Int64 (map Some ts)) d (List.length ts))).
Proof.
  apply (Sorted_map_in
           (fun i j => sort_leb d (nth i (cells (Int64 (map Some ts))) None)
                                (nth j (cells (Int64 (map Some ts))) None) = true)
           _ _ (fun i => (i < List.length ts)%nat)).
  - intros i j I J. cbn [cells]. rewrite map_map. cbn [option_map].
    rewrite !(nth_indep _ None (Some (CInt 0))) by now rewrite length_map.
    rewrite !(map_nth (fun x => Some (CInt x))). simpl.
    destruct d; apply Z.leb_le.
  - apply sorted_positions_lt.
  - unfold sorted_positions. apply stable_sort_Sorted.
    intros a b. apply sort_leb_total.
Qed.

End SortFrames.

(** ** The first rows *)

Section Head.

Lemma head_list_nonneg {A} (n : Z) (l : list A) :
  0 <= n -> head_list n l = firstn (Z.to_nat n) l.
Proof. intros H. unfold head_list. now rewrite (proj2 (Z.leb_le 0 n) H). Qed.

Lemma head_list_all {A} (n : Z) (l : list A) :
  Z.of_nat (List.length l) <= n -> head_list n l = l.
Proof.
  intros H. rewrite head_list_nonneg by lia. apply firstn_all2. lia.
Qed.

Lemma head_list_map {A B} (f : A -> B) (n : Z) (l : list A) :
  head_list n (map f l) = map f (head_list n l).
Proof.
  unfold head_list. rewrite length_map.
  destruct (0 <=? n); apply firstn_map.
Qed.

End Head.

Section TopSellers.

Lemma filterLastNDays_Ok (df out : DataFrame) (days : Z) (c : string) :
  filterLastNDaysFromMaxDate df days c = Ok out ->
  exists mask, out = filter df mask.
Proof.
  unfold filterLastNDaysFromMaxDate.
  destruct (negb (has_column df c)); [discriminate|].
  destruct (col df c) as [s|]; cbn [bind]; [|discriminate].
  destruct (max_item s) as [[| | | | |m]|]; cbn [bind]; try discriminate.
  destruct (timedelta days); cbn [bind]; [|discriminate].
  destruct (datetime_sub m a); cbn [bind]; [|discriminate].
  destruct (ge_datetime_mask s a0); cbn [bind]; [|discriminate].
  intros H. inv H. eauto.
Qed.

End TopSellers.

(** C2, as the code has it.  On a table whose seller column is text
    and whose price column is [Int64], once the window filter has
    returned: the aggregation result has one row per seller of the
    window, with the seller's total; [sort] puts its rows in the order
    of the totals, descending unless [ascending]; the function returns
    the first [limit] of these rows, all of them when [limit] is not
    less than their number.  In which order rows with equal totals come
    is the engine's choice. *)
Theorem prepareTopSellers_sorted_head
    (E : Engine) (df filtered : DataFrame)
    (limit : Z) (ascending : bool) (days : Z)
    (names : list (option string)) (prices : list (option Z)) :
  filterLastNDaysFromMaxDate df days DATE = Ok filtered ->
  get_column df SELLER = Some (Utf8 names) ->
  get_column df SALE_PRICE = Some (Int64 prices) ->
  exists fnames fprices agg sellers totals,
    get_column filtered SELLER = Some (Utf8 fnames) /\
    get_column filtered SALE_PRICE = Some (Int64 fprices) /\
    group_by_agg_sum E filtered [SELLER] SALE_PRICE TOTAL_SALES = Ok agg /\
    Permutation
      (rows agg)
      (map (fun k => k ++ [Some (CInt (group_total
                                         (row_keys filtered [Utf8 fnames]) fprices k))])
           (distinct_keys (row_keys filtered [Utf8 fnames]))) /\
    sort E agg TOTAL_SALES (negb ascending)
    = Ok [(SELLER, Utf8 sellers); (TOTAL_SALES, Int64 (map Some totals))] /\
    Permutation
      (rows [(SELLER, Utf8 sellers); (TOTAL_SALES, Int64 (map Some totals))])
      (rows agg) /\
    List.length sellers = List.length totals /\
    Sorted (fun a b => if ascending then a <= b else b <= a) totals /\
    prepareTopSellers E df limit ascending days
    = Ok [(SELLER, map (opt_value PyStr) (head_list limit sellers));
          (TOTAL_SALES, map PyInt (head_list limit totals))] /\
    (0 <= limit ->
     head_list limit sellers = firstn (Z.to_nat limit) sellers /\
     head_list limit totals = firstn (Z.to_nat limit) totals) /\
    (Z.of_nat (List.length totals) <= limit ->
     head_list limit sellers = sellers /\ head_list limit totals = totals).
Proof.
  intros F GN GP.
  destruct (filterLastNDays_Ok _ _ _ _ F) as [mask ->].
  set (fnames := select_mask mask names).
  set (fprices := select_mask mask prices).
  assert (FN : get_column (filter df mask) SELLER = Some (Utf8 fnames))
    by (unfold filter; now rewrite get_column_map_columns, GN).
  assert (FP : get_column (filter df mask) SALE_PRICE = Some (Int64 fprices))
    by (unfold filter; now rewrite get_column_map_columns, GP).
  assert (K : cols (filter df mask) [SELLER] = Ok [Utf8 fnames])
    by (cbn [cols]; now rewrite (col_get _ _ _ FN)).
  pose proof (group_by_agg_sum_run E (filter df mask) [SELLER] SALE_PRICE
                TOTAL_SALES [Utf8 fnames] fprices K FP eq_refl) as G.
  cbv zeta in G. cbn [combine map app take map_series] in G.
  set (groups := group_order E Group
                   (group_rows (row_keys (filter df mask) [Utf8 fnames]))) in G.
  set (firsts := map (fun g : Group => List.hd 0%nat (snd g)) groups) in G.
  set (sums := map (fun g : Group => sum_Z (take_list (snd g) fprices)) groups).
  assert (SM : map (fun g : Group => Some (sum_Z (take_list (snd g) fprices))) groups
               = map Some sums) by (unfold sums; now rewrite map_map).
  rewrite SM in G.
  set (agg := [(SELLER, Utf8 (take_list firsts fnames));
               (TOTAL_SALES, Int64 (map Some sums))]) in G.
  assert (H : height agg = List.length sums).
  { unfold agg, take_list, firsts, sums. simpl. now rewrite !length_map. }
  set (idx := sorted_positions E (Int64 (map Some sums)) (negb ascending)
                               (List.length sums)).
  set (sellers := take_list idx (take_list firsts fnames)).
  set (totals := map (fun i => nth i sums 0) idx).
  assert (EQ : [(SELLER, Utf8 sellers); (TOTAL_SALES, Int64 (map Some totals))]
               = map (fun c => (fst c, take idx (snd c))) agg).
  { unfold agg. cbn [map fst snd take map_series].
    unfold totals. rewrite (take_list_map_Some 0); [reflexivity|].
    apply sorted_positions_lt. }
  assert (S : sort E agg TOTAL_SALES (negb ascending)
              = Ok [(SELLER, Utf8 sellers); (TOTAL_SALES, Int64 (map Some totals))]).
  { rewrite (sort_run E agg TOTAL_SALES (negb ascending) (Int64 (map Some sums)))
      by reflexivity.
    rewrite H. fold idx. now rewrite EQ. }
  exists fnames, fprices, agg, sellers, totals.
  split; [exact FN|]. split; [exact FP|]. split; [exact G|].
  split; [exact (rows_group_by_agg_sum _ _ _ _ _ _ _ _ G K FP)|].
  split; [exact S|].
  split.
  { rewrite EQ, rows_take by discriminate. rewrite rows_seq.
    apply Permutation_map. rewrite H. apply sorted_positions_perm. }
  split.
  { unfold sellers, totals, take_list. now rewrite !length_map. }
  split.
  { unfold totals, idx.
    replace (fun a b : Z => if ascending then a <= b else b <= a)
      with (fun a b : Z => if negb ascending then b <= a else a <= b)
      by (now destruct ascending).
    apply sorted_positions_Int64. }
  split.
  { unfold prepareTopSellers. rewrite F. cbn [bind]. rewrite G. cbn [bind].
    rewrite S. cbn [bind]. unfold head, map_columns, to_dict.
    cbn [map fst snd map_series to_list sequence bind columns combine].
    rewrite head_list_map, map_map. reflexivity. }
  split.
  { intros L. split; now apply head_list_nonneg. }
  { intros L. split; apply head_list_all; trivial.
    unfold sellers, totals, take_list in *. rewrite !length_map in *. exact L. }
Qed.

(** The hypotheses of [prepareTopSellers_sorted_head] hold of the table
    of three sellers, every row of which is in the window. *)
Lemma prepareTopSellers_sorted_head_witness :
  exists sellers totals,
    Sorted (fun a b => b <= a) totals /\
    prepareTopSellers Examples.engine_keep Examples.sellers 2 false 30
    = Ok [(SELLER, map (opt_value PyStr) (head_list 2 sellers));
          (TOTAL_SALES, map PyInt (head_list 2 totals))].
Proof.
  destruct (prepareTopSellers_sorted_head
              Examples.engine_keep Examples.sellers Examples.sellers 2 false 30
              [Some "Ana"; Some "Beto"; Some "Caro"]
              [Some 100; Some 100; Some 300] eq_refl eq_refl eq_refl)
    as (fn & fp & agg & s & t & _ & _ & _ & _ & _ & _ & _ & S & R & _).
  exists s, t. split; [exact S | exact R].
Defined.

(** C2, as the spec has it, fails on the order of ties.  Ana and Beto
    have the same total, and Ana's row comes first.  The same call
    returns Ana before Beto under one engine and Beto before Ana under
    another: once because the groups came in another order, once
    because the sort took equal rows in another order. *)
Lemma prepareTopSellers_ties_counterexample :
  prepareTopSellers Examples.engine_keep Examples.sellers 5 false 30
  = Ok [(SELLER, [PyStr "Caro"; PyStr "Ana"; PyStr "Beto"]);
        (TOTAL_SALES, [PyInt 300; PyInt 100; PyInt 100])] /\
  prepareTopSellers Examples.engine_rev_groups Examples.sellers 5 false 30
  = Ok [(SELLER, [PyStr "Caro"; PyStr "Beto"; PyStr "Ana"]);
        (TOTAL_SALES, [PyInt 300; PyInt 100; PyInt 100])] /\
  prepareTopSellers Examples.engine_rev_ties Examples.sellers 5 false 30
  = Ok [(SELLER, [PyStr "Caro"; PyStr "Beto"; PyStr "Ana"]);
        (TOTAL_SALES, [PyInt 300; PyInt 100; PyInt 100])].
Proof. repeat split. Qed.


(** ** The overall summary *)

Section Summary.

(** The five columns of the summary over a list of ticket totals. *)
Lemma prepareSummaryStatistics_run (E : Engine) (O : Float64Ops)
      (df : DataFrame) (w n : Series) (prices : list (option Z)) :
  get_column df WAREHOUSE = Some w ->
  get_column df NO_MOV = Some n ->
  get_column df SALE_PRICE = Some (Int64 prices) ->
  let groups := group_order E Group (group_rows (row_keys df [w; n])) in
  let totals := map (fun g : Group => sum_Z (take_list (snd g) prices)) groups in
  group_by_agg_sum E df [WAREHOUSE; NO_MOV] SALE_PRICE TOTAL_SALES
  = Ok [ (WAREHOUSE, take (map (fun g : Group => List.hd 0%nat (snd g)) groups) w);
         (NO_MOV, take (map (fun g : Group => List.hd 0%nat (snd g)) groups) n);
         (TOTAL_SALES, Int64 (map Some totals)) ] /\
  prepareSummaryStatistics E O df
  = Ok [ (SALES_MEAN,
          [Pandas.round_value O 2 (opt_value PyFloat (mean_Z O (map Some totals)))]);
         (SALES_MEDIAN,
          [Pandas.round_value O 2 (opt_value PyFloat (median_Z O (map Some totals)))]);
         (SALES_STDDEV,
          [Pandas.round_value O 2 (opt_value PyFloat (std_Z O (map Some totals)))]);
         (SALES_MIN,
          [Pandas.round_value O 2 (opt_value PyInt (min_Z (map Some totals)))]);
         (SALES_MAX,
          [Pandas.round_value O 2 (opt_value PyInt (max_Z (map Some totals)))]) ].
Proof.
  intros GW GN GP groups totals.
  assert (K : cols df [WAREHOUSE; NO_MOV] = Ok [w; n])
    by (cbn [cols]; now rewrite (col_get _ _ _ GW), (col_get _ _ _ GN)).
  pose proof (group_by_agg_sum_run E df [WAREHOUSE; NO_MOV] SALE_PRICE
                TOTAL_SALES [w; n] prices K GP eq_refl) as G.
  cbv zeta in G. cbn [combine map app] in G.
  fold groups in G.
  replace (map (fun g : Group => Some (sum_Z (take_list (snd g) prices))) groups)
    with (map Some totals) in G by (unfold totals; now rewrite map_map).
  split; [exact G|].
  unfold prepareSummaryStatistics. rewrite G. reflexivity.
Qed.

Lemma round_value_int (O : Float64Ops) (n : Z) (o : option Z) :
  Pandas.round_value O n (opt_value PyInt o) = opt_value PyInt o.
Proof. now destruct o. Qed.

Lemma round_value_float (O : Float64Ops) (n : Z) (o : option f64) :
  Pandas.round_value O n (opt_value PyFloat o)
  = opt_value PyFloat (option_map (f_round O n) o).
Proof. now destruct o. Qed.

End Summary.

(** C5, as the code has it.  On a table with the warehouse, ticket and
    price columns, the summary is computed in two steps: the rows are
    first reduced to one total per ticket, the wrapping sum of the
    prices of the rows of the ticket; the reductions then range over
    these totals, not over the rows.  The result is one record of five
    statistics: mean, median, standard deviation, minimum and maximum,
    the first three rounded to two decimals.  There is no sixth. *)
Theorem prepareSummaryStatistics_over_tickets
    (E : Engine) (O : Float64Ops) (df : DataFrame)
    (w n : Series) (prices : list (option Z)) :
  get_column df WAREHOUSE = Some w ->
  get_column df NO_MOV = Some n ->
  get_column df SALE_PRICE = Some (Int64 prices) ->
  exists ticketSales totals,
    group_by_agg_sum E df [WAREHOUSE; NO_MOV] SALE_PRICE TOTAL_SALES
    = Ok ticketSales /\
    get_column ticketSales TOTAL_SALES = Some (Int64 (map Some totals)) /\
    Permutation totals
                (map (group_total (row_keys df [w; n]) prices)
                     (distinct_keys (row_keys df [w; n]))) /\
    prepareSummaryStatistics E O df
    = Ok [ (SALES_MEAN,
            [opt_value PyFloat (option_map (f_round O 2) (mean_Z O (map Some totals)))]);
           (SALES_MEDIAN,
            [opt_value PyFloat (option_map (f_round O 2) (median_Z O (map Some totals)))]);
           (SALES_STDDEV,
            [opt_value PyFloat (option_map (f_round O 2) (std_Z O (map Some totals)))]);
           (SALES_MIN, [opt_value PyInt (min_Z (map Some totals))]);
           (SALES_MAX, [opt_value PyInt (max_Z (map Some totals))]) ].
Proof.
  intros GW GN GP.
  destruct (prepareSummaryStatistics_run E O df w n prices GW GN GP) as [G S].
  cbv zeta in G, S.
  eexists. exists (map (fun g : Group => sum_Z (take_list (snd g) prices))
                       (group_order E Group (group_rows (row_keys df [w; n])))).
  split; [exact G|]. split; [reflexivity|]. split.
  - rewrite (Permutation_map _ (group_order_perm E Group _)).
    rewrite group_rows_spec, map_map. reflexivity.
  - rewrite S, !round_value_float, !round_value_int. reflexivity.
Qed.

(** The three-row table has the three columns. *)
Lemma prepareSummaryStatistics_over_tickets_witness :
  exists totals,
    Permutation totals [150; 200] /\
    prepareSummaryStatistics Examples.engine_keep Examples.naive_ops Examples.scenario
    = Ok [ (SALES_MEAN,
            [opt_value PyFloat
               (option_map (f_round Examples.naive_ops 2)
                           (mean_Z Examples.naive_ops (map Some totals)))]);
           (SALES_MEDIAN,
            [opt_value PyFloat
               (option_map (f_round Examples.naive_ops 2)
                           (median_Z Examples.naive_ops (map Some totals)))]);
           (SALES_STDDEV,
            [opt_value PyFloat
               (option_map (f_round Examples.naive_ops 2)
                           (std_Z Examples.naive_ops (map Some totals)))]);
           (SALES_MIN, [opt_value PyInt (min_Z (map Some totals))]);
           (SALES_MAX, [opt_value PyInt (max_Z (map Some totals))]) ].
Proof.
  destruct (prepareSummaryStatistics_over_tickets
              Examples.engine_keep Examples.naive_ops Examples.scenario
              (Utf8 [Some "W1"; Some "W1"; Some "W2"])
              (Utf8 [Some "T1"; Some "T1"; Some "T2"])
              [Some 100; Some 50; Some 200] eq_refl eq_refl eq_refl)
    as (ts & totals & _ & _ & P & S).
  exists totals. split; [exact P | exact S].
Defined.

(** C5, as the spec has it, fails on the number of statistics: the
    summary of the three-row table has five columns, the five the source
    names, and none for a count or a total.  Its minimum is 150, the
    least ticket total; the least price of a row is 50. *)
Lemma prepareSummaryStatistics_six_counterexample :
  exists out,
    prepareSummaryStatistics Examples.engine_keep Examples.naive_ops Examples.scenario
    = Ok out /\
    map fst out = [SALES_MEAN; SALES_MEDIAN; SALES_STDDEV; SALES_MIN; SALES_MAX] /\
    List.length out = 5%nat /\
    List.length out <> 6%nat /\
    Pandas.lookup out TOTAL_SALES = None /\
    Pandas.lookup out SALES_MIN = Some [PyInt 150].
Proof. eexists. repeat split. discriminate. Qed.

(** C9.  When all rows of a table carry the same warehouse and ticket,
    the summary has a null, not a zero, for the standard deviation:
    there is one ticket total, and the sample standard deviation of one
    value is null. *)
Theorem prepareSummaryStatistics_single_ticket_std
    (E : Engine) (O : Float64Ops) (df : DataFrame)
    (w n : Series) (prices : list (option Z)) :
  get_column df WAREHOUSE = Some w ->
  get_column df NO_MOV = Some n ->
  get_column df SALE_PRICE = Some (Int64 prices) ->
  (0 < height df)%nat ->
  (forall i, (i < height df)%nat -> key_at [w; n] i = key_at [w; n] 0%nat) ->
  exists out,
    prepareSummaryStatistics E O df = Ok out /\
    Pandas.lookup out SALES_STDDEV = Some [PyNone] /\
    (forall f, Pandas.lookup out SALES_STDDEV <> Some [PyFloat f]) /\
    exists total, Pandas.lookup out SALES_MIN = Some [PyInt total].
Proof.
  intros GW GN GP H C.
  destruct (prepareSummaryStatistics_run E O df w n prices GW GN GP) as [_ S].
  cbv zeta in S. rewrite S. clear S.
  assert (D : distinct_keys (row_keys df [w; n]) = [key_at [w; n] 0%nat]).
  { apply distinct_keys_constant.
    - unfold row_keys. destruct (height df); [lia | discriminate].
    - intros k I. unfold row_keys in I. apply in_map_iff in I.
      destruct I as (i & <- & I). apply in_seq in I. apply C. lia. }
  pose proof (group_order_perm E Group (group_rows (row_keys df [w; n]))) as P.
  rewrite group_rows_spec, D in P. cbn [map] in P.
  apply Permutation_sym, Permutation_length_1_inv in P.
  rewrite group_rows_spec, D. cbn [map]. rewrite P. cbn [map].
  eexists. split; [reflexivity|]. repeat split.
  - intros f. discriminate.
  - eexists. reflexivity.
Qed.

(** The table of one ticket of two rows. *)
Lemma prepareSummaryStatistics_single_ticket_std_witness :
  exists out,
    prepareSummaryStatistics Examples.engine_keep Examples.naive_ops Examples.one_ticket
    = Ok out /\
    Pandas.lookup out SALES_STDDEV = Some [PyNone].
Proof.
  destruct (prepareSummaryStatistics_single_ticket_std
              Examples.engine_keep Examples.naive_ops Examples.one_ticket
              (Utf8 [Some "W1"; Some "W1"]) (Utf8 [Some "T1"; Some "T1"])
              [Some 100; Some 50] eq_refl eq_refl eq_refl)
    as (out & S & N & _).
  - simpl. lia.
  - intros [|[|i]] L; simpl in L; try reflexivity; lia.
  - exists out. split; [exact S | exact N].
Defined.


(** ** The calendar *)

Section Calendar.

Import Chrono.

Lemma In_Z_range (lo : Z) (n : nat) (z : Z) :
  lo <= z < lo + Z.of_nat n -> In z (Z_range lo n).
Proof.
  intros H. unfold Z_range. apply in_map_iff.
  exists (Z.to_nat (z - lo)). split; [lia|]. apply in_seq. lia.
Qed.

Lemma era_days_ok_true :
  forallb (fun yoe =>
             forallb (fun m => forallb (era_day_ok yoe m) (Z_range 1 31))
                     (Z_range 1 12))
          (Z_range 0 400) = true.
Proof. vm_cast_no_check (eq_refl true). Qed.

Lemma era_day_ok_all (yoe m d : Z) :
  0 <= yoe < 400 -> 1 <= m <= 12 -> 1 <= d <= 31 ->
  era_day_ok yoe m d = true.
Proof.
  intros Y M D.
  pose proof (proj1 (forallb_forall _ _) era_days_ok_true
                    yoe (In_Z_range 0 400 yoe ltac:(lia))) as H1.
  pose proof (proj1 (forallb_forall _ _) H1
                    m (In_Z_range 1 12 m ltac:(lia))) as H2.
  exact (proj1 (forallb_forall _ _) H2 d (In_Z_range 1 31 d ltac:(lia))).
Qed.

Lemma is_leap_era (era r : Z) : is_leap (era * 400 + r) = is_leap r.
Proof.
  unfold is_leap.
  replace (era * 400 + r) with (r + era * 100 * 4) at 1 by lia.
  replace (era * 400 + r) with (r + era * 4 * 100) at 1 by lia.
  replace (era * 400 + r) with (r + era * 400) by lia.
  now rewrite !Z_mod_plus_full.
Qed.

Lemma days_in_month_le_31 (y m : Z) : days_in_month y m <= 31.
Proof.
  unfold days_in_month.
  destruct (m =? 2); [destruct (is_leap y); lia|].
  destruct ((m =? 4) || (m =? 6) || (m =? 9) || (m =? 11)); lia.
Qed.

(** The date of the day count of a date is the date. *)
Lemma civil_from_days_from_civil (y m d : Z) :
  1 <= m <= 12 -> 1 <= d <= days_in_month y m ->
  civil_from_days (days_from_civil y m d) = (y, m, d).
Proof.
  intros M D. unfold days_from_civil, civil_from_days.
  set (y' := if m <=? 2 then y - 1 else y).
  set (era := y' / 400).
  set (yoe := y' - era * 400).
  assert (Y : 0 <= yoe < 400).
  { unfold yoe, era. pose proof (Z.mod_pos_bound y' 400 ltac:(lia)).
    pose proof (Z.div_mod y' 400 ltac:(lia)). lia. }
  assert (L : days_in_month (if m <=? 2 then yoe + 1 else yoe) m
              = days_in_month y m).
  { unfold days_in_month.
    destruct (m =? 2) eqn:E2; [|reflexivity].
    apply Z.eqb_eq in E2. subst m. simpl.
    replace y with (era * 400 + (yoe + 1)) by (unfold yoe, y'; simpl; lia).
    now rewrite is_leap_era. }
  pose proof (days_in_month_le_31 y m) as B.
  pose proof (era_day_ok_all yoe m d Y M ltac:(lia)) as OK.
  unfold era_day_ok in OK. rewrite L in OK.
  rewrite (proj2 (Z.leb_le 1 d)) in OK by lia.
  rewrite (proj2 (Z.leb_le d (days_in_month y m))) in OK by lia.
  cbn [andb] in OK.
  set (doe := day_of_era yoe m d) in *.
  apply andb_true_iff in OK. destruct OK as [R OK].
  apply andb_true_iff in R. destruct R as [R1 R2].
  apply Z.leb_le in R1. apply Z.ltb_lt in R2.
  replace (era * 146097 + doe - 719468 + 719468) with (doe + era * 146097) by lia.
  rewrite Z.div_add, Z.div_small by lia. cbn [Z.add].
  replace (doe + era * 146097 - era * 146097) with doe by lia.
  destruct (civil_of_era_day doe) as [[yoe' m'] d'].
  apply andb_true_iff in OK. destruct OK as [OK E3].
  apply andb_true_iff in OK. destruct OK as [E1 E2].
  apply Z.eqb_eq in E1, E2, E3. subst yoe' m' d'.
  f_equal. f_equal. unfold yoe, y'. destruct (m <=? 2); lia.
Qed.

Lemma valid_ymd_bounds (y m d : Z) :
  valid_ymd y m d = true ->
  MIN_YEAR <= y <= MAX_YEAR /\ 1 <= m <= 12 /\ 1 <= d <= days_in_month y m.
Proof.
  unfold valid_ymd. rewrite !andb_true_iff, !Z.leb_le. tauto.
Qed.

(** The date and minute of the microsecond count of a date and minute
    is that date and minute. *)
Lemma from_timestamp_micros_timestamp (dt : NaiveDateTime) :
  valid_datetime dt -> from_timestamp_micros (timestamp_micros dt) = dt.
Proof.
  intros (V & H & M). apply valid_ymd_bounds in V. destruct V as (_ & VM & VD).
  destruct dt as [y m d h mi]. simpl in *.
  unfold from_timestamp_micros, timestamp_micros. cbn [year month day hour minute].
  set (D := days_from_civil y m d).
  assert (A : (D * us_per_day + (h * 60 + mi) * us_per_minute) / us_per_day = D).
  { symmetry. apply (Z.div_unique _ _ _ ((h * 60 + mi) * us_per_minute)).
    - left. unfold us_per_minute, us_per_day. lia.
    - lia. }
  assert (B : (D * us_per_day + (h * 60 + mi) * us_per_minute) mod us_per_day
              = (h * 60 + mi) * us_per_minute).
  { symmetry. apply (Z.mod_unique _ _ D).
    - left. unfold us_per_minute, us_per_day. lia.
    - lia. }
  rewrite A, B. unfold D. rewrite civil_from_days_from_civil by assumption.
  rewrite Z.div_mul by (unfold us_per_minute; lia).
  f_equal.
  - symmetry. apply (Z.div_unique _ _ _ mi); lia.
  - symmetry. apply (Z.mod_unique _ _ h); lia.
Qed.

End Calendar.


(** ** Printing and parsing the pattern *)

Section Digits.

Import Chrono.

Lemma digit_is_digit (k : Z) : 0 <= k <= 9 -> is_digit (digit k) = true.
Proof.
  intros H.
  assert (C : k = 0 \/ k = 1 \/ k = 2 \/ k = 3 \/ k = 4 \/ k = 5 \/ k = 6
              \/ k = 7 \/ k = 8 \/ k = 9) by lia.
  repeat (destruct C as [->|C]; [reflexivity|]). now subst.
Qed.

Lemma digit_val_digit (k : Z) : 0 <= k <= 9 -> digit_val (digit k) = k.
Proof.
  intros H.
  assert (C : k = 0 \/ k = 1 \/ k = 2 \/ k = 3 \/ k = 4 \/ k = 5 \/ k = 6
              \/ k = 7 \/ k = 8 \/ k = 9) by lia.
  repeat (destruct C as [->|C]; [reflexivity|]). now subst.
Qed.

Lemma scan_digits_0 (acc : Z) (n : nat) (s : string) :
  scan_digits 0 acc n s = (acc, n, s).
Proof. reflexivity. Qed.

Lemma scan_digits_step (max : nat) (acc : Z) (n : nat) (k : Z) (s : string) :
  0 <= k <= 9 ->
  scan_digits (S max) acc n (String (digit k) s)
  = scan_digits max (acc * 10 + k) (S n) s.
Proof.
  intros H. cbn [scan_digits].
  now rewrite (digit_is_digit k H), (digit_val_digit k H).
Qed.

Lemma scan_digits_stop (max : nat) (acc : Z) (n : nat) (c : ascii) (s : string) :
  is_digit c = false ->
  scan_digits max acc n (String c s) = (acc, n, String c s).
Proof. intros H. destruct max; cbn [scan_digits]; [reflexivity | now rewrite H]. Qed.

Lemma digits_app (w : nat) (v : Z) (acc rest : string) :
  (digits w v acc ++ rest)%string = digits w v (acc ++ rest)%string.
Proof.
  revert v acc. induction w as [|w IH]; intros v acc; simpl; [reflexivity|].
  now rewrite IH.
Qed.

Lemma length_digits (w : nat) (v : Z) (acc : string) :
  String.length (digits w v acc) = (w + String.length acc)%nat.
Proof.
  revert v acc. induction w as [|w IH]; intros v acc; simpl; [reflexivity|].
  rewrite IH. simpl. lia.
Qed.

(** Scanning reads back the digits that were printed. *)
Lemma scan_digits_digits (w : nat) :
  forall (max : nat) (acc : Z) (n : nat) (v : Z) (rest : string),
    (w <= max)%nat -> 0 <= v < 10 ^ Z.of_nat w ->
    scan_digits max acc n (digits w v rest)
    = scan_digits (max - w) (acc * 10 ^ Z.of_nat w + v) (n + w) rest.
Proof.
  induction w as [|w IH]; intros max acc n v rest L V.
  - simpl in *. rewrite Nat.sub_0_r, Nat.add_0_r. f_equal. lia.
  - cbn [digits].
    assert (P : 10 ^ Z.of_nat (S w) = 10 * 10 ^ Z.of_nat w)
      by (rewrite Nat2Z.inj_succ, Z.pow_succ_r; lia).
    rewrite P in *.
    assert (Q : 0 < 10 ^ Z.of_nat w) by (apply Z.pow_pos_nonneg; lia).
    pose proof (Z.div_mod v 10 ltac:(lia)) as DM.
    pose proof (Z.mod_pos_bound v 10 ltac:(lia)) as MB.
    assert (B : 0 <= v / 10 < 10 ^ Z.of_nat w)
      by (split; [apply Z.div_pos; lia | apply Z.div_lt_upper_bound; lia]).
    rewrite (IH max acc n (v / 10) _ ltac:(lia) B).
    replace (max - w)%nat with (S (max - S w)) by lia.
    rewrite scan_digits_step by lia.
    f_equal; lia.
Qed.

Lemma width_from_holds (fuel : nat) :
  forall (w : nat) (v : Z),
    v < 10 ^ Z.of_nat (w + fuel) ->
    v < 10 ^ Z.of_nat (width_from fuel w v).
Proof.
  induction fuel as [|fuel IH]; intros w v H; simpl.
  - now rewrite Nat.add_0_r in H.
  - destruct (Z.ltb_spec v (10 ^ Z.of_nat w)); [assumption|].
    apply IH. now replace (S w + fuel)%nat with (w + S fuel)%nat by lia.
Qed.

Lemma width_from_ge (fuel w : nat) (v : Z) : (w <= width_from fuel w v)%nat.
Proof.
  revert w. induction fuel as [|fuel IH]; intros w; simpl; [lia|].
  destruct (v <? 10 ^ Z.of_nat w); [lia|]. specialize (IH (S w)). lia.
Qed.

End Digits.

Section PatternRoundTrip.

Import Chrono.

Lemma strftime_items_DATE_FORMAT : strftime_items DATE_FORMAT = pattern_items.
Proof. reflexivity. Qed.

(** The parse of the pattern, step by step. *)
Lemma parse_items_pattern (s r1 r2 r3 r4 r5 : string)
      (m0 d y h12 mi : Z) (pm : bool) :
  short_month0 s = Some (m0, r1) ->
  number (trim_start (trim_start r1)) 1 2 = Some (d, r2) ->
  signed_number (trim_start (trim_start r2)) 4 = Some (y, r3) ->
  number (trim_start (trim_start r3)) 1 2 = Some (h12, String ":"%char r4) ->
  1 <= h12 <= 12 ->
  number (trim_start r4) 1 2 = Some (mi, r5) ->
  am_pm r5 = Some (pm, EmptyString) ->
  parse_items pattern_items Parsed_new s
  = Some (mkParsed (Some y) (Some (m0 + 1)) (Some d)
                   (Some (if pm then 1 else 0)) (Some (h12 mod 12)) (Some mi)).
Proof.
  intros M D Y H HB MI AP. unfold pattern_items.
  change (Ascii.Ascii false true false true true true false false) with ":"%char.
  cbn [parse_items parse_item]. rewrite M.
  cbn [set_month Parsed_new p_month set_if_consistent option_map
       p_year p_day p_hour_div_12 p_hour_mod_12 p_minute].
  cbn [parse_items parse_item]. rewrite D.
  cbn [set_day p_month set_if_consistent option_map
       p_year p_day p_hour_div_12 p_hour_mod_12 p_minute].
  cbn [parse_items parse_item]. rewrite Y.
  cbn [set_year p_month set_if_consistent option_map
       p_year p_day p_hour_div_12 p_hour_mod_12 p_minute].
  cbn [parse_items parse_item]. rewrite H.
  unfold set_hour12.
  rewrite (proj2 (Z.ltb_ge h12 1)) by lia.
  rewrite (proj2 (Z.ltb_ge 12 h12)) by lia.
  cbn [orb p_month set_if_consistent option_map
       p_year p_day p_hour_div_12 p_hour_mod_12 p_minute].
  cbn [parse_items parse_item]. rewrite Z.eqb_refl.
  cbn [parse_items parse_item]. rewrite MI.
  cbn [set_minute p_month set_if_consistent option_map
       p_year p_day p_hour_div_12 p_hour_mod_12 p_minute].
  cbn [parse_items parse_item]. rewrite AP.
  cbn [set_ampm p_month set_if_consistent option_map
       p_year p_day p_hour_div_12 p_hour_mod_12 p_minute].
  reflexivity.
Qed.

(** *** What is printed starts the way the parser expects *)

Lemma trim_start_digit (k : Z) (s : string) :
  0 <= k <= 9 -> trim_start (String (digit k) s) = String (digit k) s.
Proof.
  intros H.
  assert (C : k = 0 \/ k = 1 \/ k = 2 \/ k = 3 \/ k = 4 \/ k = 5 \/ k = 6
              \/ k = 7 \/ k = 8 \/ k = 9) by lia.
  repeat (destruct C as [->|C]; [destruct s as [|c2 [|c3 s3]]; reflexivity|]).
  subst. destruct s as [|c2 [|c3 s3]]; reflexivity.
Qed.

Lemma trim_start_sign (neg : bool) (s : string) :
  trim_start (String (if neg then "-" else "+")%char s)
  = String (if neg then "-" else "+")%char s.
Proof. destruct neg; destruct s as [|c2 [|c3 s3]]; reflexivity. Qed.

Lemma trim_start_space (s : string) :
  trim_start (String " "%char s) = trim_start s.
Proof. reflexivity. Qed.

Lemma is_digit_space : is_digit " "%char = false.
Proof. reflexivity. Qed.

Lemma is_digit_colon : is_digit ":"%char = false.
Proof. reflexivity. Qed.

Lemma digit_not_sign (k : Z) :
  0 <= k <= 9 -> (byte (digit k) =? 45) = false /\ (byte (digit k) =? 43) = false.
Proof.
  intros H.
  assert (C : k = 0 \/ k = 1 \/ k = 2 \/ k = 3 \/ k = 4 \/ k = 5 \/ k = 6
              \/ k = 7 \/ k = 8 \/ k = 9) by lia.
  repeat (destruct C as [->|C]; [split; reflexivity|]). subst. split; reflexivity.
Qed.

(** A number of [w] digits, [w] at least 1, starts with a digit. *)
Lemma digits_head (w : nat) (v : Z) (acc : string) :
  exists k tl, 0 <= k <= 9 /\ digits (S w) v acc = String (digit k) tl.
Proof.
  revert v acc. induction w as [|w IH]; intros v acc.
  - exists (v mod 10), acc.
    pose proof (Z.mod_pos_bound v 10 ltac:(lia)). split; [lia | reflexivity].
  - change (digits (S (S w)) v acc)
      with (digits (S w) (v / 10) (String (digit (v mod 10)) acc)).
    apply IH.
Qed.

Lemma pad2_zero (n : Z) : 0 <= n < 100 -> pad2 PadZero n = digits 2 n EmptyString.
Proof.
  intros H. unfold pad2. destruct (Z.ltb_spec n 10); [|reflexivity].
  cbn [digits]. rewrite (Z.div_small n 10) by lia.
  rewrite (Z.mod_small n 10) by lia. reflexivity.
Qed.

(** *** Each field is read back *)

Lemma number_digits_full (w : nat) (v : Z) (rest : string) :
  (1 <= w)%nat -> 0 <= v < 10 ^ Z.of_nat w -> v <= i64_max ->
  number (digits w v rest) 1 w = Some (v, rest).
Proof.
  intros W V I. unfold number.
  rewrite scan_digits_digits by (trivial; lia).
  rewrite Nat.sub_diag, scan_digits_0. cbn [Nat.add].
  destruct (Nat.ltb_spec w 1); [lia|].
  replace (0 * 10 ^ Z.of_nat w + v) with v by lia.
  now rewrite (proj2 (Z.ltb_ge i64_max v)) by lia.
Qed.

(** Two zero-padded columns. *)
Lemma number_pad2_zero (n : Z) (rest : string) :
  0 <= n < 100 ->
  number (trim_start (pad2 PadZero n ++ rest)) 1 2 = Some (n, rest).
Proof.
  intros H. rewrite pad2_zero, digits_app by assumption. cbn [append].
  destruct (digits_head 1 n rest) as (k & tl & K & E).
  rewrite E, trim_start_digit, <- E by assumption.
  apply number_digits_full; [lia | simpl; lia | unfold i64_max; lia].
Qed.

(** Two columns, blank-padded, before a blank. *)
Lemma number_pad2_space (n : Z) (rest : string) :
  1 <= n < 100 ->
  number (trim_start (trim_start (pad2 PadSpace n ++ String " "%char rest))) 1 2
  = Some (n, String " "%char rest).
Proof.
  intros H. unfold pad2. destruct (Z.ltb_spec n 10).
  - cbn [digits append]. rewrite (Z.mod_small n 10) by lia.
    rewrite trim_start_space, !trim_start_digit by lia.
    unfold number. rewrite scan_digits_step by lia.
    rewrite scan_digits_stop by reflexivity.
    cbn [Nat.ltb Nat.leb]. replace (0 * 10 + n) with n by lia.
    now rewrite (proj2 (Z.ltb_ge i64_max n)) by (unfold i64_max; lia).
  - rewrite digits_app. cbn [append].
    destruct (digits_head 1 n (String " "%char rest)) as (k & tl & K & E).
    rewrite E, !trim_start_digit, <- E by assumption.
    apply number_digits_full; [lia | simpl; lia | unfold i64_max; lia].
Qed.

Lemma short_month0_printed (m : Z) (rest : string) :
  1 <= m <= 12 ->
  short_month0 (nth (Z.to_nat (m - 1)) short_months "" ++ rest)
  = Some (m - 1, rest).
Proof.
  intros H.
  assert (C : m = 1 \/ m = 2 \/ m = 3 \/ m = 4 \/ m = 5 \/ m = 6 \/ m = 7
              \/ m = 8 \/ m = 9 \/ m = 10 \/ m = 11 \/ m = 12) by lia.
  repeat (destruct C as [->|C]; [reflexivity|]). subst. reflexivity.
Qed.

Lemma am_pm_printed (h : Z) :
  am_pm ((if h <? 12 then "AM" else "PM") ++ "")
  = Some (negb (h <? 12), EmptyString).
Proof. now destruct (h <? 12). Qed.

(** The year, with its sign when it has one, before a blank. *)
Lemma signed_number_year (y : Z) (rest : string) :
  MIN_YEAR <= y <= MAX_YEAR ->
  signed_number (trim_start (trim_start (format_year y ++ String " "%char rest))) 4
  = Some (y, String " "%char rest).
Proof.
  intros H. unfold MIN_YEAR, MAX_YEAR in H. unfold format_year.
  destruct ((0 <=? y) && (y <=? 9999)) eqn:R.
  - apply andb_true_iff in R. rewrite !Z.leb_le in R.
    rewrite digits_app. cbn [append].
    destruct (digits_head 3 y (String " "%char rest)) as (k & tl & K & E).
    rewrite E, !trim_start_digit by assumption.
    unfold signed_number. destruct (digit_not_sign k K) as [-> ->].
    rewrite <- E.
    apply number_digits_full; [lia | simpl; lia | unfold i64_max; lia].
  - assert (O : y < 0 \/ 9999 < y).
    { apply andb_false_iff in R. rewrite !Z.leb_gt in R. lia. }
    set (a := Z.abs y).
    set (w := width_from 15 4 a).
    assert (A : 0 <= a < 10 ^ Z.of_nat w).
    { split; [unfold a; lia|]. apply width_from_holds.
      unfold a. simpl. lia. }
    pose proof (width_from_ge 15 4 a) as WG. fold w in WG.
    cbn [append]. rewrite digits_app. cbn [append].
    rewrite !(trim_start_sign (y <? 0)).
    assert (N : number (digits w a (String " "%char rest)) 1
                       (String.length (digits w a (String " "%char rest)))
                = Some (a, String " "%char rest)).
    { unfold number. rewrite length_digits.
      rewrite scan_digits_digits by (trivial; lia).
      replace (w + String.length (String " "%char rest) - w)%nat
        with (String.length (String " "%char rest)) by lia.
      rewrite scan_digits_stop by reflexivity.
      destruct (Nat.ltb_spec (0 + w) 1); [lia|].
      replace (0 * 10 ^ Z.of_nat w + a) with a by lia.
      now rewrite (proj2 (Z.ltb_ge i64_max a)) by (unfold i64_max, a; lia). }
    unfold signed_number.
    destruct (Z.ltb_spec y 0).
    + change (byte "-"%char =? 45) with true. cbn iota. rewrite N.
      f_equal. f_equal. unfold a. lia.
    + change (byte "+"%char =? 45) with false.
      change (byte "+"%char =? 43) with true. cbn iota. rewrite N.
      f_equal. f_equal. unfold a. lia.
Qed.

Lemma trim_start_pad2_zero (n : Z) (rest : string) :
  0 <= n < 100 ->
  trim_start (pad2 PadZero n ++ rest) = (pad2 PadZero n ++ rest)%string.
Proof.
  intros H. rewrite pad2_zero, digits_app by assumption. cbn [append].
  destruct (digits_head 1 n rest) as (k & tl & K & E).
  now rewrite E, trim_start_digit.
Qed.

Lemma hour12_bounds (h : Z) : 0 <= h <= 23 -> 1 <= hour12 h <= 12.
Proof.
  intros H. unfold hour12.
  pose proof (Z.mod_pos_bound h 12 ltac:(lia)).
  destruct (Z.eqb_spec (h mod 12) 0); lia.
Qed.

Lemma hour12_hour (h : Z) :
  0 <= h <= 23 ->
  (if negb (h <? 12) then 1 else 0) * 12 + hour12 h mod 12 = h.
Proof.
  intros H. unfold hour12.
  destruct (Z.ltb_spec h 12); cbn [negb].
  - rewrite (Z.mod_small h 12) by lia.
    destruct (Z.eqb_spec h 0) as [->|N]; [reflexivity|].
    rewrite Z.mod_small; lia.
  - replace (h mod 12) with (h - 12)
      by (apply (Z.mod_unique h 12 1); lia).
    destruct (Z.eqb_spec (h - 12) 0) as [E|N].
    + change (12 mod 12) with 0. lia.
    + rewrite Z.mod_small; lia.
Qed.

(** What is printed under the pattern parses, to the date and time that
    was printed. *)
Lemma parse_from_str_format (dt : NaiveDateTime) :
  valid_datetime dt ->
  parse_from_str (format dt DATE_FORMAT) DATE_FORMAT = Some dt.
Proof.
  intros (V & H & M). pose proof V as V'.
  apply valid_ymd_bounds in V'. destruct V' as (VY & VM & VD).
  pose proof (days_in_month_le_31 (year dt) (month dt)) as D31.
  pose proof (hour12_bounds _ H) as HB.
  unfold parse_from_str, format.
  change (strftime_items DATE_FORMAT) with pattern_items.
  unfold pattern_items at 2. cbn [fold_right format_item].
  change (" " ++ ?x)%string with (String " "%char x).
  set (s5 := ((if (hour dt <? 12)%Z then "AM" else "PM") ++ "")%string).
  set (s4 := (pad2 PadZero (minute dt) ++ s5)%string).
  set (s3 := (pad2 PadZero (hour12 (hour dt))
              ++ (String (Ascii.Ascii false true false true true true false false)
                         EmptyString ++ s4))%string).
  set (s2 := (format_year (year dt) ++ String " "%char s3)%string).
  set (s1 := (pad2 PadSpace (day dt) ++ String " "%char s2)%string).
  rewrite (parse_items_pattern _ (String " "%char s1) (String " "%char s2)
             (String " "%char s3) s4 s5
             (month dt - 1) (day dt) (year dt) (hour12 (hour dt)) (minute dt)
             (negb (hour dt <? 12))).
  - unfold to_naive_datetime.
    cbn [p_year p_month p_day p_hour_div_12 p_hour_mod_12 p_minute].
    replace (month dt - 1 + 1) with (month dt) by lia.
    rewrite V. cbn [andb].
    pose proof (Z.mod_pos_bound (hour12 (hour dt)) 12 ltac:(lia)) as MB.
    rewrite (proj2 (Z.leb_le 0 (if negb (hour dt <? 12) then 1 else 0)))
      by (destruct (negb (hour dt <? 12)); lia).
    rewrite (proj2 (Z.leb_le (if negb (hour dt <? 12) then 1 else 0) 1))
      by (destruct (negb (hour dt <? 12)); lia).
    rewrite (proj2 (Z.leb_le 0 (hour12 (hour dt) mod 12))) by lia.
    rewrite (proj2 (Z.leb_le (hour12 (hour dt) mod 12) 11)) by lia.
    rewrite (proj2 (Z.leb_le 0 (minute dt))) by lia.
    rewrite (proj2 (Z.leb_le (minute dt) 59)) by lia.
    cbn [andb]. rewrite hour12_hour by assumption.
    now destruct dt.
  - apply short_month0_printed. lia.
  - rewrite trim_start_space. unfold s1. apply number_pad2_space. lia.
  - rewrite trim_start_space. unfold s2. apply signed_number_year. lia.
  - rewrite trim_start_space. unfold s3.
    rewrite !trim_start_pad2_zero by lia.
    cbn [append]. rewrite pad2_zero, digits_app by lia. cbn [append].
    apply number_digits_full; [lia | simpl; lia | unfold i64_max; lia].
  - exact HB.
  - unfold s4. rewrite trim_start_pad2_zero by lia.
    rewrite pad2_zero, digits_app by lia. cbn [append].
    apply number_digits_full; [lia | simpl; lia | unfold i64_max; lia].
  - unfold s5. apply am_pm_printed.
Qed.

(** What the parser returns is a date that exists, with an hour and a
    minute. *)
Lemma parse_from_str_valid (s fmt : string) (dt : NaiveDateTime) :
  parse_from_str s fmt = Some dt -> valid_datetime dt.
Proof.
  unfold parse_from_str, to_naive_datetime.
  destruct (parse_items (strftime_items fmt) Parsed_new s) as [p|]; [|discriminate].
  destruct (p_year p), (p_month p), (p_day p), (p_hour_div_12 p),
    (p_hour_mod_12 p), (p_minute p); try discriminate.
  destruct (valid_ymd z z0 z1) eqn:V; cbn [andb]; [|discriminate].
  destruct ((0 <=? z2) && (z2 <=? 1) && (0 <=? z3) && (z3 <=? 11)
            && (0 <=? z4) && (z4 <=? 59)) eqn:B; [|discriminate].
  intros X. inv X. unfold valid_datetime. cbn [year month day hour minute].
  rewrite !andb_true_iff, !Z.leb_le in B. split; [exact V | lia].
Qed.

(** Parsing, formatting and parsing again is parsing. *)
Lemma parse_us_strftime_us (s : string) (t : Z) :
  parse_us DATE_FORMAT (Some s) = Some t ->
  parse_us DATE_FORMAT (Some (strftime_us DATE_FORMAT t)) = Some t.
Proof.
  unfold parse_us, strftime_us.
  destruct (parse_from_str s DATE_FORMAT) as [dt|] eqn:P; [|discriminate].
  cbn [option_map]. intros X. inv X.
  pose proof (parse_from_str_valid _ _ _ P) as V.
  rewrite from_timestamp_micros_timestamp by exact V.
  now rewrite parse_from_str_format.
Qed.

End PatternRoundTrip.

(** C8, as the code has it.  When [cleanDateColumn] returns, every
    text of the date column has been parsed to the timestamp at its
    position, and that timestamp, formatted under the same pattern,
    parses to itself again.  The formatted text is the source text when
    the source text is what the formatter prints for some date: day
    padded with a blank, hour and minute with a zero, month and AM/PM
    in the formatter's capitals. *)
Theorem cleanDateColumn_reparses
    (df : DataFrame) (c : string) (out : DataFrame)
    (vs : list (option string)) (ts : list (option Z)) :
  cleanDateColumn df c = Ok out ->
  get_column df c = Some (Utf8 vs) ->
  get_column out c = Some (Datetime ts) ->
  forall i s,
    nth i vs None = Some s ->
    exists t,
      nth i ts None = Some t /\
      parse_us DATE_FORMAT (Some s) = Some t /\
      parse_us DATE_FORMAT (Some (strftime_us DATE_FORMAT t)) = Some t /\
      (forall dt,
          Chrono.valid_datetime dt ->
          s = Chrono.format dt DATE_FORMAT ->
          strftime_us DATE_FORMAT t = s).
Proof.
  intros C G GO i s N.
  destruct (cleanDateColumn_parsed df c out vs ts C G GO i s N) as (dt & P & T).
  exists (Chrono.timestamp_micros dt).
  assert (PU : parse_us DATE_FORMAT (Some s) = Some (Chrono.timestamp_micros dt))
    by (simpl; now rewrite P).
  repeat split; trivial.
  - now apply (parse_us_strftime_us s).
  - intros dt' V ->. rewrite parse_from_str_format in P by exact V.
    inv P. unfold strftime_us.
    now rewrite from_timestamp_micros_timestamp.
Qed.

(** A table of one date in the pattern, with no padding. *)
Lemma cleanDateColumn_reparses_witness :
  exists t,
    nth 0 [Some 1704469500000000] None = Some t /\
    parse_us DATE_FORMAT (Some "Jan 5 2024 3:45PM") = Some t /\
    parse_us DATE_FORMAT (Some (strftime_us DATE_FORMAT t)) = Some t.
Proof.
  destruct (cleanDateColumn_reparses
              (Examples.raw_dates [Some "Jan 5 2024 3:45PM"]) DATE
              [ (DATE, Datetime [Some 1704469500000000]);
                (SALE_PRICE, Int64 [Some 1]) ]
              [Some "Jan 5 2024 3:45PM"] [Some 1704469500000000]
              eq_refl eq_refl eq_refl 0%nat "Jan 5 2024 3:45PM" eq_refl)
    as (t & A & B & C & _).
  exists t. repeat split; assumption.
Defined.

(** C8, as the spec has it, fails on the spec's own example.  The text
    "Jan 5 2024 3:45PM" parses, and its timestamp is formatted as
    "Jan  5 2024 03:45PM" under the same pattern: the day takes two
    columns, the hour two digits.  No formatting could give every source
    text back: the text in small letters with a padded day and hour
    parses to the same timestamp. *)
Lemma cleanDateColumn_roundtrip_counterexample :
  cleanDateColumn (Examples.raw_dates [Some "Jan 5 2024 3:45PM"]) DATE
  = Ok [ (DATE, Datetime [Some 1704469500000000]);
         (SALE_PRICE, Int64 [Some 1]) ] /\
  strftime_us DATE_FORMAT 1704469500000000 = "Jan  5 2024 03:45PM" /\
  strftime_us DATE_FORMAT 1704469500000000 <> "Jan 5 2024 3:45PM" /\
  parse_us DATE_FORMAT (Some "jan 05 2024 03:45pm")
  = parse_us DATE_FORMAT (Some "Jan 5 2024 3:45PM") /\
  "jan 05 2024 03:45pm" <> "Jan 5 2024 3:45PM".
Proof. repeat split; try reflexivity; discriminate. Qed.


(* ================================================================== *)
(** * Further properties of the pipeline *)

(** ** The window filter, applied again *)

Section WindowAgain.

(** Everything a successful call has gone through. *)
Lemma filterLastNDays_inv (df out : DataFrame) (days : Z) (c : string) :
  filterLastNDaysFromMaxDate df days c = Ok out ->
  exists vs m,
    get_column df c = Some (Datetime vs) /\
    max_Z vs = Some m /\
    in_datetime_range m = true /\
    Z.abs days <= timedelta_max_days /\
    in_datetime_range (m - days * us_per_day) = true /\
    out = filter df (ge_datetime vs (m - days * us_per_day)).
Proof.
  unfold filterLastNDaysFromMaxDate.
  destruct (has_column df c) eqn:H; cbn [negb]; [|discriminate].
  unfold col. destruct (get_column df c) as [s|] eqn:G; cbn [bind]; [|discriminate].
  destruct s as [vs|vs|vs|vs]; cbn [max_item].
  - destruct (max_str vs); cbn [opt_value bind]; discriminate.
  - destruct (max_Z vs); cbn [opt_value bind]; discriminate.
  - destruct (max_Z vs); cbn [opt_value bind]; discriminate.
  - destruct (max_Z vs) as [m|] eqn:M; cbn [datetime_value bind]; [|discriminate].
    destruct (in_datetime_range m) eqn:R1; cbn [bind]; [|discriminate].
    unfold timedelta.
    destruct (Z.leb_spec (Z.abs days) timedelta_max_days) as [T|T];
      cbn [bind]; [|discriminate].
    unfold datetime_sub.
    destruct (in_datetime_range (m - days * us_per_day)) eqn:R2;
      cbn [bind ge_datetime_mask]; [|discriminate].
    intros X. inv X. exists vs, m. repeat split; trivial.
Qed.

Lemma select_mask_nil {A} (mask : list bool) : @select_mask A mask [] = [].
Proof. now destruct mask. Qed.

(** Selecting by a condition, then by a stronger one on what is left,
    is selecting by the stronger one. *)
Lemma select_mask_twice {A B} (p1 p2 : A -> bool) (vs : list A) :
  (forall v, p1 v = true -> p2 v = true) ->
  forall xs : list B,
    select_mask (map p1 (select_mask (map p2 vs) vs))
                (select_mask (map p2 vs) xs)
    = select_mask (map p1 vs) xs.
Proof.
  intros H. induction vs as [|v vs IH]; intros xs.
  - reflexivity.
  - destruct xs as [|x xs].
    + cbn [map select_mask]. now rewrite !select_mask_nil.
    + cbn [map select_mask]. destruct (p2 v) eqn:P2.
      * cbn [map select_mask]. destruct (p1 v); now rewrite IH.
      * destruct (p1 v) eqn:P1; [rewrite (H v P1) in P2; discriminate|].
        apply IH.
Qed.

Lemma In_select_mask {A} (p : A -> bool) (vs : list A) (x : A) :
  In x (select_mask (map p vs) vs) <-> In x vs /\ p x = true.
Proof.
  induction vs as [|v vs IH]; cbn [map select_mask]; [simpl; tauto|].
  destruct (p v) eqn:P; simpl; rewrite IH; split.
  - intros [->|[I Q]]; auto.
  - intros [[->|I] Q]; auto.
  - intros [I Q]. auto.
  - intros [[->|I] Q]; [congruence | auto].
Qed.

Lemma is_max_unique (vs : list (option Z)) (m m' : Z) :
  is_max vs m -> is_max vs m' -> m = m'.
Proof. intros [I U] [I' U']. specialize (U _ I'). specialize (U' _ I). lia. Qed.

Lemma max_Z_of_is_max (vs : list (option Z)) (m : Z) :
  is_max vs m -> max_Z vs = Some m.
Proof.
  intros IM. destruct (max_Z vs) as [m'|] eqn:M.
  - f_equal. apply (is_max_unique vs); [now apply max_Z_is_max | exact IM].
  - exfalso. unfold max_Z in M. destruct IM as [I _].
    apply In_drop_nulls in I.
    destruct (drop_nulls vs); [contradiction | discriminate].
Qed.

Lemma ge_datetime_map (vs : list (option Z)) (cutoff : Z) :
  ge_datetime vs cutoff = map (at_least cutoff) vs.
Proof. reflexivity. Qed.

(** The latest date survives a window that reaches back. *)
Lemma max_Z_window (vs : list (option Z)) (m cutoff : Z) :
  max_Z vs = Some m -> cutoff <= m ->
  max_Z (select_mask (ge_datetime vs cutoff) vs) = Some m.
Proof.
  intros M C. apply max_Z_of_is_max.
  destruct (max_Z_is_max _ _ M) as [I U]. rewrite ge_datetime_map. split.
  - apply In_select_mask. split; [exact I|]. simpl. now apply Z.leb_le.
  - intros t T. apply In_select_mask in T. apply U. tauto.
Qed.

Lemma filter_filter (df : DataFrame) (p1 p2 : option Z -> bool)
      (vs : list (option Z)) :
  (forall v, p1 v = true -> p2 v = true) ->
  filter (filter df (map p2 vs)) (map p1 (select_mask (map p2 vs) vs))
  = filter df (map p1 vs).
Proof.
  intros H. unfold filter, map_columns. rewrite map_map.
  apply map_ext. intros [n s]. cbn [fst snd]. f_equal.
  destruct s; cbn [map_series]; now rewrite select_mask_twice.
Qed.

Lemma len_map_series_select (mask : list bool) (s : Series) :
  len s = List.length mask ->
  len (map_series (fun A => select_mask mask) s) = List.length (kept mask).
Proof.
  intros L. rewrite <- cells_length, cells_select_mask.
  rewrite (select_mask_kept None) by now rewrite cells_length.
  apply length_map.
Qed.

(** A filtered frame is a frame. *)
Lemma wf_filter (df : DataFrame) (mask : list bool) :
  wf df -> List.length mask = height df -> wf (filter df mask).
Proof.
  intros [N F] L. unfold filter. split.
  - now rewrite columns_map_columns.
  - assert (H : height (map_columns (fun A => select_mask mask) df)
                = List.length (kept mask) \/ df = []).
    { destruct df as [|[n s] df]; [now right|]. left.
      cbn [map_columns map height fst snd]. apply len_map_series_select.
      inv F. simpl in *. congruence. }
    destruct H as [H | ->]; [|constructor].
    rewrite H. unfold map_columns. apply Forall_map.
    rewrite Forall_forall in *. intros x I. cbn [snd].
    apply len_map_series_select. rewrite (F x I). now symmetry.
Qed.

End WindowAgain.

(** X1.  Windows nest: for [0 <= d1 <= d2], filtering the window of
    [d2] days again with [d1] days gives the window of [d1] days of the
    table itself.  With [d1 = d2]: filtering a window again changes
    nothing. *)
Theorem filterLastNDays_narrowing
    (df out1 out2 : DataFrame) (c : string) (d1 d2 : Z) :
  0 <= d1 <= d2 ->
  filterLastNDaysFromMaxDate df d1 c = Ok out1 ->
  filterLastNDaysFromMaxDate df d2 c = Ok out2 ->
  filterLastNDaysFromMaxDate out2 d1 c = Ok out1.
Proof.
  intros D F1 F2.
  apply filterLastNDays_inv in F1. destruct F1 as (vs & m & G & M & R & _ & R1 & ->).
  apply filterLastNDays_inv in F2.
  destruct F2 as (vs' & m' & G' & M' & _ & _ & R2 & ->).
  assert (vs' = vs) by congruence. subst vs'.
  assert (m' = m) by congruence. subst m'.
  assert (U : 0 < us_per_day) by reflexivity.
  rewrite (filterLastNDays_run _ d1 c
             (select_mask (ge_datetime vs (m - d2 * us_per_day)) vs) m).
  - f_equal. rewrite !ge_datetime_map. apply filter_filter.
    intros [t|]; simpl; [|discriminate].
    rewrite !Z.leb_le. nia.
  - unfold filter. now rewrite get_column_map_columns, G.
  - apply max_Z_window; [exact M | nia].
  - exact R.
  - exact R1.
Qed.

(** The three-row table: the window of no day inside the window of
    one. *)
Lemma filterLastNDays_narrowing_witness :
  filterLastNDaysFromMaxDate Examples.scenario 0 DATE
  = Ok [ (WAREHOUSE, Utf8 [Some "W2"]); (NO_MOV, Utf8 [Some "T2"]);
         (DATE, Datetime [Some Examples.jan6]);
         (SALE_PRICE, Int64 [Some 200]) ].
Proof.
  apply (filterLastNDays_narrowing Examples.scenario _ Examples.scenario DATE 0 1).
  - lia.
  - reflexivity.
  - reflexivity.
Defined.

(** X2.  A window never comes back empty: when the filter returns for
    [days >= 0] on a well-formed frame, the result is a well-formed frame
    with at least one row, and its latest date is the latest date of the
    input. *)
Theorem filterLastNDays_keeps_latest
    (df out : DataFrame) (c : string) (days : Z) :
  wf df ->
  0 <= days ->
  filterLastNDaysFromMaxDate df days c = Ok out ->
  wf out /\
  (0 < height out)%nat /\
  exists vs vs' m,
    get_column df c = Some (Datetime vs) /\
    get_column out c = Some (Datetime vs') /\
    max_Z vs = Some m /\
    max_Z vs' = Some m.
Proof.
  intros W D F.
  apply filterLastNDays_inv in F. destruct F as (vs & m & G & M & R & _ & R1 & ->).
  assert (U : 0 < us_per_day) by reflexivity.
  assert (L : List.length (ge_datetime vs (m - days * us_per_day)) = height df).
  { unfold ge_datetime. rewrite length_map. exact (wf_column_len _ _ _ W G). }
  pose proof (wf_filter df _ W L) as WO.
  assert (GO : get_column (filter df (ge_datetime vs (m - days * us_per_day))) c
               = Some (Datetime (select_mask (ge_datetime vs (m - days * us_per_day)) vs)))
    by (unfold filter; now rewrite get_column_map_columns, G).
  assert (MO : max_Z (select_mask (ge_datetime vs (m - days * us_per_day)) vs)
               = Some m) by (apply max_Z_window; [exact M | nia]).
  split; [exact WO|]. split.
  - rewrite <- (wf_column_len _ _ _ WO GO). simpl.
    destruct (max_Z_is_max _ _ MO) as [I _].
    destruct (select_mask (ge_datetime vs (m - days * us_per_day)) vs);
      [contradiction | simpl; lia].
  - exists vs, (select_mask (ge_datetime vs (m - days * us_per_day)) vs), m.
    repeat split; assumption.
Qed.

(** The three-row table and a window of thirty days. *)
Lemma filterLastNDays_keeps_latest_witness :
  wf Examples.scenario /\ (0 < height Examples.scenario)%nat.
Proof.
  destruct (filterLastNDays_keeps_latest Examples.scenario Examples.scenario
              DATE 30) as (W & H & _).
  - split.
    + repeat constructor; simpl; intuition discriminate.
    + repeat constructor.
  - lia.
  - reflexivity.
  - split; [exact W | exact H].
Defined.

(** X3.  The date normaliser cannot be applied twice: on its own
    result it raises, because the column is no text any more. *)
Theorem cleanDateColumn_twice_raises (df out : DataFrame) (c : string) :
  cleanDateColumn df c = Ok out ->
  exists e, cleanDateColumn out c = Raise e.
Proof.
  intros C. apply cleanDateColumn_Ok in C. destruct C as (vs & G & _ & ->).
  assert (H : has_column df c = true) by (apply has_column_get; eauto).
  unfold cleanDateColumn.
  assert (H' : has_column (replace_column df c
                             (Datetime (map (parse_us DATE_FORMAT) vs))) c = true).
  { unfold has_column in *. now rewrite columns_replace_column. }
  rewrite H'. cbn [negb].
  rewrite (col_get _ _ _ (get_replace_column_same df c _ H)).
  eexists. reflexivity.
Qed.

(** A table of one date as text, normalised. *)
Lemma cleanDateColumn_twice_raises_witness :
  exists e,
    cleanDateColumn [ (DATE, Datetime [Some 1704469500000000]);
                      (SALE_PRICE, Int64 [Some 1]) ] DATE
    = Raise e.
Proof.
  apply (cleanDateColumn_twice_raises
           (Examples.raw_dates [Some "Jan 5 2024 3:45PM"])).
  reflexivity.
Defined.


(** ** The summary at its edges *)

Section SummaryEdges.

Lemma fold_min_spec (l : list Z) (a : Z) :
  let m := fold_left Z.min l a in
  In m (a :: l) /\ m <= a /\ forall t, In t l -> m <= t.
Proof.
  revert a. induction l as [|x l IH]; intros a; simpl.
  - repeat split; [now left | lia | tauto].
  - destruct (IH (Z.min a x)) as (I & B & U). simpl in I.
    repeat split.
    + destruct I as [I|I]; [|now right; right].
      rewrite <- I. destruct (Z.min_spec a x) as [[_ ->]|[_ ->]]; auto.
    + lia.
    + intros t [->|T]; [lia | auto].
Qed.

Lemma min_Z_Some (ts : list Z) :
  ts <> [] ->
  exists lo, min_Z (map Some ts) = Some lo /\ In lo ts /\ forall t, In t ts -> lo <= t.
Proof.
  intros N. unfold min_Z. rewrite drop_nulls_map_Some.
  destruct ts as [|a l]; [congruence|].
  destruct (fold_min_spec l a) as (I & B & U).
  eexists. split; [reflexivity|]. split; [exact I|].
  intros t [->|T]; auto.
Qed.

Lemma max_Z_Some (ts : list Z) :
  ts <> [] ->
  exists hi, max_Z (map Some ts) = Some hi /\ In hi ts /\ forall t, In t ts -> t <= hi.
Proof.
  intros N. unfold max_Z. rewrite drop_nulls_map_Some.
  destruct ts as [|a l]; [congruence|].
  destruct (fold_max_spec l a) as (I & B & U).
  eexists. split; [reflexivity|]. split; [exact I|].
  intros t [->|T]; auto.
Qed.

(** The ticket totals of the summary are those of the table, in the
    engine's order. *)
Lemma ticket_totals_perm (E : Engine) (df : DataFrame) (w n : Series)
      (prices : list (option Z)) :
  Permutation
    (map (fun g : Group => sum_Z (take_list (snd g) prices))
         (group_order E Group (group_rows (row_keys df [w; n]))))
    (map (group_total (row_keys df [w; n]) prices)
         (distinct_keys (row_keys df [w; n]))).
Proof.
  rewrite (Permutation_map _ (group_order_perm E Group _)).
  rewrite group_rows_spec, map_map. reflexivity.
Qed.

Lemma group_order_nil (E : Engine) (A : Type) : group_order E A [] = [].
Proof.
  apply Permutation_nil, Permutation_sym, group_order_perm.
Qed.

End SummaryEdges.

(** X4.  On a table with the columns and no rows the summary does not
    raise: it returns its one record, with [None] for each of the five
    statistics. *)
Theorem prepareSummaryStatistics_no_rows
    (E : Engine) (O : Float64Ops) (df : DataFrame)
    (w n : Series) (prices : list (option Z)) :
  get_column df WAREHOUSE = Some w ->
  get_column df NO_MOV = Some n ->
  get_column df SALE_PRICE = Some (Int64 prices) ->
  height df = 0%nat ->
  prepareSummaryStatistics E O df
  = Ok [ (SALES_MEAN, [PyNone]); (SALES_MEDIAN, [PyNone]);
         (SALES_STDDEV, [PyNone]); (SALES_MIN, [PyNone]);
         (SALES_MAX, [PyNone]) ].
Proof.
  intros GW GN GP H.
  destruct (prepareSummaryStatistics_run E O df w n prices GW GN GP) as [_ S].
  cbv zeta in S. rewrite S. unfold row_keys. rewrite H.
  cbn [seq map]. change (group_rows []) with (@nil Group).
  rewrite group_order_nil. reflexivity.
Qed.

(** The table of no rows of the window filter, with a warehouse and a
    ticket column. *)
Lemma prepareSummaryStatistics_no_rows_witness :
  prepareSummaryStatistics Examples.engine_keep Examples.naive_ops
    [ (WAREHOUSE, Utf8 []); (NO_MOV, Utf8 []); (SALE_PRICE, Int64 []) ]
  = Ok [ (SALES_MEAN, [PyNone]); (SALES_MEDIAN, [PyNone]);
         (SALES_STDDEV, [PyNone]); (SALES_MIN, [PyNone]);
         (SALES_MAX, [PyNone]) ].
Proof.
  apply (prepareSummaryStatistics_no_rows _ _ _ (Utf8 []) (Utf8 []) []);
    reflexivity.
Defined.

(** X5.  On a table with at least one row, the minimum and the maximum
    of the summary are the least and the greatest ticket total: both are
    totals of tickets of the table, every ticket total lies between
    them, and they do not depend on the order of the groups. *)
Theorem prepareSummaryStatistics_min_max
    (E : Engine) (O : Float64Ops) (df : DataFrame)
    (w n : Series) (prices : list (option Z)) :
  get_column df WAREHOUSE = Some w ->
  get_column df NO_MOV = Some n ->
  get_column df SALE_PRICE = Some (Int64 prices) ->
  (0 < height df)%nat ->
  exists out lo hi,
    prepareSummaryStatistics E O df = Ok out /\
    Pandas.lookup out SALES_MIN = Some [PyInt lo] /\
    Pandas.lookup out SALES_MAX = Some [PyInt hi] /\
    let tickets := map (group_total (row_keys df [w; n]) prices)
                       (distinct_keys (row_keys df [w; n])) in
    In lo tickets /\ In hi tickets /\
    forall t, In t tickets -> lo <= t <= hi.
Proof.
  intros GW GN GP H.
  destruct (prepareSummaryStatistics_run E O df w n prices GW GN GP) as [_ S].
  cbv zeta in S.
  pose proof (ticket_totals_perm E df w n prices) as P.
  set (totals := map (fun g : Group => sum_Z (take_list (snd g) prices))
                     (group_order E Group (group_rows (row_keys df [w; n])))) in *.
  assert (N : totals <> []).
  { intros Z0. rewrite Z0 in P. apply Permutation_nil in P.
    unfold row_keys in P. destruct (height df); [lia|]. discriminate. }
  destruct (min_Z_Some totals N) as (lo & ML & IL & UL).
  destruct (max_Z_Some totals N) as (hi & MH & IH & UH).
  eexists. exists lo, hi. split; [exact S|].
  rewrite ML, MH. split; [reflexivity|]. split; [reflexivity|].
  cbv zeta. split; [exact (Permutation_in _ P IL)|].
  split; [exact (Permutation_in _ P IH)|].
  intros t T. apply (Permutation_in _ (Permutation_sym P)) in T.
  split; auto.
Qed.

(** The three-row table: the tickets come to 150 and 200. *)
Lemma prepareSummaryStatistics_min_max_witness :
  exists out lo hi,
    prepareSummaryStatistics Examples.engine_rev_groups Examples.naive_ops
      Examples.scenario = Ok out /\
    Pandas.lookup out SALES_MIN = Some [PyInt lo] /\
    Pandas.lookup out SALES_MAX = Some [PyInt hi] /\
    In lo [150; 200] /\ In hi [150; 200] /\
    forall t, In t [150; 200] -> lo <= t <= hi.
Proof.
  apply (prepareSummaryStatistics_min_max
           Examples.engine_rev_groups Examples.naive_ops Examples.scenario
           (Utf8 [Some "W1"; Some "W1"; Some "W2"])
           (Utf8 [Some "T1"; Some "T1"; Some "T2"])
           [Some 100; Some 50; Some 200]); try reflexivity.
  simpl. lia.
Defined.


(** ** Selecting columns *)

Section Selecting.

Lemma cols_Forall2 (df : DataFrame) (names : list string) (ss : list Series) :
  cols df names = Ok ss <->
  Forall2 (fun n s => get_column df n = Some s) names ss.
Proof.
  revert ss. induction names as [|n names IH]; intros ss; simpl.
  - split; intros H; [inv H; constructor | inv H; reflexivity].
  - unfold col. destruct (get_column df n) as [s|] eqn:G; simpl.
    + destruct (cols df names) as [ss'|e] eqn:C; simpl.
      * split; intros H.
        -- inv H. constructor; [exact G | now apply IH].
        -- inv H. apply IH in H4. inv H4. congruence.
      * split; intros H; [discriminate|].
        inv H. apply IH in H4. discriminate.
    + split; intros H; [discriminate | inv H; congruence].
Qed.

Lemma cols_present (df : DataFrame) (names : list string) :
  (forall n, In n names -> has_column df n = true) ->
  exists ss, cols df names = Ok ss.
Proof.
  induction names as [|n names IH]; intros P; simpl.
  - now exists [].
  - destruct (proj1 (has_column_get df n) (P n (or_introl eq_refl))) as [s G].
    destruct IH as [ss C]; [intros; apply P; now right|].
    unfold col. rewrite G. simpl. rewrite C. simpl. now eexists.
Qed.

Lemma filter_nil {A} (p : A -> bool) (l : list A) :
  List.filter p l = [] <-> forall x, In x l -> p x = false.
Proof.
  induction l as [|a l IH]; simpl.
  - split; [intros _ x [] | reflexivity].
  - destruct (p a) eqn:Pa.
    + split; [discriminate|]. intros H. specialize (H a (or_introl eq_refl)).
      congruence.
    + rewrite IH. split.
      * intros H x [->|I]; auto.
      * intros H x I. apply H. now right.
Qed.

Lemma existsb_eqb_In (n : string) (l : list string) :
  existsb (String.eqb n) l = true <-> In n l.
Proof.
  rewrite existsb_exists. split.
  - intros (x & I & E). apply String.eqb_eq in E. now subst.
  - intros I. exists n. split; [exact I | apply String.eqb_refl].
Qed.

Lemma first_repeated_NoDup (seen names : list string) :
  NoDup names -> (forall n, In n names -> ~ In n seen) ->
  first_repeated seen names = None.
Proof.
  intros N. revert seen. induction N as [|n l N _ IH]; intros seen D; simpl;
    [reflexivity|].
  destruct (existsb (String.eqb n) seen) eqn:X.
  - apply existsb_eqb_In in X. destruct (D n (or_introl eq_refl) X).
  - apply IH. intros m I [<-|Is]; [contradiction|].
    exact (D m (or_intror I) Is).
Qed.

Lemma first_duplicate_NoDup (names : list string) :
  NoDup names -> first_duplicate names = None.
Proof. intros N. apply first_repeated_NoDup; [exact N | intros n _ []]. Qed.

Lemma first_repeated_Some (seen names : list string) (n : string) :
  first_repeated seen names = Some n ->
  (In n seen /\ In n names) \/ exists a b c, names = a ++ n :: b ++ n :: c.
Proof.
  revert seen. induction names as [|m l IH]; intros seen; simpl; [discriminate|].
  destruct (existsb (String.eqb m) seen) eqn:X.
  - intros H. inv H. apply existsb_eqb_In in X. left. split; [exact X | now left].
  - intros H. destruct (IH _ H) as [[[<-|Is] Il]|(a & b & c & ->)].
    + right. destruct (in_split _ _ Il) as (b & c & ->). now exists [], b, c.
    + left. split; [exact Is | now right].
    + right. now exists (m :: a), b, c.
Qed.

Lemma first_duplicate_Some (names : list string) (n : string) :
  first_duplicate names = Some n ->
  exists a b c, names = a ++ n :: b ++ n :: c.
Proof.
  intros H. destruct (first_repeated_Some [] names n H) as [[[] _]|S]; exact S.
Qed.

Lemma get_column_combine (df : DataFrame) (names : list string)
      (ss : list Series) (n : string) :
  Forall2 (fun n s => get_column df n = Some s) names ss ->
  In n names ->
  get_column (combine names ss) n = get_column df n.
Proof.
  induction 1 as [|m s names ss G F IH]; intros I; [destruct I|].
  simpl. destruct (m =? n)%string eqn:E.
  - apply String.eqb_eq in E. subst. now rewrite G.
  - destruct I as [->|I]; [now rewrite String.eqb_refl in E | now apply IH].
Qed.

Lemma has_column_In (df : DataFrame) (n : string) :
  has_column df n = true <-> In n (columns df).
Proof.
  unfold has_column. rewrite existsb_exists. split.
  - intros (x & I & E). apply String.eqb_eq in E. now subst.
  - intros I. exists n. split; [exact I | apply String.eqb_refl].
Qed.

(** A frame is its column names and the column under each name. *)
Lemma frame_ext (a b : DataFrame) :
  columns a = columns b -> NoDup (columns a) ->
  (forall n, In n (columns a) -> get_column a n = get_column b n) ->
  a = b.
Proof.
  revert b. induction a as [|[n s] a IH]; intros [|[m t] b] C N G;
    try discriminate; [reflexivity|].
  simpl in C. inv C. inv N.
  pose proof (G m (or_introl eq_refl)) as G0. simpl in G0.
  rewrite String.eqb_refl in G0. inv G0.
  f_equal. apply IH; [assumption | assumption |].
  intros n I. specialize (G n (or_intror I)). simpl in G.
  destruct (m =? n)%string eqn:E; [|exact G].
  apply String.eqb_eq in E. subst. contradiction.
Qed.

Lemma selectColumns_present (repr_str : string -> string) (df : DataFrame)
      (names : list string) :
  (forall n, In n names -> has_column df n = true) ->
  selectColumns repr_str df names = select df names.
Proof.
  intros P. unfold selectColumns.
  replace (List.filter (fun c => negb (has_column df c)) names) with (@nil string);
    [reflexivity|].
  symmetry. apply filter_nil. intros x I. now rewrite (P x I).
Qed.

Lemma selectColumns_Ok (repr_str : string -> string) (df out : DataFrame)
      (names : list string) :
  selectColumns repr_str df names = Ok out ->
  (forall n, In n names -> has_column df n = true) /\
  NoDup names /\
  exists ss, Forall2 (fun n s => get_column df n = Some s) names ss /\
             out = combine names ss.
Proof.
  unfold selectColumns.
  destruct (List.filter (fun c => negb (has_column df c)) names) eqn:F;
    [|discriminate].
  intros S. split.
  { intros n I. pose proof (proj1 (filter_nil _ _) F n I) as H.
    now apply negb_false_iff in H. }
  unfold select in S. destruct (cols df names) as [ss|e] eqn:C; [|discriminate].
  simpl in S. destruct (first_duplicate names) eqn:D; [discriminate|].
  inv S. split; [now apply first_duplicate_None|].
  exists ss. split; [now apply cols_Forall2 | reflexivity].
Qed.

End Selecting.

(** X6.  For a list of column names, [selectColumns] returns a frame
    exactly when every requested name is a column of the frame and no
    name is requested twice; the frame it returns has the requested
    names as its columns, in the order of the request, and under each
    of them the column the input has under that name. *)
Theorem selectColumns_returns
    (repr_str : string -> string) (df out : DataFrame) (columnsToKeep : list string) :
  plain columnsToKeep ->
  (selectColumns repr_str df columnsToKeep = Ok out <->
   (forall n, In n columnsToKeep -> has_column df n = true) /\
   NoDup columnsToKeep /\
   columns out = columnsToKeep /\
   (forall n, In n columnsToKeep -> get_column out n = get_column df n)).
Proof.
  intros _. split.
  - intros S. destruct (selectColumns_Ok _ _ _ _ S) as (P & N & ss & F & ->).
    split; [exact P|]. split; [exact N|].
    split.
    + apply columns_combine. symmetry. exact (Forall2_length F).
    + intros n I. now apply get_column_combine.
  - intros (P & N & C & G).
    rewrite (selectColumns_present _ _ _ P). unfold select.
    destruct (cols_present df columnsToKeep P) as [ss Cs]. rewrite Cs. simpl.
    rewrite (first_duplicate_NoDup _ N).
    apply cols_Forall2 in Cs.
    assert (Cc : columns (combine columnsToKeep ss) = columnsToKeep).
    { apply columns_combine. symmetry. exact (Forall2_length Cs). }
    apply (f_equal (@Ok DataFrame)). apply frame_ext.
    + now rewrite Cc, C.
    + now rewrite Cc.
    + rewrite Cc. intros n I. rewrite (G n I). now apply get_column_combine.
Qed.

(** Ticket and price of the three-row table, in that order. *)
Lemma selectColumns_returns_witness :
  selectColumns (fun s => s) Examples.scenario [NO_MOV; SALE_PRICE]
  = Ok [ (NO_MOV, Utf8 [Some "T1"; Some "T1"; Some "T2"]);
         (SALE_PRICE, Int64 [Some 100; Some 50; Some 200]) ].
Proof.
  apply (proj2 (selectColumns_returns (fun s => s) Examples.scenario
                  [ (NO_MOV, Utf8 [Some "T1"; Some "T1"; Some "T2"]);
                    (SALE_PRICE, Int64 [Some 100; Some 50; Some 200]) ]
                  [NO_MOV; SALE_PRICE] eq_refl)).
  split.
  { intros n [<-|[<-|[]]]; reflexivity. }
  split.
  { repeat constructor; simpl; intuition discriminate. }
  split; [reflexivity|].
  intros n [<-|[<-|[]]]; reflexivity.
Defined.

(** X7.  When [selectColumns] raises, a requested name that is not a
    column comes first: the exception is then the [ValueError] of the
    function, whatever else is wrong with the request.  With every name
    present the only exception left is polars' [DuplicateError], for a
    name that is requested twice; there is no other error. *)
Theorem selectColumns_raises
    (repr_str : string -> string) (df : DataFrame) (columnsToKeep : list string) :
  plain columnsToKeep ->
  ((exists n, In n columnsToKeep /\ has_column df n = false) ->
   exists msg, selectColumns repr_str df columnsToKeep = Raise (ValueError msg)) /\
  ((forall n, In n columnsToKeep -> has_column df n = true) ->
   ~ NoDup columnsToKeep ->
   exists n a b c,
     selectColumns repr_str df columnsToKeep = Raise (DuplicateError n) /\
     columnsToKeep = a ++ n :: b ++ n :: c) /\
  (forall e, selectColumns repr_str df columnsToKeep = Raise e ->
             (exists msg, e = ValueError msg) \/ (exists n, e = DuplicateError n)).
Proof.
  intros _. split; [|split].
  - intros (n & I & H). unfold selectColumns.
    destruct (List.filter (fun c => negb (has_column df c)) columnsToKeep) eqn:F.
    + pose proof (proj1 (filter_nil _ _) F n I) as H'. cbv beta in H'. rewrite H in H'. discriminate.
    + now eexists.
  - intros P N. rewrite (selectColumns_present _ _ _ P). unfold select.
    destruct (cols_present df columnsToKeep P) as [ss Cs]. rewrite Cs. simpl.
    destruct (first_duplicate columnsToKeep) as [n|] eqn:D.
    + destruct (first_duplicate_Some _ _ D) as (a & b & c & E).
      now exists n, a, b, c.
    + apply first_duplicate_None in D. contradiction.
  - intros e. unfold selectColumns.
    destruct (List.filter (fun c => negb (has_column df c)) columnsToKeep) eqn:F.
    + assert (P : forall n, In n columnsToKeep -> has_column df n = true).
      { intros n I. pose proof (proj1 (filter_nil _ _) F n I) as H.
        now apply negb_false_iff in H. }
      unfold select.
      destruct (cols_present df columnsToKeep P) as [ss Cs]. rewrite Cs. simpl.
      destruct (first_duplicate columnsToKeep); [|discriminate].
      intros H. inv H. right. now eexists.
    + intros H. inv H. left. now eexists.
Qed.

(** A request for the seller, which the three-row table does not have,
    and for the price twice: the missing name decides. *)
Lemma selectColumns_raises_witness :
  exists msg,
    selectColumns (fun s => s) Examples.scenario [SALE_PRICE; SELLER; SALE_PRICE]
    = Raise (ValueError msg).
Proof.
  apply (proj1 (selectColumns_raises (fun s => s) Examples.scenario
                  [SALE_PRICE; SELLER; SALE_PRICE] eq_refl)).
  exists SELLER. split; [simpl; tauto | reflexivity].
Defined.

(** X8.  Selecting from a selection is selecting from the frame: after
    [selectColumns] has returned the columns [columnsToKeep], any
    request among those names gives on the result what it gives on the
    input (the same frame or the same exception). *)
Theorem selectColumns_composes
    (repr_str : string -> string) (df out : DataFrame)
    (columnsToKeep sub : list string) :
  plain columnsToKeep ->
  selectColumns repr_str df columnsToKeep = Ok out ->
  incl sub columnsToKeep ->
  selectColumns repr_str out sub = selectColumns repr_str df sub.
Proof.
  intros _ S I.
  destruct (selectColumns_Ok _ _ _ _ S) as (P & N & ss & F & ->).
  assert (G : forall n, In n sub ->
                        get_column (combine columnsToKeep ss) n = get_column df n).
  { intros n H. apply get_column_combine; auto. }
  assert (P' : forall n, In n sub -> has_column (combine columnsToKeep ss) n = true).
  { intros n H. apply has_column_get. rewrite (G n H). apply has_column_get.
    apply P, I, H. }
  rewrite !selectColumns_present; auto.
  unfold select. f_equal.
  clear P'. induction sub as [|n sub IH]; [reflexivity|].
  simpl. unfold col. rewrite (G n (or_introl eq_refl)).
  rewrite IH; [reflexivity | | ].
  - intros x H. apply I. now right.
  - intros x H. apply G. now right.
Qed.

(** The price, out of ticket and price of the three-row table. *)
Lemma selectColumns_composes_witness :
  selectColumns (fun s => s)
    [ (NO_MOV, Utf8 [Some "T1"; Some "T1"; Some "T2"]);
      (SALE_PRICE, Int64 [Some 100; Some 50; Some 200]) ] [SALE_PRICE]
  = selectColumns (fun s => s) Examples.scenario [SALE_PRICE].
Proof.
  apply (selectColumns_composes (fun s => s) Examples.scenario _
           [NO_MOV; SALE_PRICE] [SALE_PRICE] eq_refl eq_refl).
  intros n [<-|[]]. simpl. tauto.
Defined.


(** ** Stacking frames *)

Section Stacking.

Lemma append_series_Some (a b s : Series) :
  append_series a b = Some s ->
  dtype b = dtype a /\ dtype s = dtype a /\
  cells s = cells a ++ cells b /\ len s = (len a + len b)%nat.
Proof.
  destruct a, b; simpl; intros H; inv H; simpl;
    rewrite ?map_app, ?length_app; auto.
Qed.

Lemma append_series_dtype (a b : Series) :
  dtype b = dtype a -> exists s, append_series a b = Some s.
Proof.
  destruct a, b; simpl; intros H; try discriminate; now eexists.
Qed.

Lemma append_series_None (a b : Series) :
  append_series a b = None -> dtype b <> dtype a.
Proof.
  intros H E. destruct (append_series_dtype a b E) as [s S]. congruence.
Qed.

Lemma vstack_nil (b : DataFrame) : vstack [] b = Return b.
Proof. now destruct b. Qed.

Lemma vstack_Return (a b out : DataFrame) :
  a <> [] ->
  vstack a b = Return out ->
  schema b = schema a /\ schema out = schema a.
Proof.
  intros N. unfold vstack.
  destruct (List.length a =? List.length b)%nat eqn:L; cbn [negb].
  2:{ destruct a; [congruence | discriminate]. }
  apply Nat.eqb_eq in L. clear N.
  revert b out L. induction a as [|[n1 s1] a IH]; intros [|[n2 s2] b] out L;
    try discriminate; simpl.
  - intros H. inv H. auto.
  - destruct (n1 =? n2)%string eqn:E; [|discriminate]. simpl.
    apply String.eqb_eq in E. subst n2.
    destruct (append_series s1 s2) as [s|] eqn:A; [|discriminate].
    destruct (vstack_columns a b) as [rest|] eqn:V; [|discriminate].
    simpl. intros H. inv H.
    destruct (append_series_Some _ _ _ A) as (D1 & D2 & _).
    destruct (IH b rest) as [S1 S2]; [now inv L | exact V |].
    simpl. now rewrite D1, D2, S1, S2.
Qed.

Lemma vstack_schema (a b : DataFrame) :
  schema b = schema a -> exists out, vstack a b = Return out.
Proof.
  intros S. unfold vstack.
  assert (L : List.length a = List.length b).
  { apply (f_equal (@List.length _)) in S. unfold schema in S.
    now rewrite !length_map in S. }
  rewrite L, Nat.eqb_refl. simpl. clear L.
  revert b S. induction a as [|[n1 s1] a IH]; intros [|[n2 s2] b] S;
    try discriminate; simpl.
  - now eexists.
  - simpl in S. inv S. rewrite String.eqb_refl. simpl.
    destruct (append_series_dtype s1 s2 H1) as [s ->].
    destruct (IH b H2) as [rest ->]. simpl. now eexists.
Qed.

(** What a refused stacking says of the two frames. *)
Lemma vstack_Throw (a b : DataFrame) (e : exc) :
  vstack a b = Throw e ->
  (columns b <> columns a /\ exists msg, e = ShapeError msg) \/
  (map dtype (map snd b) <> map dtype (map snd a) /\
   exists msg, e = Pipeline (SchemaError msg)).
Proof.
  unfold vstack.
  destruct (List.length a =? List.length b)%nat eqn:L; simpl.
  - apply Nat.eqb_eq in L.
    revert b L. induction a as [|[n1 s1] a IH]; intros [|[n2 s2] b] L;
      try discriminate; simpl.
    + destruct (n1 =? n2)%string eqn:E; simpl.
      * apply String.eqb_eq in E. subst n2.
        destruct (append_series s1 s2) as [s|] eqn:A.
        -- destruct (vstack_columns a b) as [rest|e'] eqn:V; [discriminate|].
           simpl. intros H. inv H.
           destruct (IH b (eq_add_S _ _ L) V) as [[C M]|[C M]].
           ++ left. split; [|exact M]. intros H. inv H. contradiction.
           ++ right. split; [|exact M]. intros H. inv H. contradiction.
        -- intros H. inv H. right. split; [|now eexists].
           apply append_series_None in A. intros H. inv H. contradiction.
      * intros H. inv H. left. split; [|now eexists].
        apply String.eqb_neq in E. intros H. inv H. contradiction.
  - destruct a as [|c a]; [discriminate|].
    intros H. inv H. left. split; [|now eexists].
    apply Nat.eqb_neq in L. intros H. apply L.
    apply (f_equal (@List.length _)) in H. unfold columns in H.
    now rewrite !length_map in H.
Qed.

Lemma vstack_columns_rows (a b out : DataFrame) (ha hb : nat) :
  List.length a = List.length b ->
  vstack_columns a b = Return out ->
  Forall (fun c => len (snd c) = ha) a ->
  Forall (fun c => len (snd c) = hb) b ->
  columns out = columns a /\
  Forall (fun c => len (snd c) = (ha + hb)%nat) out /\
  (forall i, (i < ha)%nat -> row_at out i = row_at a i) /\
  (forall i, row_at out (ha + i) = row_at b i).
Proof.
  revert b out. induction a as [|[n1 s1] a IH]; intros [|[n2 s2] b] out L;
    try discriminate; simpl.
  - intros H _ _. inv H. repeat split; auto.
  - destruct (n1 =? n2)%string eqn:E; [|discriminate]. simpl.
    destruct (append_series s1 s2) as [s|] eqn:A; [|discriminate].
    destruct (vstack_columns a b) as [rest|] eqn:V; [|discriminate].
    simpl. intros H Fa Fb. inv H.
    apply Forall_cons_iff in Fa as [La Fa]. apply Forall_cons_iff in Fb as [Lb Fb].
    simpl in *.
    destruct (append_series_Some _ _ _ A) as (_ & _ & Cs & Ls).
    destruct (IH b rest (eq_add_S _ _ L) V Fa Fb) as (C & F & Ra & Rb).
    split; [now rewrite C|].
    split; [constructor; [simpl; lia | exact F]|].
    assert (Lc : List.length (cells s1) = len s1) by apply cells_length.
    split.
    + intros i I. unfold row_at in *. simpl. rewrite Cs.
      rewrite app_nth1 by lia. f_equal. now apply Ra.
    + intros i. unfold row_at in *. simpl. rewrite Cs.
      rewrite app_nth2 by lia. rewrite Lc, La.
      replace (ha + i - ha)%nat with i by lia.
      f_equal. apply Rb.
Qed.

Lemma seq_from (a n : nat) : seq a n = map (fun i => (a + i)%nat) (seq 0 n).
Proof.
  induction a as [|a IH]; simpl.
  - now rewrite map_id.
  - now rewrite <- seq_shift, IH, map_map.
Qed.

Lemma wf_same_len (df : DataFrame) :
  wf df -> Forall (fun c => len (snd c) = height df) df.
Proof. now intros [_ F]. Qed.

Lemma vstack_rows (a b out : DataFrame) :
  wf a -> wf b -> vstack a b = Return out ->
  wf out /\ height out = (height a + height b)%nat /\
  rows out = rows a ++ rows b.
Proof.
  intros Wa Wb V. unfold vstack in V.
  destruct (List.length a =? List.length b)%nat eqn:L; cbn [negb] in V.
  2:{ destruct a as [|c a]; [|discriminate]. inv V. auto. }
  apply Nat.eqb_eq in L.
  destruct (vstack_columns_rows a b out _ _ L V (wf_same_len _ Wa) (wf_same_len _ Wb))
    as (C & F & Ra & Rb).
  assert (H : height out = (height a + height b)%nat).
  { destruct out as [|[n s] out].
    - destruct a; [|discriminate]. destruct b; [|discriminate]. reflexivity.
    - apply Forall_cons_iff in F as [H1 _]. exact H1. }
  split; [|split; [exact H|]].
  - split; [rewrite C; apply Wa | now rewrite H].
  - unfold rows. rewrite H, seq_app, map_app. f_equal.
    + apply map_ext_in. intros i I. apply in_seq in I. apply Ra. lia.
    + simpl. rewrite seq_from, map_map.
      apply map_ext. intros i. apply Rb.
Qed.

Lemma schema_nil (df : DataFrame) : schema df = [] -> df = [].
Proof. now destruct df. Qed.

Lemma vstack_all_Return (acc : DataFrame) (dfs : list DataFrame) (out : DataFrame) :
  acc <> [] ->
  vstack_all acc dfs = Return out ->
  schema out = schema acc /\ Forall (fun x => schema x = schema acc) dfs.
Proof.
  revert acc. induction dfs as [|d dfs IH]; intros acc N; simpl.
  - intros H. inv H. auto.
  - destruct (vstack acc d) as [acc'|] eqn:V; [|discriminate]. simpl.
    intros H. destruct (vstack_Return _ _ _ N V) as [S1 S2].
    assert (N' : acc' <> []).
    { intros ->. apply N. apply schema_nil. now rewrite <- S2. }
    destruct (IH _ N' H) as [S3 F]. rewrite S2 in *.
    split; [exact S3|]. constructor; [exact S1 | exact F].
Qed.

Lemma vstack_all_schema (acc : DataFrame) (dfs : list DataFrame) :
  Forall (fun x => schema x = schema acc) dfs ->
  exists out, vstack_all acc dfs = Return out.
Proof.
  revert acc. induction dfs as [|d dfs IH]; intros acc F; simpl.
  - now eexists.
  - apply Forall_cons_iff in F as [H1 F].
    destruct (vstack_schema _ _ H1) as [acc' V]. rewrite V. simpl.
    apply IH. destruct acc as [|c acc].
    + rewrite vstack_nil in V. injection V as <-.
      apply schema_nil in H1. subst d. exact F.
    + assert (Nc : c :: acc <> []) by discriminate.
      destruct (vstack_Return _ _ _ Nc V) as [_ S].
      now rewrite S.
Qed.

Lemma vstack_all_rows (acc : DataFrame) (dfs : list DataFrame) (out : DataFrame) :
  wf acc -> Forall wf dfs ->
  vstack_all acc dfs = Return out ->
  wf out /\
  height out = (height acc + list_sum (map height dfs))%nat /\
  rows out = rows acc ++ List.concat (map rows dfs).
Proof.
  revert acc. induction dfs as [|d dfs IH]; intros acc Wa F; simpl.
  - intros H. inv H. rewrite app_nil_r, Nat.add_0_r. auto.
  - apply Forall_cons_iff in F as [H1 H2].
    destruct (vstack acc d) as [acc'|] eqn:V; [|discriminate]. simpl.
    intros H. destruct (vstack_rows _ _ _ Wa H1 V) as (W & Hh & R).
    destruct (IH _ W H2 H) as (Wo & Ho & Ro).
    split; [exact Wo|]. split; [lia|].
    now rewrite Ro, R, app_assoc.
Qed.

Lemma differs_from_nil {A} (l1 l2 : list A) :
  l1 <> l2 -> l1 <> [] \/ l2 <> [].
Proof.
  destruct l1; [|left; discriminate]. destruct l2; [congruence|].
  right. discriminate.
Qed.

Lemma vstack_all_Throw (acc : DataFrame) (dfs : list DataFrame) (e : exc) :
  vstack_all acc dfs = Throw e ->
  exists x, In x dfs /\
    ((columns x <> columns acc /\ exists msg, e = ShapeError msg) \/
     (map dtype (map snd x) <> map dtype (map snd acc) /\
      exists msg, e = Pipeline (SchemaError msg))).
Proof.
  revert acc. induction dfs as [|d dfs IH]; intros acc; simpl; [discriminate|].
  destruct (vstack acc d) as [acc'|e'] eqn:V; simpl.
  - intros H. destruct (IH _ H) as (x & I & D).
    destruct acc as [|c acc].
    + rewrite vstack_nil in V. inv V. cbn [columns map].
      destruct D as [[C M]|[C M]].
      * destruct (differs_from_nil _ _ C) as [N|N].
        -- exists x. split; [now right|]. left. now split.
        -- exists acc'. split; [now left|]. left. now split.
      * destruct (differs_from_nil _ _ C) as [N|N].
        -- exists x. split; [now right|]. right. now split.
        -- exists acc'. split; [now left|]. right. now split.
    + assert (Nc : c :: acc <> []) by discriminate.
      destruct (vstack_Return _ _ _ Nc V) as [_ S].
      assert (C : columns acc' = columns (c :: acc)).
      { apply (f_equal (map fst)) in S. unfold schema in S.
        now rewrite !map_map in S. }
      assert (T : map dtype (map snd acc') = map dtype (map snd (c :: acc))).
      { apply (f_equal (map snd)) in S. unfold schema in S.
        now rewrite !map_map in *. }
      exists x. split; [now right|]. now rewrite <- C, <- T.
  - intros H. inv H. exists d. split; [now left|]. now apply vstack_Throw.
Qed.

End Stacking.

(** X9.  For a list whose first frame has a column, [unionDataFrames]
    returns a frame exactly when every frame has the column names and
    types of the first, in the same order; the frame it returns has
    that schema too.  It never fills in a missing column and never
    converts a type.  A first frame without columns is the one
    exception: it takes the columns of the frame that follows. *)
Theorem unionDataFrames_same_schema (first : DataFrame) (rest : list DataFrame) :
  first <> [] ->
  ((exists out, unionDataFrames (first :: rest) = Return out) <->
   Forall (fun x => schema x = schema first) rest) /\
  (forall out, unionDataFrames (first :: rest) = Return out ->
               schema out = schema first) /\
  (forall df, unionDataFrames [[]; df] = Return df).
Proof.
  intros N. split; [split|split].
  - intros [out H]. simpl in H. exact (proj2 (vstack_all_Return _ _ _ N H)).
  - intros F. simpl. now apply vstack_all_schema.
  - intros out H. simpl in H. exact (proj1 (vstack_all_Return _ _ _ N H)).
  - intros df. simpl. now rewrite vstack_nil.
Qed.

(** The one ticket of two rows under the three-row table: the same
    four columns. *)
Lemma unionDataFrames_same_schema_witness :
  (exists out,
     unionDataFrames [Examples.scenario; Examples.one_ticket] = Return out) /\
  (forall out,
     unionDataFrames [Examples.scenario; Examples.one_ticket] = Return out ->
     schema out = schema Examples.scenario).
Proof.
  destruct (unionDataFrames_same_schema Examples.scenario [Examples.one_ticket])
    as (I & S & _); [discriminate|].
  split; [|exact S]. apply I. repeat constructor.
Defined.

(** X10.  The rows of the frame [unionDataFrames] returns are the rows
    of the frames of the list, frame after frame and in their order;
    its height is the sum of their heights. *)
Theorem unionDataFrames_rows (dfList : list DataFrame) (out : DataFrame) :
  Forall wf dfList ->
  unionDataFrames dfList = Return out ->
  wf out /\
  rows out = List.concat (map rows dfList) /\
  height out = list_sum (map height dfList).
Proof.
  intros F. destruct dfList as [|d rest]; [discriminate|]. simpl.
  apply Forall_cons_iff in F as [H1 H2].
  intros H. destruct (vstack_all_rows _ _ _ H1 H2 H) as (W & Hh & R).
  auto.
Qed.

(** The one ticket of two rows under the three-row table. *)
Lemma unionDataFrames_rows_witness :
  exists out,
    unionDataFrames [Examples.scenario; Examples.one_ticket] = Return out /\
    rows out = rows Examples.scenario ++ rows Examples.one_ticket /\
    height out = 5%nat.
Proof.
  eexists. split; [reflexivity|].
  assert (W : Forall wf [Examples.scenario; Examples.one_ticket]).
  { repeat constructor; simpl; intuition discriminate. }
  destruct (unionDataFrames_rows [Examples.scenario; Examples.one_ticket] _ W eq_refl)
    as (_ & R & H).
  split; [rewrite R; reflexivity | exact H].
Defined.

(** X11.  When [unionDataFrames] raises, either the list is empty and
    the exception is the [ValueError] of the function, or some frame
    after the first differs from the first: in its column names, and
    the exception is polars' [ShapeError], or in its column types, and
    the exception is polars' [SchemaError]. *)
Theorem unionDataFrames_raises (dfList : list DataFrame) (e : exc) :
  unionDataFrames dfList = Throw e ->
  (dfList = [] /\ e = Pipeline (ValueError "The DataFrame list is empty.")) \/
  (exists first rest x,
     dfList = first :: rest /\ In x rest /\
     ((columns x <> columns first /\ exists msg, e = ShapeError msg) \/
      (map dtype (map snd x) <> map dtype (map snd first) /\
       exists msg, e = Pipeline (SchemaError msg)))).
Proof.
  destruct dfList as [|d rest]; simpl.
  - intros H. inv H. now left.
  - intros H. right. destruct (vstack_all_Throw _ _ _ H) as (x & I & D).
    now exists d, rest, x.
Qed.

(** The table of dates as text under the three-row table: two columns
    against four. *)
Lemma unionDataFrames_raises_witness :
  unionDataFrames [Examples.scenario; Examples.raw_dates [Some "Jan  5 2024 03:45PM"]]
  = Throw (ShapeError "unable to append to a DataFrame: widths differ") /\
  exists first rest x,
    [Examples.scenario; Examples.raw_dates [Some "Jan  5 2024 03:45PM"]]
    = first :: rest /\ In x rest /\
    ((columns x <> columns first /\ exists msg,
        ShapeError "unable to append to a DataFrame: widths differ" = ShapeError msg) \/
     (map dtype (map snd x) <> map dtype (map snd first) /\
      exists msg,
        ShapeError "unable to append to a DataFrame: widths differ"
        = Pipeline (SchemaError msg))).
Proof.
  split; [reflexivity|].
  destruct (unionDataFrames_raises
              [Examples.scenario; Examples.raw_dates [Some "Jan  5 2024 03:45PM"]]
              (ShapeError "unable to append to a DataFrame: widths differ")
              eq_refl) as [[H _]|H]; [discriminate | exact H].
Defined.


(** ** Replacing nulls by zero *)

Section Filling.

Lemma zero_filled_fill_null (vs : list (option Z)) :
  zero_filled (Int64 vs) = Int64 (fill_null_list 0 vs).
Proof.
  unfold zero_filled, fill_null_list. f_equal. apply map_ext.
  now intros [x|].
Qed.

Lemma len_zero_filled (s : Series) : len (zero_filled s) = len s.
Proof. destruct s; simpl; auto. now rewrite length_map. Qed.

Lemma zero_filled_twice (s : Series) : zero_filled (zero_filled s) = zero_filled s.
Proof.
  destruct s; simpl; auto. f_equal. rewrite map_map. apply map_ext.
  now intros [x|].
Qed.

Lemma zero_filled_nothing (s : Series) :
  nothing_to_fill s -> zero_filled s = s.
Proof.
  destruct s; simpl; auto. intros N. f_equal.
  induction vs as [|[x|] vs IH]; simpl; auto.
  - rewrite null_count_cons in N. f_equal. apply IH. lia.
  - rewrite null_count_cons in N. lia.
Qed.

Lemma is_numeric_zero_filled (s : Series) :
  is_numeric (zero_filled s) = is_numeric s.
Proof. now destruct s. Qed.

Lemma get_column_NoDup (df : DataFrame) (n : string) (s : Series) :
  NoDup (columns df) -> In (n, s) df -> get_column df n = Some s.
Proof.
  induction df as [|[m t] df IH]; intros N I; [destruct I|].
  simpl in *. inv N. destruct I as [I|I].
  - inv I. now rewrite String.eqb_refl.
  - destruct (m =? n)%string eqn:E; [|now apply IH].
    apply String.eqb_eq in E. subst.
    exfalso. apply H1. apply (in_map fst) in I. exact I.
Qed.

Lemma get_column_map_snd (F : Series -> Series) (l : DataFrame) (n : string) :
  get_column (map (fun c => (fst c, F (snd c))) l) n
  = option_map F (get_column l n).
Proof.
  induction l as [|[m t] l IH]; simpl; [reflexivity|].
  now destruct (m =? n)%string.
Qed.

Lemma columns_map_snd (F : Series -> Series) (l : DataFrame) :
  columns (map (fun c => (fst c, F (snd c))) l) = columns l.
Proof. unfold columns. rewrite map_map. reflexivity. Qed.

Lemma get_column_filter (p : Series -> bool) (df : DataFrame) (n : string) :
  NoDup (columns df) ->
  get_column (List.filter (fun c => p (snd c)) df) n
  = match get_column df n with
    | Some s => if p s then Some s else None
    | None => None
    end.
Proof.
  induction df as [|[m t] df IH]; intros N; simpl; [reflexivity|].
  simpl in N. inv N. destruct (m =? n)%string eqn:E.
  - apply String.eqb_eq in E. subst m.
    destruct (p t) eqn:P; simpl.
    + now rewrite String.eqb_refl.
    + rewrite (IH H2).
      destruct (get_column df n) as [s|] eqn:G; [|reflexivity].
      apply get_column_In in G. exfalso. apply H1.
      apply (in_map fst) in G. exact G.
  - destruct (p t); simpl; [rewrite E|]; now apply IH.
Qed.

Lemma NoDup_columns_filter (p : string * Series -> bool) (df : DataFrame) :
  NoDup (columns df) -> NoDup (columns (List.filter p df)).
Proof.
  induction df as [|c df IH]; intros N; simpl; [constructor|].
  simpl in N. inv N. destruct (p c); simpl; [|auto].
  constructor; [|auto]. intros I. apply H1.
  unfold columns in *. apply in_map_iff in I as (x & E & I).
  apply filter_In in I as [I _]. rewrite <- E. now apply in_map.
Qed.

Lemma columns_with_column (df : DataFrame) (n : string) (s : Series) :
  has_column df n = true -> columns (with_column df n s) = columns df.
Proof.
  intros H. unfold with_column. rewrite H. apply columns_replace_column.
Qed.

Lemma has_column_columns (a b : DataFrame) (n : string) :
  columns a = columns b -> has_column a n = has_column b n.
Proof. unfold has_column. now intros ->. Qed.

Lemma with_columns_present (new df : DataFrame) :
  Forall (fun c => has_column df (fst c) = true) new ->
  NoDup (columns new) ->
  columns (with_columns df new) = columns df /\
  forall n, get_column (with_columns df new) n
            = match get_column new n with
              | Some s => Some s
              | None => get_column df n
              end.
Proof.
  revert df. induction new as [|[m t] new IH]; intros df F N.
  - simpl. auto.
  - apply Forall_cons_iff in F as [Hm F]. simpl in Hm, N. inv N.
    unfold with_columns. simpl. fold (with_columns (with_column df m t) new).
    assert (C : columns (with_column df m t) = columns df)
      by now apply columns_with_column.
    destruct (IH (with_column df m t)) as [C' G'].
    { eapply Forall_impl; [|exact F]. intros c H. simpl in *.
      now rewrite (has_column_columns _ _ _ C). }
    { exact H2. }
    split; [now rewrite C'|].
    intros n. rewrite G'. unfold with_column. rewrite Hm.
    destruct (m =? n)%string eqn:E.
    + apply String.eqb_eq in E. subst n.
      destruct (get_column new m) as [s|] eqn:G.
      * apply get_column_In in G. exfalso. apply H1.
        apply (in_map fst) in G. exact G.
      * now apply get_replace_column_same.
    + destruct (get_column new n); [reflexivity|].
      apply get_replace_column_other. apply String.eqb_neq in E. congruence.
Qed.

Lemma fill_numeric (df : DataFrame) (l : DataFrame) :
  NoDup (columns df) ->
  Forall (fun c => In c df /\ is_numeric (snd c) = true) l ->
  sequence (map (fun c => s <- col df c ;; f <- fill_null s 0 ;; Ok (c, f))
                (map fst l))
  = Ok (map (fun c => (fst c, zero_filled (snd c))) l).
Proof.
  intros N. induction 1 as [|[n s] l [I P] F IH]; [reflexivity|].
  cbn [map sequence fst snd]. rewrite IH.
  rewrite (col_get _ _ _ (get_column_NoDup _ _ _ N I)).
  destruct s; try discriminate. simpl.
  now rewrite <- zero_filled_fill_null.
Qed.

(** What [replaceNaNWithZero] returns, column by column. *)
Lemma replaceNaNWithZero_run (df : DataFrame) :
  NoDup (columns df) ->
  replaceNaNWithZero df
  = Ok (map (fun c => (fst c, zero_filled (snd c))) df).
Proof.
  intros N. unfold replaceNaNWithZero.
  rewrite (fill_numeric df _ N).
  2:{ apply Forall_forall. intros c I. apply filter_In in I. exact I. }
  cbn [bind]. apply (f_equal (@Ok DataFrame)).
  set (num := List.filter (fun c => is_numeric (snd c)) df).
  set (new := map (fun c => (fst c, zero_filled (snd c))) num).
  assert (Nn : NoDup (columns new)).
  { unfold new. rewrite columns_map_snd. now apply NoDup_columns_filter. }
  assert (Fn : Forall (fun c => has_column df (fst c) = true) new).
  { apply Forall_forall. intros c I. unfold new in I.
    apply in_map_iff in I as (x & <- & I). apply filter_In in I as [I _].
    simpl. apply has_column_In. unfold columns. now apply in_map. }
  destruct (with_columns_present new df Fn Nn) as [C G].
  apply frame_ext.
  - now rewrite C, columns_map_snd.
  - now rewrite C.
  - intros n _. rewrite G. unfold new, num.
    rewrite !get_column_map_snd, (get_column_filter is_numeric df n N).
    destruct (get_column df n) as [s|]; [|reflexivity].
    destruct s; reflexivity.
Qed.

Lemma height_map_snd (F : Series -> Series) (df : DataFrame) :
  (forall s, len (F s) = len s) ->
  height (map (fun c => (fst c, F (snd c))) df) = height df.
Proof. intros L. destruct df as [|[n s] df]; simpl; auto. Qed.

Lemma wf_map_snd (F : Series -> Series) (df : DataFrame) :
  (forall s, len (F s) = len s) ->
  wf df -> wf (map (fun c => (fst c, F (snd c))) df).
Proof.
  intros L [N H]. split.
  - now rewrite columns_map_snd.
  - rewrite (height_map_snd F df L). apply Forall_map.
    eapply Forall_impl; [|exact H]. intros c E. simpl. now rewrite L.
Qed.

Lemma null_count_filled (vs : list (option Z)) :
  null_count (map (fun v => Some (match v with Some x => x | None => 0 end)) vs)
  = 0%nat.
Proof.
  induction vs as [|v vs IH]; [reflexivity|].
  cbn [map]. now rewrite null_count_cons, IH.
Qed.

End Filling.

(** X12.  On a frame of polars, [replaceNaNWithZero] does not raise.
    The frame it returns has the same columns in the same order and the
    same height; a column of integers has no null left, 0 where it had a
    null and its own value everywhere else; every other column is the
    input's. *)
Theorem replaceNaNWithZero_fills (df : DataFrame) :
  wf df -> plain (columns df) ->
  exists out,
    replaceNaNWithZero df = Ok out /\
    wf out /\ columns out = columns df /\ height out = height df /\
    (forall name vs,
        get_column df name = Some (Int64 vs) ->
        exists vs',
          get_column out name = Some (Int64 vs') /\
          null_count vs' = 0%nat /\
          List.length vs' = List.length vs /\
          forall i, (i < List.length vs)%nat ->
                    nth i vs' None = Some (value_at vs i)) /\
    (forall name s,
        get_column df name = Some s -> is_numeric s = false ->
        get_column out name = Some s).
Proof.
  intros W _. eexists. split; [apply replaceNaNWithZero_run, W|].
  split; [apply wf_map_snd; [apply len_zero_filled | exact W]|].
  split; [apply columns_map_snd|].
  split; [apply height_map_snd, len_zero_filled|].
  split.
  - intros name vs G. rewrite get_column_map_snd, G. simpl.
    eexists. split; [reflexivity|].
    split; [apply null_count_filled|].
    split; [apply length_map|].
    intros i I. unfold value_at.
    rewrite (nth_indep _ None (Some 0)) by now rewrite length_map.
    rewrite (map_nth (fun v => Some match v with Some x => x | None => 0 end)
                     vs None i).
    reflexivity.
  - intros name s G P. rewrite get_column_map_snd, G. simpl.
    destruct s; try reflexivity. discriminate.
Qed.

(** The three-row table with a price missing. *)
Lemma replaceNaNWithZero_fills_witness :
  exists out,
    replaceNaNWithZero
      [ (SELLER, Utf8 [Some "Ana"; None; Some "Caro"]);
        (SALE_PRICE, Int64 [Some 100; None; Some 300]) ] = Ok out /\
    get_column out SALE_PRICE = Some (Int64 [Some 100; Some 0; Some 300]) /\
    get_column out SELLER = Some (Utf8 [Some "Ana"; None; Some "Caro"]).
Proof.
  destruct (replaceNaNWithZero_fills
              [ (SELLER, Utf8 [Some "Ana"; None; Some "Caro"]);
                (SALE_PRICE, Int64 [Some 100; None; Some 300]) ])
    as (out & R & _ & _ & _ & _ & U).
  { split; [repeat constructor; simpl; intuition discriminate
           | repeat constructor]. }
  { reflexivity. }
  exists out. split; [exact R|].
  split; [now inv R | now apply U].
Defined.

(** X13.  [replaceNaNWithZero] leaves its own result as it is. *)
Theorem replaceNaNWithZero_idempotent (df out : DataFrame) :
  wf df -> plain (columns df) ->
  replaceNaNWithZero df = Ok out ->
  replaceNaNWithZero out = Ok out.
Proof.
  intros [N _] _ R. rewrite (replaceNaNWithZero_run df N) in R. inv R.
  rewrite replaceNaNWithZero_run by now rewrite columns_map_snd.
  apply (f_equal (@Ok DataFrame)). rewrite map_map. apply map_ext.
  intros [n s]. simpl. now rewrite zero_filled_twice.
Qed.

Lemma replaceNaNWithZero_idempotent_witness :
  replaceNaNWithZero
    [ (SELLER, Utf8 [Some "Ana"; None; Some "Caro"]);
      (SALE_PRICE, Int64 [Some 100; Some 0; Some 300]) ]
  = Ok [ (SELLER, Utf8 [Some "Ana"; None; Some "Caro"]);
         (SALE_PRICE, Int64 [Some 100; Some 0; Some 300]) ].
Proof.
  apply (replaceNaNWithZero_idempotent
           [ (SELLER, Utf8 [Some "Ana"; None; Some "Caro"]);
             (SALE_PRICE, Int64 [Some 100; None; Some 300]) ]).
  - split; [repeat constructor; simpl; intuition discriminate
           | repeat constructor].
  - reflexivity.
  - reflexivity.
Defined.


(** ** Sums after the nulls are replaced *)

Section FilledSums.

Lemma total_take_filled (ix : list nat) (vs : list (option Z)) :
  total (drop_nulls
           (take_list ix
              (map (fun v => Some (match v with Some x => x | None => 0 end)) vs)))
  = total (drop_nulls (take_list ix vs)).
Proof.
  unfold take_list. induction ix as [|i ix IH]; [reflexivity|].
  cbn [map].
  destruct (Nat.lt_ge_cases i (List.length vs)) as [L|L].
  - rewrite (nth_indep _ None (Some 0)) by now rewrite length_map.
    rewrite (map_nth (fun v => Some match v with Some x => x | None => 0 end)
                     vs None i).
    destruct (nth i vs None) as [x|]; simpl; lia.
  - rewrite !nth_overflow by (rewrite ?length_map; lia). exact IH.
Qed.

Lemma sum_Z_take_filled (ix : list nat) (vs : list (option Z)) :
  sum_Z (take_list ix
           (map (fun v => Some (match v with Some x => x | None => 0 end)) vs))
  = sum_Z (take_list ix vs).
Proof. now rewrite !sum_Z_total, total_take_filled. Qed.

Lemma cols_zero_filled (df : DataFrame) (keys : list string) :
  (forall k s, In k keys -> get_column df k = Some s -> nothing_to_fill s) ->
  cols (map (fun c => (fst c, zero_filled (snd c))) df) keys = cols df keys.
Proof.
  induction keys as [|k keys IH]; intros N; [reflexivity|].
  simpl. rewrite IH by (intros k0 s0 I0 G0; apply (N k0 s0); [now right | exact G0]).
  unfold col. rewrite get_column_map_snd.
  destruct (get_column df k) as [s|] eqn:G; [|reflexivity].
  simpl. now rewrite (zero_filled_nothing s (N k s (or_introl eq_refl) G)).
Qed.

(** The grouped sums of a frame do not change when the nulls of its
    integer columns become 0, as long as no key changes. *)
Lemma group_by_agg_sum_zero_filled (E : Engine) (df : DataFrame)
      (keys : list string) (value alias : string) :
  (forall k s, In k keys -> get_column df k = Some s -> nothing_to_fill s) ->
  group_by_agg_sum E (map (fun c => (fst c, zero_filled (snd c))) df)
                   keys value alias
  = group_by_agg_sum E df keys value alias.
Proof.
  intros N. unfold group_by_agg_sum. rewrite (cols_zero_filled df keys N).
  destruct (cols df keys) as [ks|e]; [|reflexivity]. cbn [bind].
  unfold col. rewrite get_column_map_snd.
  destruct (get_column df value) as [v|]; [|reflexivity]. cbn [option_map bind].
  destruct v; try reflexivity. cbn [zero_filled int64_values bind].
  destruct (first_duplicate (keys ++ [alias])); [reflexivity|]. cbn [bind].
  rewrite (height_map_snd zero_filled df len_zero_filled).
  do 5 f_equal. apply map_ext. intros g. now rewrite sum_Z_take_filled.
Qed.

Lemma nothing_to_fill_select (mask : list bool) (s : Series) :
  nothing_to_fill s -> nothing_to_fill (map_series (fun A => select_mask mask) s).
Proof.
  destruct s; simpl; auto. revert mask.
  induction vs as [|v vs IH]; intros [|b mask] N; simpl; auto.
  rewrite null_count_cons in N. destruct b.
  - rewrite null_count_cons. destruct v; [|lia]. simpl. apply IH. lia.
  - apply IH. lia.
Qed.

Lemma filter_zero_filled (df : DataFrame) (mask : list bool) :
  filter (map (fun c => (fst c, zero_filled (snd c))) df) mask
  = map (fun c => (fst c, zero_filled (snd c))) (filter df mask).
Proof.
  unfold filter, map_columns. rewrite !map_map. apply map_ext.
  intros [n s]. simpl. f_equal. destruct s; simpl; auto.
  now rewrite select_mask_map.
Qed.

(** The window of the filled frame is the filled window. *)
Lemma filterLastNDays_zero_filled (df : DataFrame) (days : Z) (c : string) :
  (forall s, get_column df c = Some s -> nothing_to_fill s) ->
  filterLastNDaysFromMaxDate (map (fun c => (fst c, zero_filled (snd c))) df)
                             days c
  = match filterLastNDaysFromMaxDate df days c with
    | Ok w => Ok (map (fun c => (fst c, zero_filled (snd c))) w)
    | Raise e => Raise e
    end.
Proof.
  intros N. unfold filterLastNDaysFromMaxDate.
  rewrite (has_column_columns _ df c (columns_map_snd zero_filled df)).
  destruct (has_column df c); [|reflexivity]. cbn [negb].
  unfold col. rewrite get_column_map_snd.
  destruct (get_column df c) as [s|] eqn:G; [|reflexivity].
  cbn [option_map bind]. rewrite (zero_filled_nothing s (N s eq_refl)).
  destruct (max_item s) as [[| | | | |m]|e]; try reflexivity. cbn [bind].
  destruct (timedelta days) as [td|e]; [|reflexivity]. cbn [bind].
  destruct (datetime_sub m td) as [cut|e]; [|reflexivity]. cbn [bind].
  destruct (ge_datetime_mask s cut) as [mask|e]; [|reflexivity]. cbn [bind].
  now rewrite filter_zero_filled.
Qed.

End FilledSums.

(** X14.  Replacing the nulls of the integer columns by 0 first does not
    change the summary, provided the warehouse and the ticket column
    have nothing to replace (they are no integer columns, or have no
    null): the summary of the result of [replaceNaNWithZero] is the
    summary of the input, value or exception. *)
Theorem prepareSummaryStatistics_after_fill
    (E : Engine) (O : Float64Ops) (df out : DataFrame) :
  wf df -> plain (columns df) ->
  (forall s, get_column df WAREHOUSE = Some s -> nothing_to_fill s) ->
  (forall s, get_column df NO_MOV = Some s -> nothing_to_fill s) ->
  replaceNaNWithZero df = Ok out ->
  prepareSummaryStatistics E O out = prepareSummaryStatistics E O df.
Proof.
  intros [N _] _ NW NN R. rewrite (replaceNaNWithZero_run df N) in R. inv R.
  unfold prepareSummaryStatistics.
  rewrite group_by_agg_sum_zero_filled; [reflexivity|].
  intros k s [<-|[<-|[]]]; auto.
Qed.

(** One ticket of two rows, one of them without a price. *)
Lemma prepareSummaryStatistics_after_fill_witness :
  prepareSummaryStatistics Examples.engine_keep Examples.naive_ops
    [ (WAREHOUSE, Utf8 [Some "W1"; Some "W1"]);
      (NO_MOV, Utf8 [Some "T1"; Some "T1"]);
      (SALE_PRICE, Int64 [Some 100; Some 0]) ]
  = prepareSummaryStatistics Examples.engine_keep Examples.naive_ops
      [ (WAREHOUSE, Utf8 [Some "W1"; Some "W1"]);
        (NO_MOV, Utf8 [Some "T1"; Some "T1"]);
        (SALE_PRICE, Int64 [Some 100; None]) ].
Proof.
  apply prepareSummaryStatistics_after_fill.
  - split; [repeat constructor; simpl; intuition discriminate
           | repeat constructor].
  - reflexivity.
  - intros s H. inv H. exact I.
  - intros s H. inv H. exact I.
  - reflexivity.
Defined.

(** X15.  Nor does it change the ranking of the sellers, provided the
    date and the seller column have nothing to replace:
    [prepareTopSellers] on the result of [replaceNaNWithZero] is
    [prepareTopSellers] on the input, value or exception, for every
    limit, direction and window. *)
Theorem prepareTopSellers_after_fill
    (E : Engine) (df out : DataFrame) (limit : Z) (ascending : bool) (days : Z) :
  wf df -> plain (columns df) ->
  (forall s, get_column df DATE = Some s -> nothing_to_fill s) ->
  (forall s, get_column df SELLER = Some s -> nothing_to_fill s) ->
  replaceNaNWithZero df = Ok out ->
  prepareTopSellers E out limit ascending days
  = prepareTopSellers E df limit ascending days.
Proof.
  intros [N _] _ ND NS R. rewrite (replaceNaNWithZero_run df N) in R. inv R.
  unfold prepareTopSellers. rewrite (filterLastNDays_zero_filled df days DATE ND).
  destruct (filterLastNDaysFromMaxDate df days DATE) as [w|e] eqn:F;
    [|reflexivity].
  cbn [bind]. rewrite group_by_agg_sum_zero_filled; [reflexivity|].
  intros k s [<-|[]] G.
  destruct (filterLastNDays_Ok _ _ _ _ F) as [mask ->].
  unfold filter in G. rewrite get_column_map_columns in G.
  destruct (get_column df SELLER) as [s0|] eqn:G0; [|discriminate].
  inv G. apply nothing_to_fill_select. now apply NS.
Qed.

(** Three sellers on one day, one sale without a price. *)
Lemma prepareTopSellers_after_fill_witness :
  prepareTopSellers Examples.engine_keep
    [ (SELLER, Utf8 [Some "Ana"; Some "Beto"; Some "Caro"]);
      (DATE, Datetime [Some Examples.jan6; Some Examples.jan6; Some Examples.jan6]);
      (SALE_PRICE, Int64 [Some 100; Some 0; Some 300]) ] 20 false 30
  = prepareTopSellers Examples.engine_keep
      [ (SELLER, Utf8 [Some "Ana"; Some "Beto"; Some "Caro"]);
        (DATE, Datetime [Some Examples.jan6; Some Examples.jan6; Some Examples.jan6]);
        (SALE_PRICE, Int64 [Some 100; None; Some 300]) ] 20 false 30.
Proof.
  apply prepareTopSellers_after_fill.
  - split; [repeat constructor; simpl; intuition discriminate
           | repeat constructor].
  - reflexivity.
  - intros s H. inv H. exact I.
  - intros s H. inv H. exact I.
  - reflexivity.
Defined.


(** ** Sales by day *)

Section ByDay.

Lemma nth_map_Some {A B} (f : A -> B) (d : A) (l : list A) (i : nat) :
  (i < List.length l)%nat ->
  nth i (map (fun x => Some (f x)) l) None = Some (f (nth i l d)).
Proof.
  intros I. rewrite (nth_indep _ None (Some (f d))) by now rewrite length_map.
  apply (map_nth (fun x => Some (f x))).
Qed.

Lemma row_keys_days (w : DataFrame) (ts : list Z) :
  height w = List.length ts ->
  row_keys w [Date (map (option_map (fun us => us / us_per_day)) (map Some ts))]
  = map (fun t => [Some (CDate (day_of t))]) ts.
Proof.
  intros H. unfold row_keys, key_at. rewrite H. cbn [map cells].
  rewrite !map_map. cbn [option_map].
  rewrite <- (map_nth_seq (fun t => [Some (CDate (day_of t))]) 0 ts).
  apply map_ext_in. intros i I. apply in_seq in I. f_equal.
  now rewrite (nth_map_Some (fun t => CDate (t / us_per_day)) 0) by lia.
Qed.

Lemma keys_of_days (l : list Key) :
  Forall (fun k => exists d : Z, k = [Some (CDate d)]) l ->
  exists D, l = map (fun d => [Some (CDate d)]) D.
Proof.
  induction 1 as [|k l [d ->] _ [D ->]]; [now exists []|].
  now exists (d :: D).
Qed.

Lemma nth_day_keys (ts : list Z) (i : nat) :
  (i < List.length ts)%nat ->
  nth i (map (fun t => [Some (CDate (day_of t))]) ts) []
  = [Some (CDate (day_of (nth i ts 0)))].
Proof.
  intros I.
  rewrite (nth_indep _ [] [Some (CDate (day_of 0))]) by now rewrite length_map.
  apply (map_nth (fun t => [Some (CDate (day_of t))])).
Qed.

Lemma rows_of_key_day (ts : list Z) (d : Z) :
  rows_of_key (map (fun t => [Some (CDate (day_of t))]) ts) [Some (CDate d)]
  = rows_of_day (map Some ts) d.
Proof.
  unfold rows_of_key, rows_of_day. rewrite !length_map.
  apply filter_ext_in. intros i I. apply in_seq in I.
  rewrite nth_day_keys by lia.
  rewrite (nth_map_Some (fun t => t) 0) by lia.
  simpl. now rewrite andb_true_r.
Qed.

Lemma first_row_day (ts : list Z) (d : Z) :
  In d (map day_of ts) ->
  nth (List.hd 0%nat
         (rows_of_key (map (fun t => [Some (CDate (day_of t))]) ts)
                      [Some (CDate d)]))
      (map Some (map day_of ts)) None
  = Some d.
Proof.
  intros I.
  set (keys := map (fun t => [Some (CDate (day_of t))]) ts).
  assert (Ik : In [Some (CDate d)] keys).
  { apply in_map_iff in I as (t & <- & I). unfold keys.
    apply in_map_iff. now exists t. }
  pose proof (hd_rows_of_key keys _ Ik) as H.
  set (j := List.hd 0%nat (rows_of_key keys [Some (CDate d)])) in *.
  destruct (Nat.lt_ge_cases j (List.length ts)) as [L|L].
  - unfold keys in H. rewrite nth_day_keys in H by exact L.
    injection H as Hd.
    rewrite map_map, (nth_map_Some day_of 0) by exact L. now rewrite Hd.
  - rewrite nth_overflow in H by (unfold keys; now rewrite length_map).
    discriminate.
Qed.

(** The groups of the days: one row for each day that occurs, with the
    sum of its prices; the order is the engine's. *)
Lemma group_by_day_run (E : Engine) (w : DataFrame) (ts : list Z)
      (prices : list (option Z)) :
  height w = List.length ts ->
  get_column w SALE_PRICE = Some (Int64 prices) ->
  exists gd,
    group_by_keys_agg_sum E w [DATE]
      [Date (map (option_map (fun us => us / us_per_day)) (map Some ts))]
      SALE_PRICE TOTAL_SALES
    = Ok [ (DATE, Date (map Some gd));
           (TOTAL_SALES,
            Int64 (map Some (map (day_total (map Some ts) prices) gd))) ] /\
    NoDup gd /\
    (forall d, In d gd <-> In d (map day_of ts)) /\
    Permutation (List.concat (map (rows_of_day (map Some ts)) gd))
                (seq 0 (List.length ts)).
Proof.
  intros H GP. unfold group_by_keys_agg_sum.
  rewrite (col_get _ _ _ GP). cbn [bind int64_values].
  change (first_duplicate ([DATE] ++ [TOTAL_SALES])) with (@None string).
  cbn [bind].
  change (map (key_at [Date (map (option_map (fun us => us / us_per_day))
                                 (map Some ts))]) (seq 0 (height w)))
    with (row_keys w [Date (map (option_map (fun us => us / us_per_day))
                                (map Some ts))]).
  rewrite (row_keys_days w ts H).
  set (keys := map (fun t => [Some (CDate (day_of t))]) ts).
  rewrite group_rows_spec.
  destruct (keys_of_days (distinct_keys keys)) as [D ED].
  { apply Forall_forall. intros k I.
    apply (proj1 (In_distinct_keys _ _)) in I. unfold keys in I. apply in_map_iff in I as (t & <- & _). now eexists. }
  rewrite ED, map_map.
  match goal with
  | |- context [group_order E Group ?l] =>
      pose proof (group_order_perm E Group l) as P
  end.
  destruct (Permutation_map_inv _ _ P) as (gd & Eg & P'). rewrite Eg.
  clear P Eg. rename P' into P.
  assert (ND : NoDup D).
  { apply (NoDup_map_inv (fun d => [Some (CDate d)])). rewrite <- ED.
    apply NoDup_distinct_keys. }
  assert (InD : forall d, In d D <-> In d (map day_of ts)).
  { intros d. transitivity (In [Some (CDate d)] (distinct_keys keys)).
    - rewrite ED. split; [apply (in_map (fun d => [Some (CDate d)]))|].
      intros I. apply in_map_iff in I as (x & Ex & I). now inv Ex.
    - rewrite In_distinct_keys. unfold keys. rewrite !in_map_iff. split.
      + intros (t & Et & I). inv Et. now exists t.
      + intros (t & <- & I). now exists t. }
  assert (Ig : forall d, In d gd <-> In d (map day_of ts)).
  { intros d. rewrite <- InD. split; apply Permutation_in;
      [now apply Permutation_sym | exact P]. }
  assert (Pt : Permutation (List.concat (map (rows_of_day (map Some ts)) gd))
                           (seq 0 (List.length ts))).
  { pose proof (group_rows_partition keys) as Q.
    rewrite group_rows_spec, ED, !map_map in Q. cbn [snd] in Q.
    transitivity (List.concat (map (fun x => rows_of_key keys [Some (CDate x)]) D)).
    - apply Permutation_concat.
      rewrite (map_ext (fun x => rows_of_key keys [Some (CDate x)])
                       (rows_of_day (map Some ts)))
        by (intros d; apply rows_of_key_day).
      apply Permutation_map, Permutation_sym, P.
    - etransitivity; [exact Q|]. unfold keys. now rewrite length_map. }
  exists gd.
  split; [|split; [exact (Permutation_NoDup P ND) | split; [exact Ig | exact Pt]]].
  cbn [combine map app]. rewrite !map_map. cbn [fst snd].
  apply (f_equal (@Ok DataFrame)). f_equal.
  - f_equal. unfold take. cbn [map_series]. f_equal.
    unfold take_list. rewrite map_map.
    apply map_ext_in. intros d I.
    pose proof (first_row_day ts d (proj1 (Ig d) I)) as F.
    rewrite map_map in F. exact F.
  - do 3 f_equal. apply map_ext. intros d. unfold day_total.
    unfold keys. now rewrite rows_of_key_day.
Qed.


Lemma sorted_positions_Date (E : Engine) (gd : list Z) :
  Sorted Z.le
         (map (fun i => nth i gd 0)
              (sorted_positions E (Date (map Some gd)) false (List.length gd))).
Proof.
  apply (Sorted_map_in
           (fun i j => sort_leb false (nth i (cells (Date (map Some gd))) None)
                                (nth j (cells (Date (map Some gd))) None) = true)
           _ _ (fun i => (i < List.length gd)%nat)).
  - intros i j I J. cbn [cells]. rewrite map_map. cbn [option_map].
    rewrite !(nth_map_Some CDate 0) by assumption. simpl. apply Z.leb_le.
  - apply sorted_positions_lt.
  - unfold sorted_positions. apply stable_sort_Sorted.
    intros a b. apply sort_leb_total.
Qed.

Lemma Sorted_le_NoDup (l : list Z) :
  Sorted Z.le l -> NoDup l -> StronglySorted Z.lt l.
Proof.
  intros S N. apply Sorted_StronglySorted in S; [|intros x y z; apply Z.le_trans].
  induction S as [|a l S IH F]; [constructor|].
  inv N. constructor; [now apply IH|].
  apply Forall_forall. intros x I.
  pose proof (proj1 (Forall_forall _ _) F x I) as L.
  assert (x <> a) by (intros ->; contradiction). lia.
Qed.

(** Two strictly ascending lists with the same elements are one list. *)
Lemma StronglySorted_lt_unique (l1 l2 : list Z) :
  StronglySorted Z.lt l1 -> StronglySorted Z.lt l2 ->
  (forall d, In d l1 <-> In d l2) -> l1 = l2.
Proof.
  intros S1. revert l2. induction S1 as [|a l1 S1 IH F1]; intros l2 S2 I.
  - destruct l2 as [|b l2]; [reflexivity|].
    destruct (proj2 (I b) (or_introl eq_refl)).
  - destruct S2 as [|b l2 S2 F2].
    + destruct (proj1 (I a) (or_introl eq_refl)).
    + pose proof (proj1 (Forall_forall _ _) F1) as L1.
      pose proof (proj1 (Forall_forall _ _) F2) as L2.
      assert (a = b).
      { destruct (proj1 (I a) (or_introl eq_refl)) as [Eb|Ib]; [congruence|].
        destruct (proj2 (I b) (or_introl eq_refl)) as [Ea|Ia]; [congruence|].
        specialize (L1 _ Ia). specialize (L2 _ Ib). lia. }
      subst b. f_equal. apply IH; [exact S2|].
      intros d. split; intros Hd.
      * destruct (proj1 (I d) (or_intror Hd)) as [<-|]; [|assumption].
        specialize (L1 _ Hd). lia.
      * destruct (proj2 (I d) (or_intror Hd)) as [<-|]; [|assumption].
        specialize (L2 _ Hd). lia.
Qed.

(** Sorting the groups of the days by day: the order is that of the
    days, whatever order the groups came in. *)
Lemma sort_days_run (E : Engine) (gd : list Z) (T : Z -> Z) :
  NoDup gd ->
  exists sd,
    sort E [ (DATE, Date (map Some gd));
             (TOTAL_SALES, Int64 (map Some (map T gd))) ] DATE false
    = Ok [ (DATE, Date (map Some sd));
           (TOTAL_SALES, Int64 (map Some (map T sd))) ] /\
    StronglySorted Z.lt sd /\ Permutation sd gd.
Proof.
  intros N.
  exists (map (fun i => nth i gd 0)
              (sorted_positions E (Date (map Some gd)) false (List.length gd))).
  pose proof (sorted_positions_lt E (Date (map Some gd)) false (List.length gd))
    as L.
  assert (P : Permutation
                (map (fun i => nth i gd 0)
                     (sorted_positions E (Date (map Some gd)) false
                                       (List.length gd))) gd).
  { rewrite (Permutation_map _ (sorted_positions_perm E _ false _)).
    rewrite (map_nth_seq (fun x => x) 0 gd). now rewrite map_id. }
  split; [|split; [|exact P]].
  - rewrite (sort_run E [ (DATE, Date (map Some gd));
                          (TOTAL_SALES, Int64 (map Some (map T gd))) ]
                      DATE false (Date (map Some gd)) eq_refl).
    cbn [height len]. rewrite length_map.
    cbn [map fst snd take map_series].
    rewrite (take_list_map_Some 0 _ gd L).
    replace (map Some (map T gd)) with (map (option_map T) (map Some gd))
      by (now rewrite !map_map).
    rewrite take_list_map, (take_list_map_Some 0 _ gd L).
    now rewrite !map_map.
  - apply Sorted_le_NoDup; [apply sorted_positions_Date|].
    exact (Permutation_NoDup (Permutation_sym P) N).
Qed.

Lemma all_Some {A} (l : list (option A)) :
  (forall v, In v l -> v <> None) -> exists ts, l = map Some ts.
Proof.
  induction l as [|[x|] l IH]; intros N.
  - now exists [].
  - destruct IH as [ts ->]; [intros v I; apply N; now right|].
    now exists (x :: ts).
  - destruct (N None (or_introl eq_refl) eq_refl).
Qed.

(** The window has a timestamp in every row. *)
Lemma window_dates (df w : DataFrame) (days : Z) :
  wf df ->
  filterLastNDaysFromMaxDate df days DATE = Ok w ->
  exists ts,
    wf w /\ get_column w DATE = Some (Datetime (map Some ts)) /\
    height w = List.length ts.
Proof.
  intros W F.
  destruct (filterLastNDays_inv _ _ _ _ F) as (vs & m & G & _ & _ & _ & _ & ->).
  set (cut := m - days * us_per_day).
  assert (Ww : wf (filter df (ge_datetime vs cut))).
  { apply wf_filter; [exact W|]. unfold ge_datetime. rewrite length_map.
    exact (wf_column_len _ _ _ W G). }
  destruct (all_Some (select_mask (ge_datetime vs cut) vs)) as [ts Et].
  { intros v I. rewrite ge_datetime_map in I. apply In_select_mask in I as [_ A].
    now destruct v. }
  assert (Gw : get_column (filter df (ge_datetime vs cut)) DATE
               = Some (Datetime (map Some ts))).
  { unfold filter. rewrite get_column_map_columns, G. cbn. now rewrite Et. }
  exists ts. split; [exact Ww|]. split; [exact Gw|].
  pose proof (wf_column_len _ _ _ Ww Gw) as L. cbn in L.
  rewrite length_map in L. now symmetry.
Qed.

(** The table of sales by day of a window with an integer price
    column. *)
Lemma prepareSalesByDay_run (E : Engine) (df w : DataFrame) (days : Z)
      (ts : list Z) (prices : list (option Z)) :
  filterLastNDaysFromMaxDate df days DATE = Ok w ->
  get_column w DATE = Some (Datetime (map Some ts)) ->
  height w = List.length ts ->
  get_column w SALE_PRICE = Some (Int64 prices) ->
  exists sd,
    prepareSalesByDay E df days
    = Ok [ (DATE, map PyDate sd);
           (TOTAL_SALES,
            map (fun d => PyInt (day_total (map Some ts) prices d)) sd) ] /\
    StronglySorted Z.lt sd /\
    (forall d, In d sd <-> In d (map day_of ts)) /\
    Permutation (List.concat (map (rows_of_day (map Some ts)) sd))
                (seq 0 (List.length ts)).
Proof.
  intros F GD H GP.
  destruct (group_by_day_run E w ts prices H GP) as (gd & G & N & I & P).
  destruct (sort_days_run E gd (day_total (map Some ts) prices) N)
    as (sd & S & SS & Ps).
  exists sd. split; [|split; [exact SS | split]].
  - unfold prepareSalesByDay. rewrite F. cbn [bind].
    rewrite (col_get _ _ _ GD). cbn [bind dt_date].
    rewrite G. cbn [bind]. rewrite S. cbn [bind].
    cbn [to_dict map snd to_list sequence bind columns fst combine].
    unfold Pandas.DataFrame_of_dict. now rewrite !map_map.
  - intros d. rewrite <- I. split; apply Permutation_in;
      [exact Ps | now apply Permutation_sym].
  - rewrite <- P. apply Permutation_concat, Permutation_map, Ps.
Qed.

(** Without an integer price column in the window, the exception does
    not depend on the engine. *)
Lemma prepareSalesByDay_no_prices (E1 E2 : Engine) (df w : DataFrame) (days : Z)
      (ts : list Z) :
  filterLastNDaysFromMaxDate df days DATE = Ok w ->
  get_column w DATE = Some (Datetime (map Some ts)) ->
  (forall prices, get_column w SALE_PRICE <> Some (Int64 prices)) ->
  prepareSalesByDay E1 df days = prepareSalesByDay E2 df days /\
  exists e, prepareSalesByDay E1 df days = Raise e.
Proof.
  intros F GD NP. unfold prepareSalesByDay. rewrite F. cbn [bind].
  rewrite (col_get _ _ _ GD). cbn [bind dt_date].
  unfold group_by_keys_agg_sum, col.
  destruct (get_column w SALE_PRICE) as [[| prices | |]|];
    try (split; [reflexivity | eexists; reflexivity]).
  destruct (NP prices eq_refl).
Qed.

End ByDay.

(** X16.  The table of sales by day has one row for each day on which
    the window has a row, and no row for any other day: days without a
    sale are not filled in.  The days come strictly ascending, whatever
    order the groups or the sort of equal keys take, and beside each day
    stands the sum of the prices of the rows of the window that fall on
    it. *)
Theorem prepareSalesByDay_days
    (E : Engine) (df : DataFrame) (days : Z) (out : Pandas.PdDataFrame) :
  wf df ->
  prepareSalesByDay E df days = Ok out ->
  exists w ts prices sd,
    filterLastNDaysFromMaxDate df days DATE = Ok w /\
    get_column w DATE = Some (Datetime (map Some ts)) /\
    get_column w SALE_PRICE = Some (Int64 prices) /\
    out = [ (DATE, map PyDate sd);
            (TOTAL_SALES,
             map (fun d => PyInt (day_total (map Some ts) prices d)) sd) ] /\
    StronglySorted Z.lt sd /\
    (forall d, In d sd <-> exists t, In t ts /\ d = day_of t).
Proof.
  intros W R.
  destruct (filterLastNDaysFromMaxDate df days DATE) as [w|e] eqn:F.
  2:{ unfold prepareSalesByDay in R. rewrite F in R. discriminate. }
  destruct (window_dates _ _ _ W F) as (ts & Ww & GD & H).
  destruct (get_column w SALE_PRICE) as [[| prices | |]|] eqn:GP.
  2:{ destruct (prepareSalesByDay_run E df w days ts prices F GD H GP)
        as (sd & Rn & SS & I & _).
      rewrite Rn in R. inv R.
      exists w, ts, prices, sd.
      split; [reflexivity|]. split; [exact GD|]. split; [exact GP|].
      split; [reflexivity|]. split; [exact SS|].
      intros d0. rewrite I, in_map_iff. split.
      - intros (t & <- & It). now exists t.
      - intros (t & It & ->). now exists t. }
  all: destruct (prepareSalesByDay_no_prices E E df w days ts F GD) as (_ & e & Re);
    [rewrite GP; congruence | rewrite Re in R; discriminate].
Qed.

(** The three rows of 2024-01-05 and 2024-01-06, days 19727 and 19728
    of the epoch. *)
Lemma prepareSalesByDay_days_witness :
  exists w ts prices sd,
    filterLastNDaysFromMaxDate Examples.scenario 30 DATE = Ok w /\
    get_column w DATE = Some (Datetime (map Some ts)) /\
    get_column w SALE_PRICE = Some (Int64 prices) /\
    [ (DATE, [PyDate 19727; PyDate 19728]);
      (TOTAL_SALES, [PyInt 150; PyInt 200]) ]
    = [ (DATE, map PyDate sd);
        (TOTAL_SALES,
         map (fun d => PyInt (day_total (map Some ts) prices d)) sd) ] /\
    StronglySorted Z.lt sd /\
    (forall d, In d sd <-> exists t, In t ts /\ d = day_of t).
Proof.
  apply (prepareSalesByDay_days Examples.engine_rev_groups Examples.scenario 30).
  - split; [repeat constructor; simpl; intuition discriminate
           | repeat constructor].
  - reflexivity.
Defined.

(** X17.  The table of sales by day does not depend on the order in
    which polars produces the groups, nor on the order its sort leaves
    equal keys in: with any two engines [prepareSalesByDay] gives the
    same table, or raises the same exception. *)
Theorem prepareSalesByDay_engine_independent
    (E1 E2 : Engine) (df : DataFrame) (days : Z) :
  wf df ->
  prepareSalesByDay E1 df days = prepareSalesByDay E2 df days.
Proof.
  intros W.
  destruct (filterLastNDaysFromMaxDate df days DATE) as [w|e] eqn:F.
  2:{ unfold prepareSalesByDay. now rewrite F. }
  destruct (window_dates _ _ _ W F) as (ts & Ww & GD & H).
  destruct (get_column w SALE_PRICE) as [[| prices | |]|] eqn:GP.
  2:{ destruct (prepareSalesByDay_run E1 df w days ts prices F GD H GP)
        as (sd1 & R1 & S1 & I1 & _).
      destruct (prepareSalesByDay_run E2 df w days ts prices F GD H GP)
        as (sd2 & R2 & S2 & I2 & _).
      rewrite R1, R2.
      rewrite (StronglySorted_lt_unique sd1 sd2 S1 S2); [reflexivity|].
      intros d0. now rewrite I1, I2. }
  all: apply (prepareSalesByDay_no_prices E1 E2 df w days ts F GD);
    rewrite GP; congruence.
Qed.

(** The three-row table, with the groups as they come and reversed. *)
Lemma prepareSalesByDay_engine_independent_witness :
  prepareSalesByDay Examples.engine_keep Examples.scenario 30
  = prepareSalesByDay Examples.engine_rev_groups Examples.scenario 30.
Proof.
  apply prepareSalesByDay_engine_independent.
  split; [repeat constructor; simpl; intuition discriminate
         | repeat constructor].
Defined.

(** X18.  With a price column of integers, the totals of the days add
    up to the total of the window: the sum of the column of day totals
    is the sum of the price column of the rows the window keeps, both
    as polars sums of [Int64] columns (nulls skipped, wrapping at 64
    bits). *)
Theorem prepareSalesByDay_conserves_total
    (E : Engine) (df w : DataFrame) (days : Z) (prices : list (option Z))
    (out : Pandas.PdDataFrame) :
  wf df ->
  filterLastNDaysFromMaxDate df days DATE = Ok w ->
  get_column w SALE_PRICE = Some (Int64 prices) ->
  prepareSalesByDay E df days = Ok out ->
  exists totals,
    Pandas.lookup out TOTAL_SALES = Some (map PyInt totals) /\
    sum_Z (map Some totals) = sum_Z prices.
Proof.
  intros W F GP R.
  destruct (window_dates _ _ _ W F) as (ts & Ww & GD & H).
  destruct (prepareSalesByDay_run E df w days ts prices F GD H GP)
    as (sd & Rn & _ & _ & P).
  rewrite Rn in R. inv R.
  exists (map (day_total (map Some ts) prices) sd).
  split; [cbn; now rewrite map_map|].
  rewrite !sum_Z_total, drop_nulls_map_Some.
  unfold day_total.
  rewrite (map_ext _ (fun d => wrap64 (total (map (value_at prices)
                                                  (rows_of_day (map Some ts) d)))))
    by (intros d; now rewrite sum_Z_total, total_take_list).
  rewrite (wrap64_total_wrapped
             (fun d => total (map (value_at prices)
                                  (rows_of_day (map Some ts) d)))).
  f_equal.
  replace (map (fun d => total (map (value_at prices)
                                    (rows_of_day (map Some ts) d))) sd)
    with (map (fun l => total (map (value_at prices) l))
              (map (rows_of_day (map Some ts)) sd))
    by (now rewrite map_map).
  rewrite total_concat_map, <- total_value_at_seq.
  apply total_perm, Permutation_map.
  rewrite P.
  pose proof (wf_column_len _ _ _ Ww GP) as L. cbn in L.
  now rewrite L, H.
Qed.

(** The three-row table: 150 and 200 for 350. *)
Lemma prepareSalesByDay_conserves_total_witness :
  exists totals,
    Pandas.lookup [ (DATE, [PyDate 19727; PyDate 19728]);
                    (TOTAL_SALES, [PyInt 150; PyInt 200]) ] TOTAL_SALES
    = Some (map PyInt totals) /\
    sum_Z (map Some totals) = sum_Z [Some 100; Some 50; Some 200].
Proof.
  apply (prepareSalesByDay_conserves_total
           Examples.engine_keep Examples.scenario Examples.scenario 30).
  - split; [repeat constructor; simpl; intuition discriminate
           | repeat constructor].
  - reflexivity.
  - reflexivity.
  - reflexivity.
Defined.

(** X25.  What [prepareSalesByDay] raises on a frame of polars is what
    the window filter raises, or else, with the window there, the
    exception of polars for a price column that is absent or not
    numeric.  Once the window is returned and the prices are integers,
    the grouping, the sort and the conversion do not fail. *)
Theorem prepareSalesByDay_raises
    (E : Engine) (df : DataFrame) (days : Z) (e : exn) :
  wf df ->
  prepareSalesByDay E df days = Raise e ->
  filterLastNDaysFromMaxDate df days DATE = Raise e \/
  exists w,
    filterLastNDaysFromMaxDate df days DATE = Ok w /\
    ((get_column w SALE_PRICE = None /\ e = ColumnNotFoundError SALE_PRICE) \/
     (exists s, get_column w SALE_PRICE = Some s /\ is_numeric s = false /\
                exists msg, e = InvalidOperationError msg)).
Proof.
  intros W R.
  destruct (filterLastNDaysFromMaxDate df days DATE) as [w|e'] eqn:F.
  2:{ unfold prepareSalesByDay in R. rewrite F in R. cbn [bind] in R.
      left. now inv R. }
  right. exists w. split; [reflexivity|].
  destruct (window_dates _ _ _ W F) as (ts & Ww & GD & H).
  unfold prepareSalesByDay in R. rewrite F in R. cbn [bind] in R.
  rewrite (col_get _ _ _ GD) in R. cbn [bind dt_date] in R.
  destruct (get_column w SALE_PRICE) as [s|] eqn:GP.
  - right. exists s. split; [reflexivity|].
    destruct s as [vs|prices|vs|vs].
    2:{ destruct (group_by_day_run E w ts prices H GP) as (gd & G & N & _).
        rewrite G in R. cbn [bind] in R.
        destruct (sort_days_run E gd (day_total (map Some ts) prices) N)
          as (sd & S & _).
        rewrite S in R. discriminate R. }
    all: unfold group_by_keys_agg_sum, col in R; rewrite GP in R;
      cbn [bind int64_values] in R; inv R; split; [reflexivity | now eexists].
  - left. split; [reflexivity|].
    unfold group_by_keys_agg_sum, col in R. rewrite GP in R.
    cbn [bind] in R. now inv R.
Qed.

(** A table of one dated row without a price column. *)
Lemma prepareSalesByDay_raises_witness :
  filterLastNDaysFromMaxDate [(DATE, Datetime [Some Examples.jan6])] 30 DATE
  = Raise (ColumnNotFoundError SALE_PRICE) \/
  exists w,
    filterLastNDaysFromMaxDate [(DATE, Datetime [Some Examples.jan6])] 30 DATE
    = Ok w /\
    ((get_column w SALE_PRICE = None /\
      ColumnNotFoundError SALE_PRICE = ColumnNotFoundError SALE_PRICE) \/
     (exists s, get_column w SALE_PRICE = Some s /\ is_numeric s = false /\
                exists msg, ColumnNotFoundError SALE_PRICE
                            = InvalidOperationError msg)).
Proof.
  apply (prepareSalesByDay_raises Examples.engine_keep
           [(DATE, Datetime [Some Examples.jan6])] 30).
  - split; [repeat constructor; simpl; intuition discriminate
           | repeat constructor].
  - reflexivity.
Defined.


(** ** The ranking of the sellers, once more *)

Section Ranking.

(** The ranking over a window with a text seller column and an integer
    price column: the sellers and their totals before the cut, in the
    order of the sort. *)
Lemma prepareTopSellers_run (E : Engine) (df w : DataFrame)
      (limit : Z) (ascending : bool) (days : Z)
      (names : list (option string)) (prices : list (option Z)) :
  filterLastNDaysFromMaxDate df days DATE = Ok w ->
  get_column w SELLER = Some (Utf8 names) ->
  get_column w SALE_PRICE = Some (Int64 prices) ->
  exists sellers totals,
    prepareTopSellers E df limit ascending days
    = Ok [(SELLER, map (opt_value PyStr) (head_list limit sellers));
          (TOTAL_SALES, map PyInt (head_list limit totals))] /\
    List.length sellers = List.length totals /\
    Sorted (fun a b => if ascending then a <= b else b <= a) totals /\
    Permutation
      (rows [(SELLER, Utf8 sellers); (TOTAL_SALES, Int64 (map Some totals))])
      (map (fun k => k ++ [Some (CInt (group_total
                                         (row_keys w [Utf8 names]) prices k))])
           (distinct_keys (row_keys w [Utf8 names]))).
Proof.
  intros F FN FP.
  assert (K : cols w [SELLER] = Ok [Utf8 names])
    by (cbn [cols]; now rewrite (col_get _ _ _ FN)).
  pose proof (group_by_agg_sum_run E w [SELLER] SALE_PRICE
                TOTAL_SALES [Utf8 names] prices K FP eq_refl) as G.
  cbv zeta in G. cbn [combine map app take map_series] in G.
  set (groups := group_order E Group
                   (group_rows (row_keys w [Utf8 names]))) in G.
  set (firsts := map (fun g : Group => List.hd 0%nat (snd g)) groups) in G.
  set (sums := map (fun g : Group => sum_Z (take_list (snd g) prices)) groups).
  assert (SM : map (fun g : Group => Some (sum_Z (take_list (snd g) prices))) groups
               = map Some sums) by (unfold sums; now rewrite map_map).
  rewrite SM in G.
  set (agg := [(SELLER, Utf8 (take_list firsts names));
               (TOTAL_SALES, Int64 (map Some sums))]) in G.
  assert (H : height agg = List.length sums).
  { unfold agg, take_list, firsts, sums. simpl. now rewrite !length_map. }
  set (idx := sorted_positions E (Int64 (map Some sums)) (negb ascending)
                               (List.length sums)).
  set (sellers := take_list idx (take_list firsts names)).
  set (totals := map (fun i => nth i sums 0) idx).
  assert (EQ : [(SELLER, Utf8 sellers); (TOTAL_SALES, Int64 (map Some totals))]
               = map (fun c => (fst c, take idx (snd c))) agg).
  { unfold agg. cbn [map fst snd take map_series].
    unfold totals. rewrite (take_list_map_Some 0); [reflexivity|].
    apply sorted_positions_lt. }
  assert (S : sort E agg TOTAL_SALES (negb ascending)
              = Ok [(SELLER, Utf8 sellers); (TOTAL_SALES, Int64 (map Some totals))]).
  { rewrite (sort_run E agg TOTAL_SALES (negb ascending) (Int64 (map Some sums)))
      by reflexivity.
    rewrite H. fold idx. now rewrite EQ. }
  exists sellers, totals.
  split.
  { unfold prepareTopSellers. rewrite F. cbn [bind]. rewrite G. cbn [bind].
    rewrite S. cbn [bind]. unfold head, map_columns, to_dict.
    cbn [map fst snd map_series to_list sequence bind columns combine].
    rewrite head_list_map, map_map. reflexivity. }
  split.
  { unfold sellers, totals, take_list. now rewrite !length_map. }
  split.
  { unfold totals, idx.
    replace (fun a b : Z => if ascending then a <= b else b <= a)
      with (fun a b : Z => if negb ascending then b <= a else a <= b)
      by (now destruct ascending).
    apply sorted_positions_Int64. }
  rewrite <- (rows_group_by_agg_sum _ _ _ _ _ _ _ _ G K FP).
  rewrite EQ, rows_take by discriminate. rewrite rows_seq.
  apply Permutation_map. rewrite H. apply sorted_positions_perm.
Qed.

(** The rows of a frame of sellers and totals, as pairs. *)
Lemma rows_sellers_totals (s : list (option string)) (t : list Z) :
  List.length s = List.length t ->
  rows [(SELLER, Utf8 s); (TOTAL_SALES, Int64 (map Some t))]
  = map (fun p => [option_map CStr (fst p); Some (CInt (snd p))]) (combine s t).
Proof.
  intros L. unfold rows. cbn [height len].
  rewrite <- (map_nth_seq (fun p => [option_map CStr (fst p); Some (CInt (snd p))])
                          (None, 0) (combine s t)).
  rewrite length_combine, <- L, Nat.min_id.
  apply map_ext_in. intros i I. apply in_seq in I.
  rewrite combine_nth by exact L. unfold row_at. cbn [map snd fst cells].
  f_equal; [exact (map_nth (option_map CStr) s None i)|].
  f_equal. rewrite map_map. cbn [option_map].
  now rewrite (nth_map_Some CInt 0) by lia.
Qed.

Lemma seller_row_inj (p q : option string * Z) :
  [option_map CStr (fst p); Some (CInt (snd p))]
  = [option_map CStr (fst q); Some (CInt (snd q))] -> p = q.
Proof.
  destruct p as [[a|] x], q as [[b|] y]; simpl; intros H; inv H; reflexivity.
Qed.

Lemma map_inj {A B} (f : A -> B) (l1 l2 : list A) :
  (forall a b, f a = f b -> a = b) -> map f l1 = map f l2 -> l1 = l2.
Proof.
  intros I. revert l2. induction l1 as [|a l1 IH]; intros [|b l2] H;
    try discriminate; [reflexivity|].
  simpl in H. injection H as H1 H2. f_equal; auto.
Qed.

Lemma Permutation_map_inj {A B} (f : A -> B) (l1 l2 : list A) :
  (forall a b, f a = f b -> a = b) ->
  Permutation (map f l1) (map f l2) -> Permutation l1 l2.
Proof.
  intros I P. destruct (Permutation_map_inv _ _ P) as (l3 & E & P3).
  apply map_inj in E; [|exact I]. subst l3. now apply Permutation_sym.
Qed.

Lemma utf8_keys (names : list (option string)) (w : DataFrame) (k : Key) :
  In k (row_keys w [Utf8 names]) -> exists n, k = [option_map CStr n].
Proof.
  unfold row_keys, key_at. intros I. apply in_map_iff in I as (i & <- & _).
  cbn [map cells].
  destruct (Nat.lt_ge_cases i (List.length names)) as [L|L].
  - exists (nth i names None). f_equal.
    exact (map_nth (option_map CStr) names None i).
  - exists None. rewrite nth_overflow; [reflexivity | now rewrite length_map].
Qed.

(** The sellers and totals of the ranking, as pairs: every seller of
    the window once, with the seller's total. *)
Lemma prepareTopSellers_pairs (E : Engine) (df w : DataFrame)
      (limit : Z) (ascending : bool) (days : Z)
      (names : list (option string)) (prices : list (option Z)) :
  filterLastNDaysFromMaxDate df days DATE = Ok w ->
  get_column w SELLER = Some (Utf8 names) ->
  get_column w SALE_PRICE = Some (Int64 prices) ->
  exists sellers totals D,
    prepareTopSellers E df limit ascending days
    = Ok [(SELLER, map (opt_value PyStr) (head_list limit sellers));
          (TOTAL_SALES, map PyInt (head_list limit totals))] /\
    List.length sellers = List.length totals /\
    Sorted (fun a b => if ascending then a <= b else b <= a) totals /\
    distinct_keys (row_keys w [Utf8 names])
    = map (fun n => [option_map CStr n]) D /\
    NoDup D /\
    Permutation
      (combine sellers totals)
      (map (fun n => (n, group_total (row_keys w [Utf8 names]) prices
                                     [option_map CStr n])) D).
Proof.
  intros F FN FP.
  destruct (prepareTopSellers_run E df w limit ascending days names prices F FN FP)
    as (sellers & totals & R & L & S & P).
  assert (HD : exists D, distinct_keys (row_keys w [Utf8 names])
                         = map (fun n => [option_map CStr n]) D).
  { assert (Fk : Forall (fun k => exists n, k = [option_map CStr n])
                        (distinct_keys (row_keys w [Utf8 names]))).
    { apply Forall_forall. intros k I.
      apply (proj1 (In_distinct_keys _ _)) in I. now apply utf8_keys in I. }
    revert Fk. generalize (distinct_keys (row_keys w [Utf8 names])).
    induction 1 as [|k l [n ->] _ [D ->]]; [now exists []|].
    now exists (n :: D). }
  destruct HD as [D ED].
  exists sellers, totals, D.
  split; [exact R|]. split; [exact L|]. split; [exact S|].
  split; [exact ED|]. split.
  { apply (NoDup_map_inv (fun n => [option_map CStr n])). rewrite <- ED.
    apply NoDup_distinct_keys. }
  rewrite (rows_sellers_totals _ _ L), ED, map_map in P.
  apply (Permutation_map_inj
           (fun p => [option_map CStr (fst p); Some (CInt (snd p))]));
    [exact seller_row_inj|].
  now rewrite map_map.
Qed.

Lemma head_list_firstn {A} (n : Z) (l : list A) :
  exists m, head_list n l = firstn m l.
Proof. unfold head_list. destruct (0 <=? n); eexists; reflexivity. Qed.

Lemma In_firstn_In {A} (m : nat) (l : list A) (x : A) :
  In x (firstn m l) -> In x l.
Proof.
  revert m. induction l as [|a l IH]; intros [|m]; simpl; try tauto.
  intros [->|I]; [now left | right; now apply (IH m)].
Qed.

Lemma NoDup_firstn {A} (m : nat) (l : list A) : NoDup l -> NoDup (firstn m l).
Proof.
  revert m. induction l as [|a l IH]; intros [|m] N; simpl;
    try constructor; inv N.
  - intros I. apply H1. now apply In_firstn_In in I.
  - now apply IH.
Qed.

Lemma map_fst_combine_eq {A B} (l1 : list A) (l2 : list B) :
  List.length l1 = List.length l2 -> map fst (combine l1 l2) = l1.
Proof.
  revert l2. induction l1 as [|a l1 IH]; intros [|b l2] L; try discriminate;
    simpl; [reflexivity|]. f_equal. apply IH. now inv L.
Qed.

Lemma map_snd_combine_eq {A B} (l1 : list A) (l2 : list B) :
  List.length l1 = List.length l2 -> map snd (combine l1 l2) = l2.
Proof.
  revert l2. induction l1 as [|a l1 IH]; intros [|b l2] L; try discriminate;
    simpl; [reflexivity|]. f_equal. apply IH. now inv L.
Qed.

Lemma opt_value_PyStr_inj (a b : option string) :
  opt_value PyStr a = opt_value PyStr b -> a = b.
Proof. destruct a, b; simpl; intros H; inv H; reflexivity. Qed.

(** Sorted without repetition is strictly sorted. *)
Lemma Sorted_NoDup_strict {A} (R : A -> A -> Prop) (l : list A) :
  (forall x y z, R x y -> R y z -> R x z) ->
  Sorted R l -> NoDup l ->
  StronglySorted (fun a b => R a b /\ a <> b) l.
Proof.
  intros T S N. apply Sorted_StronglySorted in S; [|exact T].
  induction S as [|a l S IH F]; [constructor|].
  inv N. constructor; [now apply IH|].
  apply Forall_forall. intros x I.
  split; [exact (proj1 (Forall_forall _ _) F x I)|].
  intros ->. contradiction.
Qed.

(** A list has one arrangement that is strictly sorted. *)
Lemma StronglySorted_perm_unique {A} (R : A -> A -> Prop) (l1 l2 : list A) :
  (forall a b, R a b -> R b a -> False) ->
  Permutation l1 l2 -> StronglySorted R l1 -> StronglySorted R l2 -> l1 = l2.
Proof.
  intros AS. revert l2. induction l1 as [|a l1 IH]; intros l2 P S1 S2.
  - now apply Permutation_nil in P.
  - destruct l2 as [|b l2];
      [apply Permutation_sym, Permutation_nil in P; discriminate|].
    apply StronglySorted_inv in S1 as [S1 F1].
    apply StronglySorted_inv in S2 as [S2 F2].
    assert (a = b).
    { pose proof (Permutation_in a P (or_introl eq_refl)) as [Eb|Ib];
        [congruence|].
      pose proof (Permutation_in b (Permutation_sym P) (or_introl eq_refl))
        as [Ea|Ia]; [congruence|].
      exfalso. apply (AS a b).
      - exact (proj1 (Forall_forall _ _) F1 b Ia).
      - exact (proj1 (Forall_forall _ _) F2 a Ib). }
    subst b. f_equal. apply IH; [|exact S1 | exact S2].
    now apply Permutation_cons_inv in P.
Qed.

Lemma StronglySorted_combine {A} (R : Z -> Z -> Prop) (s : list A) (t : list Z) :
  List.length s = List.length t ->
  StronglySorted R t ->
  StronglySorted (fun p q => R (snd p) (snd q)) (combine s t).
Proof.
  revert t. induction s as [|a s IH]; intros [|b t] L S; try discriminate;
    simpl; [constructor|].
  apply StronglySorted_inv in S as [S F]. constructor.
  - apply IH; [now inv L | exact S].
  - apply Forall_forall. intros [x y] I. apply in_combine_r in I. simpl.
    exact (proj1 (Forall_forall _ _) F y I).
Qed.

Lemma StronglySorted_rev {A} (R : A -> A -> Prop) (l : list A) :
  StronglySorted R l -> StronglySorted (fun a b => R b a) (rev l).
Proof.
  induction 1 as [|a l S IH F]; simpl; [constructor|].
  clear S. revert IH. generalize (rev_involutive l).
  assert (Fr : Forall (R a) (rev l)).
  { apply Forall_forall. intros x I. apply in_rev in I.
    exact (proj1 (Forall_forall _ _) F x I). }
  clear F. intros _. induction (rev l) as [|x r IHr]; intros S.
  - repeat constructor.
  - apply StronglySorted_inv in S as [S Fx].
    apply Forall_cons_iff in Fr as [Rx Fr]. simpl. constructor.
    + now apply IHr.
    + apply Forall_app. split; [exact Fx | now constructor].
Qed.

(** With totals that differ from seller to seller, the order of the
    ranking before the cut is fixed by the window. *)
Lemma ranking_unique (asc : bool) (s1 s2 : list (option string)) (t1 t2 : list Z)
      (C : list (option string * Z)) :
  NoDup (map snd C) ->
  List.length s1 = List.length t1 -> List.length s2 = List.length t2 ->
  Sorted (fun a b => if asc then a <= b else b <= a) t1 ->
  Sorted (fun a b => if asc then a <= b else b <= a) t2 ->
  Permutation (combine s1 t1) C -> Permutation (combine s2 t2) C ->
  s1 = s2 /\ t1 = t2.
Proof.
  intros N L1 L2 S1 S2 P1 P2.
  set (R := fun a b : Z => if asc then a <= b else b <= a) in *.
  assert (T : forall x y z, R x y -> R y z -> R x z)
    by (unfold R; destruct asc; intros; lia).
  assert (N1 : NoDup t1).
  { rewrite <- (map_snd_combine_eq s1 t1 L1).
    apply (Permutation_NoDup (Permutation_map snd (Permutation_sym P1)) N). }
  assert (N2 : NoDup t2).
  { rewrite <- (map_snd_combine_eq s2 t2 L2).
    apply (Permutation_NoDup (Permutation_map snd (Permutation_sym P2)) N). }
  assert (E : combine s1 t1 = combine s2 t2).
  { apply (StronglySorted_perm_unique
             (fun p q : option string * Z =>
                R (snd p) (snd q) /\ snd p <> snd q)).
    - unfold R. intros a b [A1 A2] [B1 B2]. destruct asc; lia.
    - now rewrite P1, P2.
    - apply (StronglySorted_combine (fun a b => R a b /\ a <> b)); [exact L1|].
      now apply Sorted_NoDup_strict.
    - apply (StronglySorted_combine (fun a b => R a b /\ a <> b)); [exact L2|].
      now apply Sorted_NoDup_strict. }
  split.
  - now rewrite <- (map_fst_combine_eq s1 t1 L1), E, map_fst_combine_eq.
  - now rewrite <- (map_snd_combine_eq s1 t1 L1), E, map_snd_combine_eq.
Qed.


Lemma combine_rev {A B} (l1 : list A) (l2 : list B) :
  List.length l1 = List.length l2 ->
  combine (rev l1) (rev l2) = rev (combine l1 l2).
Proof.
  revert l2. induction l1 as [|a l1 IH]; intros [|b l2] L; try discriminate;
    [reflexivity|].
  simpl. rewrite <- IH by now inv L.
  apply combine_snoc. rewrite !length_rev. now inv L.
Qed.

Lemma Forall_firstn {A} (P : A -> Prop) (m : nat) (l : list A) :
  Forall P l -> Forall P (firstn m l).
Proof.
  intros F. apply Forall_forall. intros x I. apply In_firstn_In in I.
  exact (proj1 (Forall_forall _ _) F x I).
Qed.

Lemma NoDup_map_inj {A B} (f : A -> B) (l : list A) :
  (forall a b, f a = f b -> a = b) -> NoDup l -> NoDup (map f l).
Proof.
  intros I. induction 1 as [|a l N _ IH]; simpl; constructor; [|exact IH].
  intros H. apply in_map_iff in H as (x & E & H). apply I in E. now subst.
Qed.

(** The cut takes the same number of sellers and of totals. *)
Lemma head_list_same {A B} (n : Z) (l1 : list A) (l2 : list B) :
  List.length l1 = List.length l2 ->
  exists m, head_list n l1 = firstn m l1 /\ head_list n l2 = firstn m l2.
Proof.
  intros L. unfold head_list. rewrite L.
  destruct (0 <=? n); eexists; split; reflexivity.
Qed.

Lemma Sorted_rev_ge (t : list Z) :
  Sorted (fun a b => b <= a) t -> Sorted (fun a b => a <= b) (rev t).
Proof.
  intros S. apply Sorted_StronglySorted in S; [|intros x y z; lia].
  apply StronglySorted_Sorted.
  exact (StronglySorted_rev (fun a b => b <= a) t S).
Qed.

Lemma window_sellers (w : DataFrame) (names : list (option string)) (n : option string) :
  wf w -> get_column w SELLER = Some (Utf8 names) ->
  In [option_map CStr n] (row_keys w [Utf8 names]) -> In n names.
Proof.
  intros W G I. unfold row_keys, key_at in I.
  apply in_map_iff in I as (i & E & I). apply in_seq in I.
  pose proof (wf_column_len _ _ _ W G) as L. cbn in L.
  cbn [map cells] in E. injection E as E.
  change (@None Cell) with (option_map CStr None) in E.
  rewrite (map_nth (option_map CStr) names None i) in E.
  assert (nth i names None = n).
  { destruct (nth i names None), n; simpl in E; inv E; reflexivity. }
  subst n. apply nth_In. lia.
Qed.

End Ranking.

(** X19.  In the table [prepareTopSellers] returns no seller comes
    twice, rows without a seller counting as one seller; every seller in
    it is a seller of a row of the window, and the total beside a seller
    is the sum of the prices of that seller's rows in the window. *)
Theorem prepareTopSellers_sellers_once
    (E : Engine) (df w : DataFrame) (limit : Z) (ascending : bool) (days : Z)
    (names : list (option string)) (prices : list (option Z)) :
  wf df ->
  filterLastNDaysFromMaxDate df days DATE = Ok w ->
  get_column w SELLER = Some (Utf8 names) ->
  get_column w SALE_PRICE = Some (Int64 prices) ->
  exists sellers totals,
    prepareTopSellers E df limit ascending days
    = Ok [(SELLER, map (opt_value PyStr) sellers);
          (TOTAL_SALES, map PyInt totals)] /\
    List.length sellers = List.length totals /\
    NoDup (map (opt_value PyStr) sellers) /\
    Forall (fun p => In (fst p) names /\
                     snd p = group_total (row_keys w [Utf8 names]) prices
                                         [option_map CStr (fst p)])
           (combine sellers totals).
Proof.
  intros W F GN GP.
  destruct (window_dates _ _ _ W F) as (ts & Ww & _ & _).
  destruct (prepareTopSellers_pairs E df w limit ascending days names prices F GN GP)
    as (s & t & D & R & L & _ & ED & ND & P).
  destruct (head_list_same limit s t L) as (m & Hs & Ht).
  exists (head_list limit s), (head_list limit t).
  split; [exact R|]. rewrite Hs, Ht.
  split; [rewrite !length_firstn; lia|].
  split.
  - apply NoDup_map_inj; [exact opt_value_PyStr_inj|]. apply NoDup_firstn.
    rewrite <- (map_fst_combine_eq s t L).
    apply (Permutation_NoDup (Permutation_map fst (Permutation_sym P))).
    rewrite map_map. cbn [fst]. now rewrite map_id.
  - rewrite <- combine_firstn. apply Forall_firstn.
    apply (Permutation_Forall (Permutation_sym P)).
    apply Forall_forall. intros p I. apply in_map_iff in I as (n & <- & I).
    cbn [fst snd]. split; [|reflexivity].
    apply (window_sellers w names n Ww GN).
    apply In_distinct_keys. rewrite ED.
    apply (in_map (fun n => [option_map CStr n])), I.
Qed.

(** The two best of the three sellers. *)
Lemma prepareTopSellers_sellers_once_witness :
  exists sellers totals,
    prepareTopSellers Examples.engine_keep Examples.sellers 2 false 30
    = Ok [(SELLER, map (opt_value PyStr) sellers);
          (TOTAL_SALES, map PyInt totals)] /\
    List.length sellers = List.length totals /\
    NoDup (map (opt_value PyStr) sellers) /\
    Forall (fun p => In (fst p) [Some "Ana"; Some "Beto"; Some "Caro"] /\
                     snd p = group_total
                               (row_keys Examples.sellers
                                         [Utf8 [Some "Ana"; Some "Beto"; Some "Caro"]])
                               [Some 100; Some 100; Some 300]
                               [option_map CStr (fst p)])
           (combine sellers totals).
Proof.
  apply (prepareTopSellers_sellers_once
           Examples.engine_keep Examples.sellers Examples.sellers 2 false 30).
  - split; [repeat constructor; simpl; intuition discriminate
           | repeat constructor].
  - reflexivity.
  - reflexivity.
  - reflexivity.
Defined.

(** X20.  When no two sellers of the window have the same total, the
    ranking does not depend on the order in which polars produces the
    groups, nor on the order its sort leaves equal keys in: any two
    engines give the same table.  (With equal totals they need not.) *)
Theorem prepareTopSellers_engine_independent
    (E1 E2 : Engine) (df w : DataFrame) (limit : Z) (ascending : bool) (days : Z)
    (names : list (option string)) (prices : list (option Z)) :
  filterLastNDaysFromMaxDate df days DATE = Ok w ->
  get_column w SELLER = Some (Utf8 names) ->
  get_column w SALE_PRICE = Some (Int64 prices) ->
  NoDup (map (group_total (row_keys w [Utf8 names]) prices)
             (distinct_keys (row_keys w [Utf8 names]))) ->
  prepareTopSellers E1 df limit ascending days
  = prepareTopSellers E2 df limit ascending days.
Proof.
  intros F GN GP N.
  destruct (prepareTopSellers_pairs E1 df w limit ascending days names prices F GN GP)
    as (s1 & t1 & D1 & R1 & L1 & S1 & ED1 & _ & P1).
  destruct (prepareTopSellers_pairs E2 df w limit ascending days names prices F GN GP)
    as (s2 & t2 & D2 & R2 & L2 & S2 & ED2 & _ & P2).
  assert (D2 = D1).
  { apply (map_inj (fun n => [option_map CStr n])); [|congruence].
    intros [a|] [b|] H; inv H; reflexivity. }
  subst D2.
  assert (NC : NoDup (map snd
                        (map (fun n => (n, group_total (row_keys w [Utf8 names])
                                                       prices [option_map CStr n]))
                             D1))).
  { rewrite map_map. cbn [snd]. rewrite ED1, map_map in N. exact N. }
  destruct (ranking_unique ascending s1 s2 t1 t2 _ NC L1 L2 S1 S2 P1 P2)
    as [-> ->].
  now rewrite R1, R2.
Qed.

(** Two sellers with the totals 300 and 50, with the groups and the ties
    as they come and with the groups reversed. *)
Lemma prepareTopSellers_engine_independent_witness :
  prepareTopSellers Examples.engine_keep
    [ (SELLER, Utf8 [Some "Ana"; Some "Beto"; Some "Ana"]);
      (DATE, Datetime [Some Examples.jan6; Some Examples.jan6; Some Examples.jan6]);
      (SALE_PRICE, Int64 [Some 100; Some 50; Some 200]) ] 20 false 30
  = prepareTopSellers Examples.engine_rev_groups
      [ (SELLER, Utf8 [Some "Ana"; Some "Beto"; Some "Ana"]);
        (DATE, Datetime [Some Examples.jan6; Some Examples.jan6; Some Examples.jan6]);
        (SALE_PRICE, Int64 [Some 100; Some 50; Some 200]) ] 20 false 30.
Proof.
  apply (prepareTopSellers_engine_independent
           Examples.engine_keep Examples.engine_rev_groups _
           [ (SELLER, Utf8 [Some "Ana"; Some "Beto"; Some "Ana"]);
             (DATE, Datetime [Some Examples.jan6; Some Examples.jan6;
                              Some Examples.jan6]);
             (SALE_PRICE, Int64 [Some 100; Some 50; Some 200]) ]
           20 false 30
           [Some "Ana"; Some "Beto"; Some "Ana"] [Some 100; Some 50; Some 200]).
  - reflexivity.
  - reflexivity.
  - reflexivity.
  - change (NoDup [300; 50]).
    constructor; [simpl; intros [H|[]]; discriminate|].
    constructor; [simpl; tauto | constructor].
Defined.

(** X21.  When no two sellers of the window have the same total and the
    limit is not below the number of sellers, the table of the worst
    sellers ([ascending = True]) is the table of the best sellers
    ([ascending = False]) read from the bottom. *)
Theorem prepareTopSellers_worst_is_best_reversed
    (E1 E2 : Engine) (df w : DataFrame) (limit : Z) (days : Z)
    (names : list (option string)) (prices : list (option Z)) :
  filterLastNDaysFromMaxDate df days DATE = Ok w ->
  get_column w SELLER = Some (Utf8 names) ->
  get_column w SALE_PRICE = Some (Int64 prices) ->
  NoDup (map (group_total (row_keys w [Utf8 names]) prices)
             (distinct_keys (row_keys w [Utf8 names]))) ->
  Z.of_nat (List.length (distinct_keys (row_keys w [Utf8 names]))) <= limit ->
  exists sellers totals,
    prepareTopSellers E1 df limit false days
    = Ok [(SELLER, sellers); (TOTAL_SALES, totals)] /\
    prepareTopSellers E2 df limit true days
    = Ok [(SELLER, rev sellers); (TOTAL_SALES, rev totals)].
Proof.
  intros F GN GP N Lim.
  destruct (prepareTopSellers_pairs E1 df w limit false days names prices F GN GP)
    as (s1 & t1 & D1 & R1 & L1 & S1 & ED1 & _ & P1).
  destruct (prepareTopSellers_pairs E2 df w limit true days names prices F GN GP)
    as (s2 & t2 & D2 & R2 & L2 & S2 & ED2 & _ & P2).
  assert (D2 = D1).
  { apply (map_inj (fun n => [option_map CStr n])); [|congruence].
    intros [a|] [b|] H; inv H; reflexivity. }
  subst D2.
  assert (Len : forall s t, List.length s = List.length t ->
                Permutation (combine s t)
                  (map (fun n => (n, group_total (row_keys w [Utf8 names]) prices
                                                 [option_map CStr n])) D1) ->
                Z.of_nat (List.length s) <= limit /\ Z.of_nat (List.length t) <= limit).
  { intros s t L P. apply Permutation_length in P.
    rewrite length_combine, <- L, Nat.min_id, length_map in P.
    rewrite ED1, length_map in Lim. lia. }
  destruct (Len s1 t1 L1 P1) as [A1 B1]. destruct (Len s2 t2 L2 P2) as [A2 B2].
  rewrite !head_list_all in R1, R2 by assumption.
  assert (NC : NoDup (map snd
                        (map (fun n => (n, group_total (row_keys w [Utf8 names])
                                                       prices [option_map CStr n]))
                             D1))).
  { rewrite map_map. cbn [snd]. rewrite ED1, map_map in N. exact N. }
  assert (Lr : List.length (rev s1) = List.length (rev t1))
    by now rewrite !length_rev.
  assert (Pr : Permutation (combine (rev s1) (rev t1))
                 (map (fun n => (n, group_total (row_keys w [Utf8 names]) prices
                                                [option_map CStr n])) D1)).
  { rewrite (combine_rev s1 t1 L1), <- Permutation_rev. exact P1. }
  destruct (ranking_unique true s2 (rev s1) t2 (rev t1) _ NC L2 Lr S2
                           (Sorted_rev_ge t1 S1) P2 Pr) as [Es Et].
  eexists. eexists. split; [exact R1|].
  rewrite R2, Es, Et, !map_rev. reflexivity.
Qed.

(** Two sellers with the totals 300 and 50. *)
Lemma prepareTopSellers_worst_is_best_reversed_witness :
  exists sellers totals,
    prepareTopSellers Examples.engine_keep
      [ (SELLER, Utf8 [Some "Ana"; Some "Beto"; Some "Ana"]);
        (DATE, Datetime [Some Examples.jan6; Some Examples.jan6; Some Examples.jan6]);
        (SALE_PRICE, Int64 [Some 100; Some 50; Some 200]) ] 20 false 30
    = Ok [(SELLER, sellers); (TOTAL_SALES, totals)] /\
    prepareTopSellers Examples.engine_rev_ties
      [ (SELLER, Utf8 [Some "Ana"; Some "Beto"; Some "Ana"]);
        (DATE, Datetime [Some Examples.jan6; Some Examples.jan6; Some Examples.jan6]);
        (SALE_PRICE, Int64 [Some 100; Some 50; Some 200]) ] 20 true 30
    = Ok [(SELLER, rev sellers); (TOTAL_SALES, rev totals)].
Proof.
  apply (prepareTopSellers_worst_is_best_reversed
           Examples.engine_keep Examples.engine_rev_ties _
           [ (SELLER, Utf8 [Some "Ana"; Some "Beto"; Some "Ana"]);
             (DATE, Datetime [Some Examples.jan6; Some Examples.jan6;
                              Some Examples.jan6]);
             (SALE_PRICE, Int64 [Some 100; Some 50; Some 200]) ]
           20 30
           [Some "Ana"; Some "Beto"; Some "Ana"] [Some 100; Some 50; Some 200]).
  - reflexivity.
  - reflexivity.
  - reflexivity.
  - change (NoDup [300; 50]).
    constructor; [simpl; intros [H|[]]; discriminate|].
    constructor; [simpl; tauto | constructor].
  - change (Z.of_nat 2 <= 20). lia.
Defined.


(** ** The list of files *)

Section Files.

Lemma lstrip_nil (s : str) : lstrip s = [] <-> forallb isspace s = true.
Proof.
  induction s as [|c s IH]; simpl; [tauto|].
  destruct (isspace c); simpl; [exact IH|]. split; discriminate.
Qed.

Lemma lstrip_all (s : str) :
  forallb isspace (lstrip s) = true <-> forallb isspace s = true.
Proof.
  induction s as [|c s IH]; simpl; [tauto|].
  destruct (isspace c) eqn:C; simpl; [exact IH|]. now rewrite C.
Qed.

Lemma forallb_rev {A} (p : A -> bool) (l : list A) :
  forallb p (rev l) = forallb p l.
Proof.
  induction l as [|a l IH]; simpl; [reflexivity|].
  rewrite forallb_app, IH. simpl. rewrite andb_true_r. apply andb_comm.
Qed.

Lemma strip_nil (s : str) : strip s = [] <-> forallb isspace s = true.
Proof.
  unfold strip, rstrip. rewrite <- lstrip_all, <- (forallb_rev isspace (lstrip s)).
  rewrite <- lstrip_nil. split.
  - intros H. apply (f_equal (@rev N)) in H. now rewrite rev_involutive in H.
  - intros H. now rewrite H.
Qed.

End Files.

(** X22.  [validateFiles] returns [False] exactly when some entry of the
    list is empty or has nothing but whitespace in it, and [True]
    otherwise; a path of a file that does not exist is as good as any
    other text. *)
Theorem validateFiles_blank (fileList : list str) :
  (snd (validateFiles fileList) = false <->
   exists filePath, In filePath fileList /\ forallb isspace filePath = true) /\
  (snd (validateFiles fileList) = true <->
   forall filePath, In filePath fileList ->
                    exists c, In c filePath /\ isspace c = false).
Proof.
  assert (B : snd (validateFiles fileList) = false <->
              exists filePath, In filePath fileList /\
                               forallb isspace filePath = true).
  { unfold validateFiles.
    destruct (List.filter _ fileList) as [|p l] eqn:F; simpl.
    - split; [discriminate|]. intros (p & I & A). exfalso.
      assert (H : In p (List.filter
                          (fun filePath => match strip filePath with
                                           | [] => true
                                           | _ :: _ => false
                                           end) fileList)).
      { apply filter_In. split; [exact I|].
        now rewrite (proj2 (strip_nil p) A). }
      rewrite F in H. destruct H.
    - split; [intros _|reflexivity]. exists p.
      assert (H : In p (p :: l)) by now left.
      rewrite <- F in H. apply filter_In in H as [I S]. split; [exact I|].
      apply strip_nil. now destruct (strip p). }
  split; [exact B|].
  destruct (snd (validateFiles fileList)).
  - split; [intros _|reflexivity]. intros p I.
    destruct (forallb isspace p) eqn:A.
    + assert (H : true = false) by (apply B; now exists p). discriminate.
    + assert (E : existsb (fun c => negb (isspace c)) p = true).
      { clear I. induction p as [|c p IH]; simpl in *; [discriminate|].
        destruct (isspace c); simpl in *; auto. }
      apply existsb_exists in E as (c & Ic & Nc). exists c. split; [exact Ic|].
      now apply negb_true_iff.
  - split; [discriminate|]. intros H. exfalso.
    destruct (proj1 B eq_refl) as (p & I & A).
    destruct (H p I) as (c & Ic & Nc).
    rewrite forallb_forall in A. rewrite (A c Ic) in Nc. discriminate.
Qed.

(** ** The merged frame *)

Section Merging.

Variable W : World.

Lemma readAll_columns (directory : string) (cs : list string)
      (sheetName : option string) (files : list string) :
  cs <> [] ->
  Forall (fun df => columns df = cs)
         (readAll W directory (Some cs) sheetName files).
Proof.
  intros N. induction files as [|f files IH]; simpl; [constructor|].
  destruct (readAndSelect W directory (Some cs) sheetName f) as [df|e] eqn:R;
    [|exact IH].
  constructor; [|exact IH].
  unfold readAndSelect in R.
  destruct (readExcelToDataFrame W (path_join W directory f) sheetName)
    as [d|e0]; cbn [obind] in R; [|discriminate R].
  destruct cs as [|c cs]; [congruence|].
  destruct (selectColumns (repr_str W) d (c :: cs)) as [out|e0] eqn:S;
    cbn [lift] in R; [|discriminate R].
  inv R.
  destruct (selectColumns_Ok _ _ _ _ S) as (_ & _ & ss & F & ->).
  apply columns_combine. symmetry. exact (Forall2_length F).
Qed.

(** Frames with the same column names stack, or differ in a type. *)
Lemma unionDataFrames_same_columns (cs : list string) (dfs : list DataFrame) :
  cs <> [] -> dfs <> [] ->
  Forall (fun df => columns df = cs) dfs ->
  match unionDataFrames dfs with
  | Return out => columns out = cs
  | Throw e => exists msg, e = Pipeline (SchemaError msg)
  end.
Proof.
  intros Nc N F. destruct dfs as [|d rest]; [congruence|].
  apply Forall_cons_iff in F as [Cd F]. simpl.
  assert (Nd : d <> []) by (intros ->; now apply Nc).
  destruct (vstack_all d rest) as [out|e] eqn:V.
  - destruct (vstack_all_Return _ _ _ Nd V) as [S _].
    apply (f_equal (map fst)) in S. unfold schema in S.
    rewrite !map_map in S. cbn [fst] in S.
    transitivity (columns d); [exact S | exact Cd].
  - destruct (vstack_all_Throw _ _ _ V) as (x & I & [[C _]|[_ M]]);
      [|exact M].
    exfalso. apply C.
    rewrite (proj1 (Forall_forall _ _) F x I). now symmetry.
Qed.

End Merging.




(** ** The data of the distributions *)

Section Distributions.

(** A key of two columns with the columns the other way round. *)
Lemma swapped_key_eqb (a b c d : option Cell) :
  key_eqb [b; a] [d; c] = key_eqb [a; b] [c; d].
Proof.
  simpl. rewrite !andb_true_r. apply andb_comm.
Qed.

Lemma row_keys_pair (df : DataFrame) (s1 s2 : Series) :
  row_keys df [s1; s2]
  = map (fun i => [nth i (cells s1) None; nth i (cells s2) None])
        (seq 0 (height df)).
Proof. reflexivity. Qed.

(** Two lists of groups with the same rows, under keys that are each
    other's with the columns swapped. *)
Lemma group_insert_swapped (f g : nat -> option Cell) (i n : nat)
      (gs1 gs2 : list Group) :
  Forall2 (fun a b : Group =>
             snd a = snd b /\
             exists j, fst a = [g j; f j] /\ fst b = [f j; g j]) gs1 gs2 ->
  Forall2 (fun a b : Group =>
             snd a = snd b /\
             exists j, fst a = [g j; f j] /\ fst b = [f j; g j])
          (group_insert [g i; f i] n gs1) (group_insert [f i; g i] n gs2).
Proof.
  induction 1 as [|[k1 r1] [k2 r2] gs1 gs2 [E (j & K1 & K2)] F IHF];
    cbn [group_insert].
  - constructor; [|constructor]. split; [reflexivity|]. now exists i.
  - simpl in E, K1, K2. subst k1 k2 r2.
    rewrite (swapped_key_eqb (f i) (g i) (f j) (g j)).
    destruct (key_eqb [f i; g i] [f j; g j]).
    + constructor; [|exact F]. split; [reflexivity|]. now exists j.
    + constructor; [|exact IHF]. split; [reflexivity|]. now exists j.
Qed.

Lemma fold_group_insert_swapped (f g : nat -> option Cell)
      (ix l : list nat) (gs1 gs2 : list Group) :
  Forall2 (fun a b : Group =>
             snd a = snd b /\
             exists j, fst a = [g j; f j] /\ fst b = [f j; g j]) gs1 gs2 ->
  map snd (fold_left (fun gs ik => group_insert (snd ik) (fst ik) gs)
                     (combine ix (map (fun i => [g i; f i]) l)) gs1)
  = map snd (fold_left (fun gs ik => group_insert (snd ik) (fst ik) gs)
                       (combine ix (map (fun i => [f i; g i]) l)) gs2).
Proof.
  revert l gs1 gs2. induction ix as [|n ix IH]; intros [|i l] gs1 gs2 F;
    cbn [map combine fold_left fst snd];
    try (induction F as [|a b gs1 gs2 [E _] _ IHF]; simpl;
         [reflexivity | now rewrite E, IHF]).
  apply IH. now apply group_insert_swapped.
Qed.

(** Grouping by ticket and warehouse is grouping by warehouse and
    ticket: the same groups, in the same order of first appearance. *)
Lemma group_rows_swapped (f g : nat -> option Cell) (l : list nat) :
  map snd (group_rows (map (fun i => [g i; f i]) l))
  = map snd (group_rows (map (fun i => [f i; g i]) l)).
Proof.
  unfold group_rows. rewrite !length_map.
  apply fold_group_insert_swapped. constructor.
Qed.

End Distributions.

(** X24.  The table behind the histogram and the boxplot of
    [prepareSalesDistributions] has one column, the totals of the
    tickets of the window: one value for each pair of warehouse and
    ticket among the rows the window keeps, the sum of the prices of its
    rows.  Grouping by ticket and warehouse, as this function does, or
    by warehouse and ticket, as [prepareSummaryStatistics] does, gives
    the same totals; their order is the engine's. *)
Theorem salesData_ticket_totals
    (E : Engine) (df w : DataFrame) (days : Z)
    (wh nm : Series) (prices : list (option Z)) :
  filterLastNDaysFromMaxDate df days DATE = Ok w ->
  get_column w WAREHOUSE = Some wh ->
  get_column w NO_MOV = Some nm ->
  get_column w SALE_PRICE = Some (Int64 prices) ->
  exists totals,
    salesData E df days = Ok [(TOTAL_SALES, map PyInt totals)] /\
    Permutation totals
      (map (group_total (row_keys w [wh; nm]) prices)
           (distinct_keys (row_keys w [wh; nm]))).
Proof.
  intros F GW GN GP.
  assert (K : cols w [NO_MOV; WAREHOUSE] = Ok [nm; wh])
    by (cbn [cols]; now rewrite (col_get _ _ _ GN), (col_get _ _ _ GW)).
  pose proof (group_by_agg_sum_run E w [NO_MOV; WAREHOUSE] SALE_PRICE
                TOTAL_SALES [nm; wh] prices K GP eq_refl) as G.
  cbv zeta in G. cbn [combine map app] in G.
  set (groups := group_order E Group (group_rows (row_keys w [nm; wh]))) in *.
  exists (map (fun g : Group => sum_Z (take_list (snd g) prices)) groups).
  split.
  - unfold salesData. rewrite F. cbn [bind]. rewrite G. cbn [bind].
    unfold select. cbn [cols]. erewrite col_get by reflexivity.
    change (first_duplicate [TOTAL_SALES]) with (@None string).
    cbn [bind combine].
    cbn [to_dict map snd to_list sequence bind columns fst combine].
    unfold Pandas.DataFrame_of_dict. now rewrite !map_map.
  - unfold groups.
    rewrite (Permutation_map _ (group_order_perm E Group _)).
    replace (map (fun g : Group => sum_Z (take_list (snd g) prices))
                 (group_rows (row_keys w [nm; wh])))
      with (map (fun ix => sum_Z (take_list ix prices))
                (map snd (group_rows (row_keys w [nm; wh]))))
      by (now rewrite map_map).
    rewrite !row_keys_pair.
    rewrite (group_rows_swapped (fun i => nth i (cells wh) None)
                                (fun i => nth i (cells nm) None)).
    rewrite group_rows_spec, !map_map. reflexivity.
Qed.

(** The three-row table: the tickets T1 and T2 with 150 and 200. *)
Lemma salesData_ticket_totals_witness :
  exists totals,
    salesData Examples.engine_keep Examples.scenario 30
    = Ok [(TOTAL_SALES, map PyInt totals)] /\
    Permutation totals [150; 200].
Proof.
  apply (salesData_ticket_totals
           Examples.engine_keep Examples.scenario Examples.scenario 30
           (Utf8 [Some "W1"; Some "W1"; Some "W2"])
           (Utf8 [Some "T1"; Some "T1"; Some "T2"])
           [Some 100; Some 50; Some 200]); reflexivity.
Defined.
